(** * TestCursorPlugin: batch text replacement for Photoshop (UXP panel)

    A shallow embedding of [TestCursorPlugin/index.js] and the properties
    of its CSV loader, relay sink, font-size adapter, folder provisioning,
    PNG export chain and batch controller.

    Conventions of the embedding:
    - a JavaScript string is the list of its UTF-16 code units ([Js.str]);
    - an [async] function is a computation of the monad [Eff]: the panel
      runs on one cooperative task, so awaiting is sequencing; state
      written before an exception is thrown stays written;
    - a call into the host (Photoshop, UXP storage) is answered by a host
      record given as an argument: one field per call site, holding what
      the host returns or throws there;
    - [log] lines that mark the start of a strategy are kept as events of
      a trace; all other logging is dropped. *)

From stdpp Require Import base option list gmap strings.
From Stdlib Require Import Floats.

(** ** JavaScript strings *)

Module Js.

Definition str : Type := list N.

(** The code units of an ASCII literal. *)
Definition lit (s : string) : str :=
  (fun a => Ascii.N_of_ascii a) <$> String.list_ascii_of_string s.

(** [WhiteSpace] and [LineTerminator] code points, the set removed by
    [String.prototype.trim] and skipped by [parseFloat]. *)
Definition isWhiteSpace (c : N) : bool :=
  ((9 <=? c) && (c <=? 13) || (c =? 32) || (c =? 160) || (c =? 5760)
   || (8192 <=? c) && (c <=? 8202) || (c =? 8232) || (c =? 8233)
   || (c =? 8239) || (c =? 8287) || (c =? 12288) || (c =? 65279))%N.

Fixpoint trimStart (s : str) : str :=
  match s with
  | c :: s' => if isWhiteSpace c then trimStart s' else s
  | [] => []
  end.

Definition trimEnd (s : str) : str := rev (trimStart (rev s)).

Definition trim (s : str) : str := trimEnd (trimStart s).

(** [s.split(sep)] for a separator of one code unit: never empty. *)
Fixpoint split (sep : N) (s : str) : list str :=
  match s with
  | [] => [[]]
  | c :: s' =>
      if (c =? sep)%N then [] :: split sep s'
      else match split sep s' with
           | p :: ps => (c :: p) :: ps
           | [] => [[c]]
           end
  end.

Fixpoint startsWith (prefix s : str) : bool :=
  match prefix, s with
  | [], _ => true
  | p :: prefix', c :: s' => (p =? c)%N && startsWith prefix' s'
  | _ :: _, [] => false
  end.

(** Truthiness of a string value: non-empty. *)
Definition truthy (s : str) : bool :=
  match s with [] => false | _ => true end.

Definition isDigit (c : N) : bool := ((48 <=? c) && (c <=? 57))%N.

Definition isAlnum (c : N) : bool :=
  (isDigit c || (65 <=? c) && (c <=? 90) || (97 <=? c) && (c <=? 122))%N.

(** [isNaN(parseFloat(s))]: [parseFloat] skips leading white space and
    reads the longest prefix that is a [StrDecimalLiteral]; the result is
    NaN exactly when there is no such prefix, that is when what follows
    the optional sign starts neither with [Infinity], nor with a digit,
    nor with a dot and a digit. *)
Definition parseFloat_isNaN (s : str) : bool :=
  let t := trimStart s in
  let u := match t with
           | c :: r => if ((c =? 43) || (c =? 45))%N then r else t
           | [] => []
           end in
  negb (startsWith (lit "Infinity") u
        || match u with
           | d :: r =>
               isDigit d
               || (d =? 46)%N && match r with e :: _ => isDigit e | [] => false end
           | [] => false
           end).

(** [s.replace(/[^a-zA-Z0-9]/g, '_')] *)
Definition sanitize (s : str) : str :=
  (fun c => if isAlnum c then c else 95%N) <$> s.

(** [s.replace(/\\/g, '/')] *)
Definition slashes (s : str) : str :=
  (fun c => if (c =? 92)%N then 47%N else c) <$> s.

(** [s.match(/\d+/)?.[0]]: the first maximal run of digits. *)
Fixpoint takeDigits (s : str) : str :=
  match s with
  | c :: s' => if isDigit c then c :: takeDigits s' else []
  | [] => []
  end.

Fixpoint firstDigits (s : str) : option str :=
  match s with
  | c :: s' => if isDigit c then Some (c :: takeDigits s') else firstDigits s'
  | [] => None
  end.

(** A plain object used as a map from property names to strings.
    Writing a string to [__proto__] reaches the inherited setter, which
    ignores values that are not objects: no own property appears. *)
Definition obj_set (k v : str) (o : gmap str str) : gmap str str :=
  if decide (k = lit "__proto__") then o else <[k := v]> o.

(** [!!o[k]]: the property is present and not the empty string. *)
Definition has (o : gmap str str) (k : str) : bool :=
  match o !! k with Some v => truthy v | None => false end.

End Js.

Notation "'js:' s" := (Js.lit s) (at level 1, s at level 0, format "'js:' s").

(** ** Errors and computations *)

(** A thrown value: an [Error] of the host or of the runtime, or the
    plugin's [PluginError] with its code and the errors kept in its
    [details] (other detail fields carry no behaviour and are dropped). *)
#[warnings="-register-all"]
Inductive JsError : Type :=
  | HostError (message : Js.str)
  | PluginError (message : Js.str) (code : string)
                (details : list (string * JsError)).

Definition message (e : JsError) : Js.str :=
  match e with HostError m => m | PluginError m _ _ => m end.

Definition code (e : JsError) : option string :=
  match e with HostError _ => None | PluginError _ c _ => Some c end.

Definition details (e : JsError) : list (string * JsError) :=
  match e with HostError _ => [] | PluginError _ _ d => d end.

Inductive Outcome (A : Type) : Type :=
  | Returned (a : A)
  | Threw (e : JsError).
Arguments Returned {A} a.
Arguments Threw {A} e.

Definition threw {A} (o : Outcome A) : bool :=
  match o with Threw _ => true | Returned _ => false end.

(** State that survives exceptions, with [try]/[catch]. *)
Definition Eff (S A : Type) : Type := S -> Outcome A * S.

Definition ret {S A} (a : A) : Eff S A := fun s => (Returned a, s).

Definition throw {S A} (e : JsError) : Eff S A := fun s => (Threw e, s).

Definition bind {S A B} (m : Eff S A) (k : A -> Eff S B) : Eff S B :=
  fun s => match m s with
           | (Returned a, s') => k a s'
           | (Threw e, s') => (Threw e, s')
           end.

Definition try_catch {S A} (m : Eff S A) (h : JsError -> Eff S A) : Eff S A :=
  fun s => match m s with
           | (Returned a, s') => (Returned a, s')
           | (Threw e, s') => h e s'
           end.

(** [try { m } finally { f }] where [f] neither throws nor returns. *)
Definition finally {S A} (m : Eff S A) (f : S -> S) : Eff S A :=
  fun s => let '(o, s') := m s in (o, f s').

Definition modify {S} (f : S -> S) : Eff S unit := fun s => (Returned tt, f s).

Definition get {S} : Eff S S := fun s => (Returned s, s).

(** The answer of the host at one call site. *)
Definition host {S A} (o : Outcome A) : Eff S A := fun s => (o, s).

Declare Scope eff_scope.
Delimit Scope eff_scope with eff.
Notation "'let!' x ':=' m 'in' k" := (bind m (fun x => k))
  (at level 10, x name, m at level 100, k at level 200) : eff_scope.
Notation "'do!' m 'in' k" := (bind m (fun _ => k))
  (at level 10, m at level 100, k at level 200) : eff_scope.
Notation "'try!' m 'catch' e '=>' h" := (try_catch m (fun e => h))
  (at level 10, m at level 200, e name, h at level 200) : eff_scope.
Local Open Scope eff_scope.

(** Computations that only append to a trace. *)
Definition emit {E} (ev : E) : Eff (list E) unit :=
  modify (fun t => t ++ [ev]).

(** ** The panel's state: [textReplaceState] and the stop flag *)

Definition Row : Type := gmap Js.str Js.str.

(** A storage entry handed out by the host. *)
Record Entry : Type := mkEntry { nativePath : Js.str; isFolder : bool }.

Record PluginState : Type := mkState {
  isProcessing : bool;               (* status.isProcessing *)
  csvLoaded : bool;                  (* status.steps.csvLoaded *)
  totalRows : nat;                   (* status.performance.totalRows *)
  processedRows : nat;               (* status.performance.processedRows *)
  csvData : option (list Row);       (* data.csvData *)
  outputFolder : option Entry;       (* data.outputFolder *)
  stopProcessingRequested : bool     (* the global stop flag *)
}.

(** [createPluginState()] with [stopProcessingRequested = false]. *)
Definition createPluginState : PluginState :=
  mkState false false 0 0 None None false.

Definition set_isProcessing (b : bool) (s : PluginState) : PluginState :=
  mkState b (csvLoaded s) (totalRows s) (processedRows s) (csvData s)
          (outputFolder s) (stopProcessingRequested s).
Definition set_csvLoaded (b : bool) (s : PluginState) : PluginState :=
  mkState (isProcessing s) b (totalRows s) (processedRows s) (csvData s)
          (outputFolder s) (stopProcessingRequested s).
Definition set_totalRows (n : nat) (s : PluginState) : PluginState :=
  mkState (isProcessing s) (csvLoaded s) n (processedRows s) (csvData s)
          (outputFolder s) (stopProcessingRequested s).
Definition set_processedRows (n : nat) (s : PluginState) : PluginState :=
  mkState (isProcessing s) (csvLoaded s) (totalRows s) n (csvData s)
          (outputFolder s) (stopProcessingRequested s).
Definition set_csvData (d : option (list Row)) (s : PluginState) : PluginState :=
  mkState (isProcessing s) (csvLoaded s) (totalRows s) (processedRows s) d
          (outputFolder s) (stopProcessingRequested s).
Definition set_outputFolder (f : option Entry) (s : PluginState) : PluginState :=
  mkState (isProcessing s) (csvLoaded s) (totalRows s) (processedRows s)
          (csvData s) f (stopProcessingRequested s).
Definition set_stop (b : bool) (s : PluginState) : PluginState :=
  mkState (isProcessing s) (csvLoaded s) (totalRows s) (processedRows s)
          (csvData s) (outputFolder s) b.

(** ** CSV loader: [loadTextCSV] *)

Module Csv.

Record File : Type := mkFile { fileName : Js.str; read : Outcome Js.str }.

Definition isTextColumn (h : Js.str) : bool := Js.startsWith js:"text" h.
Definition isFontSizeColumn (h : Js.str) : bool := Js.startsWith js:"fontsize" h.

(** [lines[0].trim().split(',').map(h => h.trim())] *)
Definition headersOf (fileContent : Js.str) : list Js.str :=
  Js.trim <$> Js.split 44 (Js.trim (hd [] (Js.split 10 fileContent))).

(** [lines[1]], [lines[2]], ... *)
Definition dataLinesOf (fileContent : Js.str) : list Js.str :=
  tl (Js.split 10 fileContent).

(** [line.split(',').map(v => v.trim())] on the trimmed line. *)
Definition valuesOf (rawLine : Js.str) : list Js.str :=
  Js.trim <$> Js.split 44 (Js.trim rawLine).

(** One turn of [headers.forEach((header, index) => ...)]: the object
    under construction and [hasData]. *)
Definition rowStep (acc : Row * bool) (hv : Js.str * Js.str) : Row * bool :=
  let '(rowData, hasData) := acc in
  let '(header, value) := hv in
  let rowData := Js.obj_set header value rowData in
  let hasData := hasData || (isTextColumn header && Js.truthy value) in
  let rowData :=
    if isFontSizeColumn header && Js.truthy value
    then if Js.parseFloat_isNaN value
         then Js.obj_set header [] rowData
         else rowData
    else rowData in
  (rowData, hasData).

(** The [forEach] over the header, reading [values[index]]; it runs only
    when both arrays have the same length. *)
Definition buildRow (headers values : list Js.str) : Row * bool :=
  foldl rowStep (∅, false) (zip headers values).

(** The loop [for (let i = 1; i < lines.length; i++)] over the lines
    after the header, returning [data]. *)
Fixpoint parseLines (headers : list Js.str) (lines : list Js.str) : list Row :=
  match lines with
  | [] => []
  | rawLine :: rest =>
      if Js.truthy (Js.trim rawLine) then
        let values := valuesOf rawLine in
        if negb (length values =? length headers) then
          parseLines headers rest                      (* malformed: skip *)
        else
          let '(rowData, hasData) := buildRow headers values in
          if hasData then rowData :: parseLines headers rest
          else parseLines headers rest
      else parseLines headers rest                     (* empty line *)
  end.

Definition invalidCsvFormat : JsError :=
  PluginError js:"No text columns found in CSV" "INVALID_CSV_FORMAT" [].

Definition emptyCsvData : JsError :=
  PluginError js:"No valid data rows found in CSV" "EMPTY_CSV_DATA" [].

Definition csvLoadError (original : JsError) : JsError :=
  PluginError js:"Failed to load CSV file" "CSV_LOAD_ERROR"
              [("originalError", original)].

(** [loadTextCSV(file)]; [relay] is what the call of [writeToMCPRelay]
    at the end of the function does. *)
Definition loadTextCSV (file : File) (relay : Outcome Js.str)
  : Eff PluginState (list Row) :=
  try! (
    let! fileContent := host (read file) in
    let headers := headersOf fileContent in
    let textColumns := filter (fun h => isTextColumn h = true) headers in
    if length textColumns =? 0 then throw invalidCsvFormat
    else
      let data := parseLines headers (dataLinesOf fileContent) in
      if length data =? 0 then throw emptyCsvData
      else
        do! modify (fun s =>
              set_totalRows (length data)
                (set_csvLoaded true (set_csvData (Some data) s))) in
        do! host relay in
        ret data)
  catch error =>
    (do! modify (set_csvLoaded false) in
     throw (csvLoadError error)).

(** The data line at hand has as many fields as the header has columns. *)
Definition fieldCountMatches (headers : list Js.str) (rawLine : Js.str) : bool :=
  length (valuesOf rawLine) =? length headers.

End Csv.

(** Run a computation on a part of the state. *)
Definition zoom {S T A} (proj : S -> T) (inj : T -> S -> S) (m : Eff T A)
  : Eff S A :=
  fun s => let '(o, t) := m (proj s) in (o, inj t s).

(** ** Relay sink: [writeToMCPRelay] *)

Module Relay.

(** The event object handed to the relay; only the fields that the
    properties below read are kept. *)
Record Data : Type := mkData {
  dataMessage : Js.str;
  methodsUsed : list Js.str
}.

(** What the storage layer answers at each call site of the function. *)
Record Host : Type := mkHost {
  utf8Available : bool;                  (* formats && formats.utf8 *)
  getTemporaryFolder : Outcome unit;     (* fs.getTemporaryFolder() *)
  getMcpRelay : Outcome bool;            (* tempFolder.getEntry('mcp-relay'), its isFolder *)
  createMcpRelay : Outcome unit;         (* tempFolder.createEntry('mcp-relay', folder) *)
  getLogs : Outcome bool;                (* mcpRelayFolder.getEntry('logs'), its isFolder *)
  createLogs : Outcome unit;             (* mcpRelayFolder.createEntry('logs', folder) *)
  logsPath : Js.str;                     (* logsFolder.nativePath *)
  fileName : Js.str;                     (* `mcp-out-${timestamp}.json` *)
  stringify : Data -> Outcome (option Js.str);  (* JSON.stringify; None is undefined *)
  createFile : Outcome (bool * Js.str);  (* logsFolder.createFile: has the handle write()? its nativePath *)
  write : Outcome unit;                  (* file.write(jsonString) *)
  createTemporaryFile : Outcome unit;    (* fs.createTemporaryFile('mcp-relay-') *)
  tempWrite : Outcome unit;              (* tempFile.write(jsonString) *)
  moveTo : Outcome unit                  (* tempFile.moveTo(finalPath) *)
}.

(** The write attempts, in the order in which they are started. *)
Inductive Event : Type :=
  | PrimaryCreateFile
  | PrimaryWrite
  | FallbackCreateTemp
  | FallbackWrite
  | FallbackMove.

#[export] Instance Event_eq_dec : EqDecision Event.
Proof. solve_decision. Defined.

Definition finalPath (h : Host) : Js.str := logsPath h ++ js:"/" ++ fileName h.

(** [getEntry(name)], the [isFolder] test, and [createEntry] when either
    fails. *)
Definition getOrCreate (getIt : Outcome bool) (createIt : Outcome unit)
    (notAFolder : Js.str) : Eff (list Event) unit :=
  try! (let! entryIsFolder := host getIt in
        if negb entryIsFolder then throw (HostError notAFolder) else ret tt)
  catch error => host createIt.

Definition serialise (h : Host) (d : Data) : Eff (list Event) Js.str :=
  try! (let! jsonString := host (stringify h d) in
        match jsonString with
        | Some (c :: s) => ret (c :: s)
        | _ => throw (HostError js:"JSON stringification resulted in empty string")
        end)
  catch jsonError =>
    throw (PluginError (js:"Failed to stringify data: " ++ message jsonError)
                       "JSON_ERROR" [("jsonError", jsonError)]).

(** The first attempt: create the file in the logs folder and write. *)
Definition primaryWrite (h : Host) : Eff (list Event) Js.str :=
  do! emit PrimaryCreateFile in
  let! file := host (createFile h) in
  if negb file.1 then
    throw (PluginError js:"Invalid file handle: write() not available"
                       "FILE_WRITE_TYPE_ERROR" [])
  else
    do! emit PrimaryWrite in
    do! host (write h) in
    ret file.2.

(** The second attempt: write a temporary file and move it in place. *)
Definition fallbackWrite (h : Host) : Eff (list Event) Js.str :=
  do! emit FallbackCreateTemp in
  do! host (createTemporaryFile h) in
  do! emit FallbackWrite in
  do! host (tempWrite h) in
  do! emit FallbackMove in
  do! host (moveTo h) in
  ret (finalPath h).

Definition fileWriteError (writeError fallbackError : JsError) : JsError :=
  PluginError js:"Both standard and fallback write attempts failed"
              "FILE_WRITE_ERROR"
              [("originalError", writeError); ("fallbackError", fallbackError)].

Definition mcpWriteError (error : JsError) : JsError :=
  PluginError (js:"Failed to write to MCP relay: " ++ message error)
              "MCP_WRITE_ERROR" [("originalError", error)].

(** [writeToMCPRelay(data)]; [None] stands for a falsy argument. *)
Definition writeToMCPRelay (h : Host) (data : option Data)
  : Eff (list Event) Js.str :=
  match data with
  | None => throw (PluginError js:"No data provided for MCP relay" "INVALID_INPUT" [])
  | Some d =>
      if negb (utf8Available h) then
        throw (PluginError js:"UTF-8 format not available" "FORMAT_ERROR" [])
      else
        try! (
          do! host (getTemporaryFolder h) in
          do! getOrCreate (getMcpRelay h) (createMcpRelay h)
                          js:"mcp-relay exists but is not a folder" in
          do! getOrCreate (getLogs h) (createLogs h)
                          js:"logs exists but is not a folder" in
          let! jsonString := serialise h d in
          try! primaryWrite h
          catch writeError =>
            (try! fallbackWrite h
             catch fallbackError =>
               throw (fileWriteError writeError fallbackError)))
        catch error => throw (mcpWriteError error)
  end.

(** The primary attempt failed: creating the file, the handle test or
    the write threw. *)
Definition primaryFails (h : Host) : bool :=
  match createFile h with
  | Threw _ => true
  | Returned (false, _) => true
  | Returned (true, _) => threw (write h)
  end.

Definition fallbackFails (h : Host) : bool :=
  threw (createTemporaryFile h) || threw (tempWrite h) || threw (moveTo h).

(** Everything before the first write attempt went through. *)
Definition reachesWrite (h : Host) (d : Data) : bool :=
  utf8Available h
  && negb (threw (getTemporaryFolder h))
  && match getMcpRelay h with
     | Returned true => true
     | _ => negb (threw (createMcpRelay h))
     end
  && match getLogs h with
     | Returned true => true
     | _ => negb (threw (createLogs h))
     end
  && match stringify h d with
     | Returned (Some (_ :: _)) => true
     | _ => false
     end.

End Relay.

(** ** Font size: [verifyFontSize] and [updateFontSize] *)

Module FontSize.

(** A JavaScript value as far as the size checks can tell values apart:
    [undefined], [null], a number, or any other value, which is known by
    what [parseFloat] makes of it ([None] when converting it to a string
    throws). *)
Inductive jsval : Type :=
  | JUndefined
  | JNull
  | JNum (x : float)
  | JOpaque (parsed : option float).

Definition conversionError : JsError :=
  HostError js:"Cannot convert object to primitive value".

(** [parseFloat(v)]: the argument is first converted to a string; a
    number comes back as itself (its decimal form reads back exactly, up
    to the sign of zero, which the comparison below does not see). *)
Definition parseFloat (v : jsval) : Outcome float :=
  match v with
  | JUndefined | JNull => Returned nan
  | JNum x => Returned x
  | JOpaque (Some x) => Returned x
  | JOpaque None => Threw conversionError
  end.

(** A template literal [`${v}pt`] inside a [log] call. *)
Definition interpolate {S} (v : jsval) : Eff S unit :=
  match v with
  | JOpaque None => throw conversionError
  | _ => ret tt
  end.

(** A layer handle: its name, its id and what the two read channels
    answer ([layer.textItem?.size], and [layer.textItem?.style?.size]
    read inside [executeAsModal]). *)
Record Layer : Type := mkLayer {
  name : option Js.str;
  id : N;
  textItemSize : Outcome jsval;
  styleSize : Outcome jsval
}.

(** [const tolerance = 0.1]: the binary64 number nearest to one tenth. *)
Definition tolerance : float := 0x1.999999999999ap-4%float.

(** [Math.abs(parseFloat(m) - parseFloat(expected)) < tolerance] *)
Definition withinTolerance {S} (m expected : jsval) : Eff S bool :=
  let! a := host (parseFloat m) in
  let! b := host (parseFloat expected) in
  ret (PrimFloat.ltb (PrimFloat.abs (PrimFloat.sub a b)) tolerance).

(** [measurements.every(...)]: stops at the first failure. *)
Fixpoint every {S} (expected : jsval) (ms : list jsval) : Eff S bool :=
  match ms with
  | [] => ret true
  | m :: ms' =>
      let! ok := withinTolerance m expected in
      if ok then every expected ms' else ret false
  end.

(** [measurements.filter(m => ... >= tolerance)], run for the log line of
    the mismatch. *)
Fixpoint mismatches {S} (expected : jsval) (ms : list jsval) : Eff S (list jsval) :=
  match ms with
  | [] => ret []
  | m :: ms' =>
      let! a := host (parseFloat m) in
      let! b := host (parseFloat expected) in
      let! rest := mismatches expected ms' in
      ret (if PrimFloat.leb tolerance (PrimFloat.abs (PrimFloat.sub a b))
           then m :: rest else rest)
  end.

(** One read channel: the value is assigned before the log line that
    prints it, so a throwing log line leaves the value assigned. *)
Definition readChannel (channel : Outcome jsval) : jsval :=
  match channel with
  | Returned v => v
  | Threw _ => JUndefined
  end.

Definition isMeasurement (v : jsval) : bool :=
  match v with JUndefined | JNull => false | _ => true end.

Fixpoint interpolateAll {S} (ms : list jsval) : Eff S unit :=
  match ms with
  | [] => ret tt
  | m :: ms' => do! interpolate m in interpolateAll ms'
  end.

(** [verifyFontSize(layer, expectedSize)]; [None] is a missing layer. *)
Definition verifyFontSize {S} (layer : option Layer) (expectedSize : jsval)
  : Eff S bool :=
  try! (
    match layer with
    | None => throw (HostError js:"Cannot read properties of undefined (reading 'name')")
    | Some l =>
        do! interpolate expectedSize in
        let textItemSize := readChannel (textItemSize l) in
        let textStyleSize := readChannel (styleSize l) in
        let measurements :=
          filter (fun v => isMeasurement v = true) [textItemSize; textStyleSize] in
        if length measurements =? 0 then ret false
        else
          do! interpolateAll measurements in
          let! sizesMatch := every expectedSize measurements in
          if negb sizesMatch then
            let! mismatched := mismatches expectedSize measurements in
            do! interpolateAll mismatched in
            do! interpolate expectedSize in
            ret false
          else
            do! interpolate expectedSize in
            ret true
    end)
  catch error => ret false.

(** *** [updateFontSize], as it stands in the current source *)

Inductive Method : Type := DomApi | BatchPlayTextStyle | BatchPlayProperty.

#[export] Instance Method_eq_dec : EqDecision Method.
Proof. solve_decision. Defined.

Definition methodName (m : Method) : Js.str :=
  match m with
  | DomApi => js:"DOM API"
  | BatchPlayTextStyle => js:"batchPlay textStyle"
  | BatchPlayProperty => js:"batchPlay property"
  end.

(** What the host does at the three mutation sites, and the storage
    answers for the relay write that follows. *)
Record Host : Type := mkHost {
  domAssign : Outcome unit;           (* layer.textItem.size = size *)
  batchPlayTextStyle : Outcome unit;  (* set, target textLayer by _id *)
  batchPlayProperty : Outcome unit;   (* set, target property textStyle of the layer *)
  relay : Relay.Host
}.

(** Log lines of the function that are kept: a mutation call came back
    ([Updated]), it threw ([Failed]), and [wait(ms)]. *)
Inductive Event : Type :=
  | Updated (m : Method)
  | Failed (m : Method)
  | Waited (ms : nat).

#[export] Instance Event_eq_dec : EqDecision Event.
Proof. solve_decision. Defined.

Record Trace : Type := mkTrace {
  events : list Event;
  relayEvents : list Relay.Event
}.

Definition logEvent (ev : Event) : Eff Trace unit :=
  modify (fun t => mkTrace (events t ++ [ev]) (relayEvents t)).

(** [delays.fontUpdate] *)
Definition fontUpdateDelay : nat := 500.

(** [updateMethods.join(', ')] *)
Fixpoint join (l : list Js.str) : Js.str :=
  match l with
  | [] => []
  | [x] => x
  | x :: l' => x ++ js:", " ++ join l'
  end.

(** One of the three [try] blocks, on [updateSuccess] and
    [updateMethods]; the blocks after the first are guarded by
    [if (!updateSuccess)]. *)
Definition attempt (m : Method) (call : Outcome unit)
    (vars : bool * list Js.str) : Eff Trace (bool * list Js.str) :=
  let '(updateSuccess, updateMethods) := vars in
  if updateSuccess then ret vars
  else
    try! (do! host call in
          do! logEvent (Updated m) in
          do! logEvent (Waited fontUpdateDelay) in   (* verification skipped *)
          ret (true, updateMethods ++ [methodName m]))
    catch error =>
      (do! logEvent (Failed m) in ret (updateSuccess, updateMethods)).

Definition layerNameText (layer : option Layer) : Js.str :=
  match layer with
  | Some l => match name l with Some n => n | None => js:"undefined" end
  | None => js:"undefined"
  end.

Definition hasName (layer : option Layer) : bool :=
  match layer with
  | Some l => match name l with Some n => Js.truthy n | None => false end
  | None => false
  end.

Definition notVerified (updateMethods : list Js.str) : JsError :=
  HostError (js:"Font size change could not be verified after trying multiple methods: "
             ++ join updateMethods).

Definition fontSizeUpdateError (layer : option Layer) (error : JsError) : JsError :=
  PluginError (js:"Failed to update font size in layer " ++ layerNameText layer)
              "FONT_SIZE_UPDATE_ERROR" [("originalError", error)].

Definition relayData (layer : option Layer) (updateMethods : list Js.str)
  : Relay.Data :=
  Relay.mkData (js:"Font size updated and verified: " ++ layerNameText layer)
               updateMethods.

Definition relayWrite (h : Host) (layer : option Layer)
    (updateMethods : list Js.str) : Eff (list Relay.Event) Js.str :=
  Relay.writeToMCPRelay (relay h) (Some (relayData layer updateMethods)).

Definition updateFontSize (h : Host) (layer : option Layer) (fontSize : jsval)
  : Eff Trace bool :=
  try! (
    if negb (hasName layer) then
      throw (PluginError js:"Invalid layer object" "INVALID_LAYER" [])
    else
      let! size := host (parseFloat fontSize) in
      if PrimFloat.is_nan size then
        throw (PluginError js:"Invalid font size" "INVALID_FONT_SIZE" [])
      else
        let! vars := attempt DomApi (domAssign h) (false, []) in
        let! vars := attempt BatchPlayTextStyle (batchPlayTextStyle h) vars in
        let! vars := attempt BatchPlayProperty (batchPlayProperty h) vars in
        let '(updateSuccess, updateMethods) := vars in
        if negb updateSuccess then throw (notVerified updateMethods)
        else
          do! zoom relayEvents (fun r t => mkTrace (events t) r)
                (relayWrite h layer updateMethods) in
          ret true)
  catch error => throw (fontSizeUpdateError layer error).

End FontSize.

(** ** Folder provisioning: [setupTextOutputFolders] *)

Module Folders.

(** The output folder as the storage layer holds it: its children by
    name, and the names for which [createEntry] has made a new entry. *)
Record Fs : Type := mkFs {
  children : gmap Js.str Entry;
  created : list Js.str
}.

(** [folder.getEntry(name)]: throws when there is no such child. *)
Definition getEntry (entryName : Js.str) : Eff Fs Entry :=
  fun fs =>
    match children fs !! entryName with
    | Some e => (Returned e, fs)
    | None => (Threw (HostError js:"Could not find an entry"), fs)
    end.

(** [folder.createEntry(name, { type: 'folder' })]: [overwrite] is not
    set, so the call throws when the name is taken; it also throws when
    the host refuses the write ([writable = false]). *)
Definition createEntry (writable : bool) (parent : Entry) (entryName : Js.str)
  : Eff Fs Entry :=
  fun fs =>
    match children fs !! entryName with
    | Some _ => (Threw (HostError js:"Entry already exists"), fs)
    | None =>
        if writable then
          let e := mkEntry (nativePath parent ++ js:"/" ++ entryName) true in
          (Returned e, mkFs (<[entryName := e]> (children fs))
                            (created fs ++ [entryName]))
        else (Threw (HostError js:"Permission denied"), fs)
    end.

(** [entry.isEntry]: true of every entry the storage layer hands out. *)
Definition isEntry (e : Entry) : bool := true.

Record OutputFolders : Type := mkFolders {
  baseFolder : Entry;
  pngFolder : Entry;
  pngNativePath : Js.str
}.

Definition textPng : Js.str := js:"Text_PNG".

Definition folderCreateError (error : JsError) : JsError :=
  PluginError js:"Failed to create Text_PNG folder" "FOLDER_CREATE_ERROR"
              [("error", error)].

Definition folderSetupError (error : JsError) : JsError :=
  PluginError js:"Failed to setup output folders" "FOLDER_SETUP_ERROR"
              [("error", error)].

Definition setupTextOutputFolders (writable : bool) (outputFolder : option Entry)
  : Eff Fs OutputFolders :=
  try! (
    match outputFolder with
    | None => throw (PluginError js:"Output folder not selected" "FOLDER_NOT_SELECTED" [])
    | Some out =>
        let! png :=
          (try! (
             let! png :=
               (try! (let! found := getEntry textPng in
                      if negb (isFolder found) then
                        throw (HostError js:"Text_PNG exists but is not a folder")
                      else ret found)
                catch notFoundError => createEntry writable out textPng) in
             if negb (isFolder png) then
               throw (PluginError js:"Failed to create PNG folder" "FOLDER_CREATE_ERROR" [])
             else ret png)
           catch error => throw (folderCreateError error)) in
        do! (try! (if negb (isEntry png) then
                     throw (PluginError js:"Could not verify PNG folder access"
                                        "FOLDER_ACCESS_ERROR" [])
                   else ret tt)
             catch verifyError =>
               throw (PluginError js:"Failed to verify folder access"
                                  "FOLDER_VERIFY_ERROR" [("error", verifyError)])) in
        ret (mkFolders out png (Js.slashes (nativePath png)))
    end)
  catch error => throw (folderSetupError error).

End Folders.

(** ** PNG export: [saveAsPNG] *)

Module Png.

Record Doc : Type := mkDoc { docId : N; docName : Js.str }.

(** *** The earlier version (session token, then path, then temp file) *)

Module V1.

Record Host : Type := mkHost {
  getTemporaryFolder : Outcome unit;       (* fs.getTemporaryFolder() *)
  getEntryWithUrl : Outcome (option bool); (* None: falsy; Some b: entry with isFolder = b *)
  createInOutputDir : Outcome unit;        (* outputDirEntry.createFile *)
  createInTemp : Outcome unit;             (* tempFolder.createFile, after dirError *)
  createSessionToken : Outcome unit;       (* fs.createSessionToken(outputFile) *)
  batchPlayExport : Outcome unit;          (* exportDocument to the token *)
  batchPlaySavePath : Outcome unit;        (* save, in: { _path: outputPath } *)
  getTemporaryFolderAgain : Outcome unit;
  createTempFile : Outcome unit;
  createSaveToken : Outcome unit;
  batchPlaySaveToken : Outcome unit        (* save, in: { _path: saveToken } *)
}.

(** Log lines that open an attempt, and the one after the last. *)
Inductive Event : Type :=
  | StartingPngSave
  | AttemptingFallback
  | AttemptingLastResort
  | AllMethodsFailed.

#[export] Instance Event_eq_dec : EqDecision Event.
Proof. solve_decision. Defined.

Definition primary (h : Host) (doc : option Doc) : Eff (list Event) unit :=
  do! emit StartingPngSave in
  do! host (getTemporaryFolder h) in
  do! (try! (let! outputDirEntry := host (getEntryWithUrl h) in
             match outputDirEntry with
             | Some true => host (createInOutputDir h)
             | _ => throw (HostError js:"Invalid output directory")
             end)
       catch dirError => host (createInTemp h)) in
  do! host (createSessionToken h) in
  match doc with
  | None => throw (HostError js:"Cannot read properties of undefined (reading '_id')")
  | Some _ => host (batchPlayExport h)
  end.

Definition fallback (h : Host) : Eff (list Event) unit :=
  do! emit AttemptingFallback in
  host (batchPlaySavePath h).

Definition lastResort (h : Host) : Eff (list Event) unit :=
  do! emit AttemptingLastResort in
  do! host (getTemporaryFolderAgain h) in
  do! host (createTempFile h) in
  do! host (createSaveToken h) in
  host (batchPlaySaveToken h).

Definition pngSaveError (error fallbackError lastError : JsError) : JsError :=
  PluginError js:"Failed to save PNG (all methods failed)" "PNG_SAVE_ERROR"
              [("originalError", error); ("fallbackError", fallbackError);
               ("lastError", lastError)].

Definition saveAsPNG (h : Host) (doc : option Doc) : Eff (list Event) unit :=
  try! primary h doc
  catch error =>
    (try! fallback h
     catch fallbackError =>
       (try! lastResort h
        catch lastError =>
          (do! emit AllMethodsFailed in
           throw (pngSaveError error fallbackError lastError)))).

End V1.

(** *** The current version (DOM API png, DOM API jpg, batchPlay save) *)

Module V2.

Record Host : Type := mkHost {
  getFolder : Outcome unit;          (* fs.getFolder(baseFolderPath) *)
  getTextPng : Outcome bool;         (* baseFolder.getEntry('Text_PNG'), truthy? *)
  createOutputFile : Outcome unit;   (* textPngFolder.createFile(fileName) *)
  saveAsPng : Outcome unit;          (* doc.saveAs.png(outputFile) in executeAsModal *)
  createJpegFile : Outcome unit;     (* textPngFolder.createFile(jpegFileName) *)
  saveAsJpg : Outcome unit;          (* doc.saveAs.jpg(jpegFile) in executeAsModal *)
  jpegExists : Outcome bool;         (* jpegFile.exists() *)
  jpegSize : Outcome N;              (* (await jpegFile.getMetadata()).size *)
  batchPlaySave : Outcome unit;      (* createSessionToken + batchPlay save *)
  outputExists : Outcome bool;       (* outputFile.exists() *)
  outputSize : Outcome N;            (* (await outputFile.getMetadata()).size *)
  writeReport : Outcome unit         (* outputFile.write(diagnosticContent) *)
}.

Inductive Event : Type := Method1 | Method2 | Method3 | Method4.

#[export] Instance Event_eq_dec : EqDecision Event.
Proof. solve_decision. Defined.

(** The trace of the log lines [Method n: ...], and the "Error Details"
    section of the diagnostic report once it is written to the output
    file: each method's label with the message of its failure. *)
Record Trace : Type := mkTrace {
  events : list Event;
  report : option (list (string * Js.str))
}.

Definition logMethod (ev : Event) : Eff Trace unit :=
  modify (fun t => mkTrace (events t ++ [ev]) (report t)).

Definition errorDetails (domError jpegError batchPlayError : JsError)
  : list (string * Js.str) :=
  [("Method 1 (DOM API saveAs.png)", message domError);
   ("Method 2 (DOM API saveAs.jpg)", message jpegError);
   ("Method 3 (batchPlay save)", message batchPlayError)].

(** The size check after a save: [Some true] is [return true]; [None]
    leaves the block without a [return], and the function then ends with
    [undefined]. *)
Definition checkFile (fileExists : Outcome bool) (fileSize : Outcome N)
  : Eff Trace (option bool) :=
  try! (let! present := host fileExists in
        if present then
          let! size := host fileSize in
          if (1000 <? size)%N then ret (Some true) else ret None
        else ret None)
  catch checkError => ret None.

Definition method4 (h : Host) (domError jpegError batchPlayError : JsError)
  : Eff Trace (option bool) :=
  do! logMethod Method4 in
  do! host (writeReport h) in
  do! modify (fun t =>
        mkTrace (events t)
                (Some (errorDetails domError jpegError batchPlayError))) in
  ret (Some false).

(** [saveAsPNG(doc, outputPath, folderRef)]; the result is [true],
    [false] or [undefined] ([None]). *)
Definition saveAsPNG (h : Host) (doc : option Doc)
    (folderRef : option Folders.OutputFolders) : Eff Trace (option bool) :=
  try! (
    match doc with
    | None => throw (HostError js:"No active document available")
    | Some _ =>
        do! match folderRef with
            | Some _ => ret tt
            | None =>
                do! host (getFolder h) in
                let! textPngFolder := host (getTextPng h) in
                if negb textPngFolder then
                  throw (HostError js:"Text_PNG folder not found")
                else ret tt
            end in
        do! host (createOutputFile h) in
        try! (do! logMethod Method1 in
              do! host (saveAsPng h) in
              ret (Some true))
        catch domError =>
          (try! (do! logMethod Method2 in
                 do! host (createJpegFile h) in
                 do! host (saveAsJpg h) in
                 checkFile (jpegExists h) (jpegSize h))
           catch jpegError =>
             (try! (do! logMethod Method3 in
                    do! host (batchPlaySave h) in
                    checkFile (outputExists h) (outputSize h))
              catch batchPlayError =>
                method4 h domError jpegError batchPlayError))
    end)
  catch error => ret (Some false).

End V2.

End Png.

(** ** Row pipeline and batch controller *)

Module Batch.

Record DocLayer : Type := mkLayer {
  layerName : Js.str;
  kindIsText : bool            (* layer.kind === 'text' || layer.kind === 3 *)
}.

Record Doc : Type := mkDoc { layers : list DocLayer }.

(** The value [processLayer] returns. *)
Record LayerUpdate : Type := mkUpdate {
  updatedLayer : Js.str;
  textUpdated : bool;
  fontSizeUpdated : bool
}.

(** An entry of a row's [errors] array. *)
Record RowError : Type := mkRowError {
  errorLayer : option Js.str;
  errorType : option string;
  errorText : Js.str;
  errorCode : option string
}.

Record RowResult : Type := mkRowResult {
  success : bool;
  processed : nat;
  errors : option (list RowError);   (* null when there is none *)
  filesSavedPng : bool
}.

(** An entry of [results] in [processCSV]. *)
Inductive ResultEntry : Type :=
  | RowDone (result : RowResult)
  | RowFailed (errorMessage : Js.str) (rowIndex : nat).

Record CsvSummary : Type := mkSummary {
  summarySuccess : bool;
  summaryProcessed : nat;
  summaryTotal : nat;
  summaryErrors : nat;
  summaryStopped : bool;
  summarySavedFiles : nat;
  results : list ResultEntry
}.

Inductive ProcessType : Type := Current | All.

(** Status and log lines of the controller that are kept. *)
Inductive Event : Type :=
  | ProcessingRow (i : nat)      (* "Processing row ${i + 1}/${length}..." *)
  | StoppedByUser (i : nat)      (* "Processing stopped by user request", at the top of turn i *)
  | AllRowsProcessed
  | NoMoreRows.

#[export] Instance Event_eq_dec : EqDecision Event.
Proof. solve_decision. Defined.

(** [row[key] || fallback] *)
Definition orElse (row : Row) (key fallback : Js.str) : Js.str :=
  match row !! key with
  | Some (c :: v) => c :: v
  | _ => fallback
  end.

Definition textKey (index : Js.str) : Js.str := js:"text" ++ index.
Definition fontSizeKey (index : Js.str) : Js.str := js:"fontsize" ++ index.

(** [layers.filter(...).map(...)]: text layers whose name holds a number,
    with that number. *)
Definition textLayersOf (doc : Doc) : list (DocLayer * Js.str) :=
  omap (fun layer =>
          match Js.firstDigits (layerName layer) with
          | Some index => if kindIsText layer then Some (layer, index) else None
          | None => None
          end)
       (layers doc).

Definition hasRowData (row : Row) (index : Js.str) : bool :=
  Js.has row (textKey index) || Js.has row (fontSizeKey index).

Definition pngPathOf (row : Row) (folders : Folders.OutputFolders) : Js.str :=
  let text1Content := orElse row js:"text1" js:"default" in
  let text2Content := orElse row js:"text2" [] in
  let baseFileName := Js.sanitize (text1Content ++ js:"_" ++ text2Content) in
  let pngNativePath :=
    match Folders.pngNativePath folders with
    | [] => nativePath (Folders.pngFolder folders)
    | p => p
    end in
  Js.slashes pngNativePath ++ js:"/" ++ baseFileName ++ js:".png".

Section Controller.

(** The host's own state (document, storage, pending panel events), and
    the collaborators of the controller as computations over it. *)
Context {W : Type}.
Variable activeDocument : W -> option Doc.
Variable processLayer : DocLayer -> Row -> Js.str -> Eff W LayerUpdate.
Variable saveAsPNG : Js.str -> option Folders.OutputFolders -> Eff W (option bool).
Variable writeToMCPRelay : Eff W Js.str.
Variable setupTextOutputFolders : option Entry -> Eff W Folders.OutputFolders.
(** Whether the Stop button was clicked while the controller was
    suspended in its last [await]; no other panel event is considered
    during a run. *)
Variable stopClicked : W -> bool.

(** *** [processTextRow] *)

(** [for (const { layer, index: layerIndex } of textLayers)] *)
Fixpoint layerLoop (row : Row) (textLayers : list (DocLayer * Js.str))
    (vars : list LayerUpdate * list RowError)
  : Eff W (list LayerUpdate * list RowError) :=
  match textLayers with
  | [] => ret vars
  | (layer, layerIndex) :: rest =>
      let '(layerUpdates, errors) := vars in
      if hasRowData row layerIndex then
        let! vars :=
          (try! (let! result := processLayer layer row layerIndex in
                 ret (layerUpdates ++ [result], errors))
           catch layerError =>
             ret (layerUpdates,
                  errors ++ [mkRowError (Some (layerName layer)) None
                                        (message layerError) (code layerError)])) in
        layerLoop row rest vars
      else layerLoop row rest vars
  end.

(** The save step, on [errors] and [filesSaved.png]. *)
Definition saveStep (row : Row) (folders : option Folders.OutputFolders)
    (errors : list RowError) : Eff W (list RowError * bool) :=
  try! (
    match folders with
    | None => throw (HostError js:"Invalid folder structure for saving")
    | Some f =>
        let pngPath := pngPathOf row f in
        let! saved :=
          (try! (do! saveAsPNG pngPath folders in
                 ret (errors, true))
           catch pngError =>
             ret (errors ++ [mkRowError None (Some "PNG_SAVE") (message pngError) None],
                  false)) in
        do! (try! (do! writeToMCPRelay in ret tt)
             catch mcpError => ret tt) in
        ret saved
    end)
  catch saveError =>
    ret (errors ++ [mkRowError None (Some "save") (message saveError) None], false).

Definition noActiveDoc : JsError :=
  PluginError js:"No active document found" "NO_ACTIVE_DOC" [].

Definition noTextLayers : JsError :=
  PluginError js:"No text layers found in document" "NO_TEXT_LAYERS" [].

Definition processTextRow (row : Row) (index total : nat)
    (folders : option Folders.OutputFolders) : Eff W RowResult :=
  let! w := get in
  match activeDocument w with
  | None => throw noActiveDoc
  | Some doc =>
      try! (
        let textLayers := textLayersOf doc in
        if length textLayers =? 0 then throw noTextLayers
        else
          let! vars := layerLoop row textLayers ([], []) in
          let '(layerUpdates, errors) := vars in
          let! saved :=
            (if 0 <? length layerUpdates then saveStep row folders errors
             else ret (errors, false)) in
          let '(errors, png) := saved in
          ret (mkRowResult (0 <? length layerUpdates) (length layerUpdates)
                           (match errors with [] => None | _ => Some errors end)
                           png))
      catch error => throw error
  end.

(** *** The controller's state and its suspension points *)

Record State : Type := mkBatch {
  plugin : PluginState;
  world : W;
  trace : list Event
}.

Definition onPlugin (f : PluginState -> PluginState) : Eff State unit :=
  modify (fun s => mkBatch (f (plugin s)) (world s) (trace s)).

Definition logLine (ev : Event) : Eff State unit :=
  modify (fun s => mkBatch (plugin s) (world s) (trace s ++ [ev])).

(** [shouldStopProcessing()] *)
Definition shouldStopProcessing : Eff State bool :=
  let! s := get in ret (stopProcessingRequested (plugin s)).

(** [requestStopProcessing()], the handler of the Stop button. *)
Definition requestStopProcessing (p : PluginState) : PluginState :=
  set_stop true p.

(** [resetStopProcessing()] *)
Definition resetStopProcessing : Eff State unit :=
  onPlugin (set_stop false).

(** [await m]: the collaborator runs on the host; a click on Stop that
    arrives meanwhile runs its handler before the controller resumes. *)
Definition await {A} (m : Eff W A) : Eff State A :=
  fun s =>
    let '(o, w) := m (world s) in
    let p := if stopClicked w then requestStopProcessing (plugin s)
             else plugin s in
    (o, mkBatch p w (trace s)).

(** *** [processTextReplacement] *)

(** [for (let i = startIndex; i < csvData.length; i++)], on the rows from
    [startIndex] on. *)
Fixpoint rowLoop (folders : Folders.OutputFolders) (total i : nat)
    (rows : list Row) : Eff State unit :=
  match rows with
  | [] => ret tt
  | row :: rest =>
      let! stop := shouldStopProcessing in
      if stop then logLine (StoppedByUser i)          (* break *)
      else
        do! logLine (ProcessingRow i) in
        do! await (processTextRow row i total (Some folders)) in
        do! onPlugin (set_processedRows (i + 1)) in
        rowLoop folders total (S i) rest
  end.

Definition csvNotLoaded : JsError :=
  PluginError js:"No CSV data available" "CSV_NOT_LOADED" [].
Definition folderNotSelected : JsError :=
  PluginError js:"Output folder not selected" "FOLDER_NOT_SELECTED" [].
Definition noDocument : JsError :=
  PluginError js:"No active document found" "NO_DOCUMENT" [].
Definition folderSetupFailed (folderError : JsError) : JsError :=
  PluginError js:"Failed to setup output folders" "FOLDER_SETUP_FAILED"
              [("originalError", folderError)].

(** The body of the outer [try] once the state checks have passed. *)
Definition runRows (processType : ProcessType) (rows : list Row)
    (folders : Folders.OutputFolders) : Eff State unit :=
  try! (
    do! match processType with
        | Current =>
            let! s := get in
            let currentRowIndex := processedRows (plugin s) in
            match rows !! currentRowIndex with
            | Some row =>
                do! logLine (ProcessingRow currentRowIndex) in
                do! await (processTextRow row currentRowIndex (length rows)
                                          (Some folders)) in
                onPlugin (set_processedRows (currentRowIndex + 1))
            | None => logLine NoMoreRows
            end
        | All =>
            let! s := get in
            let startIndex := processedRows (plugin s) in
            do! rowLoop folders (length rows) startIndex (drop startIndex rows) in
            let! stop := shouldStopProcessing in
            if negb stop then logLine AllRowsProcessed else ret tt
        end in
    do! resetStopProcessing in
    do! await writeToMCPRelay in
    ret tt)
  catch error => throw error.

(** [processTextReplacement()]; [processType] is the checked radio
    button, [None] when none is checked. *)
Definition processTextReplacement (processType : option ProcessType)
  : Eff State unit :=
  do! resetStopProcessing in
  match processType with
  | None => ret tt
  | Some pt =>
      finally
        (try! (
           let! s := get in
           match csvData (plugin s) with
           | None | Some [] => throw csvNotLoaded
           | Some rows =>
               match outputFolder (plugin s) with
               | None => throw folderNotSelected
               | Some out =>
                   match activeDocument (world s) with
                   | None => throw noDocument
                   | Some _ =>
                       do! onPlugin (set_isProcessing true) in
                       let! folders :=
                         (try! await (setupTextOutputFolders (Some out))
                          catch folderError => throw (folderSetupFailed folderError)) in
                       runRows pt rows folders
                   end
               end
           end)
         catch error => throw error)
        (fun s => mkBatch (set_isProcessing false (set_stop false (plugin s)))
                          (world s) (trace s))
  end.

(** *** [processCSV] *)

Record Counters : Type := mkCounters {
  resultList : list ResultEntry;
  processedCount : nat;
  errorCount : nat;
  savedFileCount : nat
}.

(** The bookkeeping after a row came back. *)
Definition countRow (result : RowResult) (c : Counters) : Counters :=
  let processedCount' :=
    if success result then processedCount c + 1 else processedCount c in
  let savedFileCount' :=
    if success result && filesSavedPng result
    then savedFileCount c + 1 else savedFileCount c in
  let errorCount' :=
    match errors result with
    | Some (e :: es) => errorCount c + length (e :: es)
    | _ => errorCount c
    end in
  mkCounters (resultList c ++ [RowDone result]) processedCount' errorCount'
             savedFileCount'.

(** The bookkeeping in [catch (rowError)]. *)
Definition countFailure (rowError : JsError) (rowIndex : nat) (c : Counters)
  : Counters :=
  mkCounters (resultList c ++ [RowFailed (message rowError) rowIndex])
             (processedCount c) (errorCount c + 1) (savedFileCount c).

(** [for (let i = 0; i < csvData.length; i++)] of [processCSV]. *)
Fixpoint csvLoop (folders : Folders.OutputFolders) (total i : nat)
    (rows : list Row) (c : Counters) : Eff State Counters :=
  match rows with
  | [] => ret c
  | row :: rest =>
      let! stop := shouldStopProcessing in
      if stop then
        do! logLine (StoppedByUser i) in ret c         (* break *)
      else
        let! c :=
          (try! (do! logLine (ProcessingRow i) in
                 let! result := await (processTextRow row (i + 1) total
                                                      (Some folders)) in
                 do! await (ret tt) in                    (* the 100 ms pause *)
                 ret (countRow result c))
           catch rowError => ret (countFailure rowError (i + 1) c)) in
        csvLoop folders total (S i) rest c
  end.

Definition noCurrentRow : JsError :=
  PluginError js:"No current row selected" "NO_CURRENT_ROW" [].

(** [processCSV(csvData)]; [processType] is what reading the checked
    radio button gives, [currentRow] what [data.currentRow] and
    [data.currentRowIndex] hold. *)
Definition processCSV (processType : Outcome ProcessType)
    (currentRow : option (Row * nat)) (csvData : list Row)
  : Eff State CsvSummary :=
  do! onPlugin (set_stop false) in
  try! (
    let! s := get in
    let! folders := await (setupTextOutputFolders (outputFolder (plugin s))) in
    let! pt := host processType in
    let c0 := mkCounters [] 0 0 0 in
    let! c :=
      match pt with
      | Current =>
          match currentRow with
          | None => throw noCurrentRow
          | Some (row, rowIndex) =>
              try! (do! logLine (ProcessingRow rowIndex) in
                    let! result := await (processTextRow row (rowIndex + 1) 1
                                                         (Some folders)) in
                    ret (countRow result c0))
              catch rowError => ret (countFailure rowError (rowIndex + 1) c0)
          end
      | All => csvLoop folders (length csvData) 0 csvData c0
      end in
    do! (try! (do! await writeToMCPRelay in ret tt)
         catch mcpError => ret tt) in
    let! s := get in
    ret (mkSummary (0 <? processedCount c) (processedCount c) (length csvData)
                   (errorCount c) (stopProcessingRequested (plugin s))
                   (savedFileCount c) (resultList c)))
  catch error => throw error.

End Controller.

End Batch.

(** ** Layer updates: [replaceText] and [processLayer] *)

Module Layers.

(** [newText.replace(/\|br\|/g, '\r')]: every [|br|], from the left and
    without overlap, becomes a carriage return. *)
Fixpoint lineBreaks (s : Js.str) : Js.str :=
  match s with
  | c1 :: ((c2 :: c3 :: c4 :: s') as t) =>
      if ((c1 =? 124) && (c2 =? 98) && (c3 =? 114) && (c4 =? 124))%N
      then 13%N :: lineBreaks s'
      else c1 :: lineBreaks t
  | c :: t => c :: lineBreaks t
  | [] => []
  end.

(** What Photoshop answers at the call sites of the two functions, for
    the layer of a given name; [numberOf] is the number that [parseFloat]
    reads at the start of a cell that has one (the conversion from decimal
    is the runtime's); [relay] is the store behind [writeToMCPRelay]. *)
Record Host : Type := mkHost {
  executeAsModal : Js.str -> Outcome unit;     (* entering the modal scope *)
  select : Js.str -> Outcome unit;             (* batchPlay select, by _name *)
  setTextKey : Js.str -> Js.str -> Outcome unit;  (* batchPlay set textKey *)
  domAssign : Js.str -> Outcome unit;
  batchPlayTextStyle : Js.str -> Outcome unit;
  batchPlayProperty : Js.str -> Outcome unit;
  numberOf : Js.str -> float;
  relay : Relay.Host
}.

Definition fontSizeHost (h : Host) (layerName : Js.str) : FontSize.Host :=
  FontSize.mkHost (domAssign h layerName) (batchPlayTextStyle h layerName)
                  (batchPlayProperty h layerName) (relay h).

(** The texts that were set, with the layer's name, in order; and the
    trace of the font-size updates and of the relay. *)
Record Trace : Type := mkTrace {
  written : list (Js.str * Js.str);
  font : FontSize.Trace
}.

Definition textReplaceError (layer : option FontSize.Layer) (error : JsError)
  : JsError :=
  PluginError (js:"Failed to replace text in layer " ++ FontSize.layerNameText layer)
              "TEXT_REPLACE_ERROR" [("originalError", error)].

(** [replaceText(layer, newText)] *)
Definition replaceText (h : Host) (layer : option FontSize.Layer)
    (newText : Js.str) : Eff Trace bool :=
  try! (
    if negb (FontSize.hasName layer) then
      throw (PluginError js:"Invalid layer object" "INVALID_LAYER" [])
    else
      let layerName := FontSize.layerNameText layer in
      do! host (executeAsModal h layerName) in
      do! host (select h layerName) in
      let processedText := lineBreaks newText in
      do! host (setTextKey h layerName processedText) in
      do! modify (fun t => mkTrace (written t ++ [(layerName, processedText)])
                                   (font t)) in
      ret true)
  catch error => throw (textReplaceError layer error).

(** A cell of the CSV as [updateFontSize] receives it. *)
Definition cellValue (h : Host) (cell : Js.str) : FontSize.jsval :=
  FontSize.JOpaque
    (Some (if Js.parseFloat_isNaN cell then nan else numberOf h cell)).

Definition invalidLayerParams : JsError :=
  PluginError js:"Invalid layer processing parameters" "INVALID_LAYER_PARAMS" [].

Definition layerProcessError (layer : option FontSize.Layer) (error : JsError)
  : JsError :=
  PluginError (js:"Failed to process layer " ++ FontSize.layerNameText layer)
              "LAYER_PROCESS_ERROR" [("originalError", error)].

(** [processLayer(layer, rowData, layerIndex)]; [None] is a missing
    layer or a missing row. *)
Definition processLayer (h : Host) (layer : option FontSize.Layer)
    (rowData : option Row) (layerIndex : Js.str) : Eff Trace Batch.LayerUpdate :=
  try! (
    match rowData with
    | Some row =>
        if FontSize.hasName layer && Js.truthy layerIndex then
          let layerName := FontSize.layerNameText layer in
          let! text :=
            match row !! Batch.textKey layerIndex with
            | Some (c :: newText) =>
                try! (do! replaceText h layer (c :: newText) in ret true)
                catch textError => throw textError
            | _ => ret false
            end in
          let! fontSize :=
            match row !! Batch.fontSizeKey layerIndex with
            | Some (c :: size) =>
                try! (do! zoom font (fun f t => mkTrace (written t) f)
                            (FontSize.updateFontSize (fontSizeHost h layerName)
                               layer (cellValue h (c :: size))) in
                      ret true)
                catch fontError => throw fontError
            | _ => ret false
            end in
          ret (Batch.mkUpdate layerName text fontSize)
        else throw invalidLayerParams
    | None => throw invalidLayerParams
    end)
  catch error => throw (layerProcessError layer error).

End Layers.

(** ** The row stage with its collaborators wired in *)

Module Pipeline.

Record Host : Type := mkHost {
  layers : Layers.Host;
  png : Js.str -> Png.V2.Host      (* the answers to [saveAsPNG] for that path *)
}.

Record World : Type := mkWorld {
  document : option Batch.Doc;     (* app.activeDocument *)
  done : Layers.Trace;
  exported : Png.V2.Trace
}.

(** A layer of the document as [replaceText] and [updateFontSize] see
    it: they read its name and nothing else. *)
Definition handleOf (l : Batch.DocLayer) : FontSize.Layer :=
  FontSize.mkLayer (Some (Batch.layerName l)) 0
                   (Returned FontSize.JUndefined) (Returned FontSize.JUndefined).

Definition processLayer (h : Host) (l : Batch.DocLayer) (row : Row)
    (layerIndex : Js.str) : Eff World Batch.LayerUpdate :=
  zoom done (fun t w => mkWorld (document w) t (exported w))
       (Layers.processLayer (layers h) (Some (handleOf l)) (Some row) layerIndex).

(** [saveAsPNG(doc, pngPath, folders)], called with the document that
    [processTextRow] has found. *)
Definition saveAsPNG (h : Host) (pngPath : Js.str)
    (folders : option Folders.OutputFolders) : Eff World (option bool) :=
  zoom exported (fun t w => mkWorld (document w) (done w) t)
       (Png.V2.saveAsPNG (png h pngPath) (Some (Png.mkDoc 0 [])) folders).

(** The relay event after the save step: [{ status: 'success', ... }]. *)
Definition writeToMCPRelay (h : Host) : Eff World Js.str :=
  zoom (fun w => FontSize.relayEvents (Layers.font (done w)))
       (fun r w =>
          mkWorld (document w)
                  (Layers.mkTrace (Layers.written (done w))
                     (FontSize.mkTrace (FontSize.events (Layers.font (done w))) r))
                  (exported w))
       (Relay.writeToMCPRelay (Layers.relay (layers h))
                              (Some (Relay.mkData js:"success" []))).

Definition processTextRow (h : Host) :=
  Batch.processTextRow document (processLayer h) (saveAsPNG h) (writeToMCPRelay h).

(** The same host with another relay store. *)
Definition withRelay (r : Relay.Host) (h : Host) : Host :=
  mkHost (Layers.mkHost (Layers.executeAsModal (layers h)) (Layers.select (layers h))
            (Layers.setTextKey (layers h)) (Layers.domAssign (layers h))
            (Layers.batchPlayTextStyle (layers h))
            (Layers.batchPlayProperty (layers h)) (Layers.numberOf (layers h)) r)
         (png h).

End Pipeline.

(** ** Panel buttons: Load CSV and Restart *)

Module Handlers.

(** The click handler of [loadCSV]; [picked] is what
    [fs.getFileForOpening] answers ([None]: the dialog was dismissed),
    [relay] what the relay write inside [loadTextCSV] does. *)
Definition loadCSVClicked (picked : Outcome (option Csv.File))
    (relay : Outcome Js.str) : Eff PluginState unit :=
  try! (let! file := host picked in
        match file with
        | Some f =>
            do! Csv.loadTextCSV f relay in
            modify (set_processedRows 0)
        | None => ret tt
        end)
  catch error => ret tt.

(** The click handler of [restartPlugin]; [relay] is what its relay
    write does. *)
Definition restartClicked (relay : Outcome Js.str) : Eff PluginState unit :=
  try! (do! modify (set_processedRows 0) in
        do! host relay in
        ret tt)
  catch error => ret tt.

End Handlers.

(** ** Retrying a command: [executeWithRetry] *)

Module Retry.

(** How [executeWithRetry] ends: with the result of [batchPlay], or by
    throwing [lastError], which is still [undefined] ([None]) when no
    attempt was made. *)
Inductive Ended (A : Type) : Type :=
  | Done (result : A)
  | GaveUp (lastError : option JsError).
Arguments Done {A} result.
Arguments GaveUp {A} lastError.

Section Loop.

Context {A : Type}.
(** What [batchPlay] answers at the attempt of a given number. *)
Variable batchPlay : nat -> Outcome A.

(** [for (let i = 0; i < maxRetries; i++)], with [remaining] turns to
    go; [waits] lists the arguments of [wait] so far. *)
Fixpoint attempts (maxRetries remaining i : nat) (lastError : option JsError)
    (waits : list nat) : Ended A * list nat :=
  match remaining with
  | 0 => (GaveUp lastError, waits)
  | S remaining' =>
      match batchPlay i with
      | Returned result => (Done result, waits)
      | Threw error =>
          attempts maxRetries remaining' (S i) (Some error)
                   (if i <? maxRetries - 1 then waits ++ [100 * 2 ^ i] else waits)
      end
  end.

Definition executeWithRetry (maxRetries : nat) : Ended A * list nat :=
  attempts maxRetries maxRetries 0 None [].

End Loop.

End Retry.

(** * Properties *)

(** ** The CSV loader *)

Module CsvProps.
Import Csv.

(** What one header/value pair leaves in the row under its name. *)
Definition cleared (h v : Js.str) : Js.str :=
  if isFontSizeColumn h && Js.truthy v && Js.parseFloat_isNaN v then [] else v.

(** Spec side: the row a data line stands for, when the line is kept. *)
Definition rowOfLine (headers : list Js.str) (rawLine : Js.str) : option Row :=
  if Js.truthy (Js.trim rawLine) && fieldCountMatches headers rawLine
  then let r := buildRow headers (valuesOf rawLine) in
       if r.2 then Some r.1 else None
  else None.

Lemma rowStep_fst_other acc h v k :
  k ≠ h -> (rowStep acc (h, v)).1 !! k = acc.1 !! k.
Proof.
  intros Hk. destruct acc as [o d]. unfold rowStep. simpl.
  assert (Hset : forall x o', Js.obj_set h x o' !! k = o' !! k).
  { intros x o'. unfold Js.obj_set. case_decide; [done|].
    by rewrite lookup_insert_ne. }
  destruct (isFontSizeColumn h && Js.truthy v); simpl.
  - destruct (Js.parseFloat_isNaN v); simpl; by rewrite ?Hset.
  - by rewrite Hset.
Qed.

Lemma rowStep_fst_same acc h v :
  h ≠ js:"__proto__" -> (rowStep acc (h, v)).1 !! h = Some (cleared h v).
Proof.
  intros Hp. destruct acc as [o d]. unfold rowStep, cleared. simpl.
  assert (Hset : forall x o', Js.obj_set h x o' !! h = Some x).
  { intros x o'. unfold Js.obj_set. case_decide; [done|].
    by rewrite lookup_insert_eq. }
  destruct (isFontSizeColumn h && Js.truthy v); simpl.
  - destruct (Js.parseFloat_isNaN v); simpl; by rewrite Hset.
  - by rewrite Hset.
Qed.

Lemma foldl_rowStep_other pairs acc k :
  (forall v, (k, v) ∉ pairs) ->
  (foldl rowStep acc pairs).1 !! k = acc.1 !! k.
Proof.
  revert acc. induction pairs as [|[h v] pairs IH]; intros acc Hk; [done|].
  simpl. rewrite IH.
  - apply rowStep_fst_other. intros ->. apply (Hk v). left.
  - intros v' Hin. apply (Hk v'). by right.
Qed.

Lemma foldl_rowStep_snd pairs acc :
  (foldl rowStep acc pairs).2
  = acc.2 || existsb (fun hv => isTextColumn hv.1 && Js.truthy hv.2) pairs.
Proof.
  revert acc. induction pairs as [|[h v] pairs IH]; intros [o d]; simpl.
  - by rewrite orb_false_r.
  - rewrite IH. unfold rowStep. simpl.
    destruct (isFontSizeColumn h && Js.truthy v); [destruct (Js.parseFloat_isNaN v)|];
      simpl; by rewrite orb_assoc.
Qed.

(** The row keeps, under a name, what the last column of that name
    leaves there. *)
Lemma buildRow_last_column headers values j h v :
  headers !! j = Some h -> values !! j = Some v ->
  h ≠ js:"__proto__" ->
  (forall k, j < k -> headers !! k ≠ Some h) ->
  (buildRow headers values).1 !! h = Some (cleared h v).
Proof.
  intros Hh Hv Hp Hlast. unfold buildRow.
  assert (Hz : zip headers values !! j = Some (h, v)).
  { rewrite lookup_zip_with, Hh. simpl. by rewrite Hv. }
  rewrite <- (take_drop_middle _ _ _ Hz), foldl_app. simpl.
  rewrite foldl_rowStep_other; [by apply rowStep_fst_same|].
  intros v' Hin. apply list_elem_of_lookup in Hin as [k Hk].
  rewrite lookup_drop in Hk.
  rewrite lookup_zip_with in Hk.
  destruct (headers !! (S j + k)) as [h'|] eqn:Hh';
    destruct (values !! (S j + k)); simpl in Hk; try done.
  injection Hk as -> _. apply (Hlast (S j + k)); [lia|done].
Qed.

Lemma fontsize_not_proto h : isFontSizeColumn h = true -> h ≠ js:"__proto__".
Proof. intros H ->. by vm_compute in H. Qed.

Lemma buildRow_hasData headers values i t (c : Js.str) :
  headers !! i = Some t -> values !! i = Some c ->
  isTextColumn t = true -> c ≠ [] ->
  (buildRow headers values).2 = true.
Proof.
  intros Ht Hc Htext Hne. unfold buildRow. rewrite foldl_rowStep_snd.
  assert (Hz : zip headers values !! i = Some (t, c)).
  { rewrite lookup_zip_with, Ht. simpl. by rewrite Hc. }
  apply existsb_exists. exists (t, c). split.
  - apply list_elem_of_In, list_elem_of_lookup. by exists i.
  - simpl. rewrite Htext. by destruct c.
Qed.

Lemma parseLines_omap headers lines :
  parseLines headers lines = omap (rowOfLine headers) lines.
Proof.
  induction lines as [|l lines IH]; [done|]. simpl. unfold rowOfLine, fieldCountMatches.
  destruct (Js.truthy (Js.trim l)); simpl; [|done].
  destruct (length (valuesOf l) =? length headers); simpl; [|done].
  destruct (buildRow headers (valuesOf l)) as [r d]. simpl.
  destruct d; by rewrite IH.
Qed.

Lemma parseLines_app headers l1 l2 :
  parseLines headers (l1 ++ l2) = parseLines headers l1 ++ parseLines headers l2.
Proof. rewrite !parseLines_omap. apply omap_app. Qed.

Lemma rowOfLine_mismatch headers l :
  fieldCountMatches headers l = false -> rowOfLine headers l = None.
Proof. intros H. unfold rowOfLine. rewrite H. by rewrite andb_false_r. Qed.

Lemma parseLines_filter headers lines :
  parseLines headers lines
  = parseLines headers (filter (fun l => fieldCountMatches headers l = true) lines).
Proof.
  induction lines as [|l lines IH]; [done|].
  rewrite filter_cons. destruct (decide (fieldCountMatches headers l = true)) as [Hm|Hm].
  - change (l :: lines) with ([l] ++ lines).
    change (l :: filter _ lines) with ([l] ++ filter (fun l => fieldCountMatches headers l = true) lines).
    rewrite !parseLines_app. by rewrite IH.
  - rewrite <- IH. change (l :: lines) with ([l] ++ lines).
    rewrite parseLines_app, parseLines_omap. simpl.
    rewrite rowOfLine_mismatch; [done|]. by destruct (fieldCountMatches headers l).
Qed.

(** What [loadTextCSV] returns is the [data] array of its loop. *)
Lemma loadTextCSV_returns file content relay st st' data :
  read file = Returned content ->
  loadTextCSV file relay st = (Returned data, st') ->
  data = parseLines (headersOf content) (dataLinesOf content).
Proof.
  intros Hread. unfold loadTextCSV, try_catch, bind, host. rewrite Hread.
  destruct (length (filter _ (headersOf content)) =? 0); [done|].
  destruct (length (parseLines _ _) =? 0); [done|].
  unfold modify, throw, ret. destruct relay; [|done]. by intros [= <- _].
Qed.

(** C5: a header without any column whose name starts with [text] makes
    [loadTextCSV] fail, whatever the data lines are: it throws the
    invalid-format error ([INVALID_CSV_FORMAT], wrapped by the function's
    own handler as the cause of [CSV_LOAD_ERROR]) and returns no rows. *)
Theorem no_text_column_is_invalid_format file content relay st :
  read file = Returned content ->
  Forall (fun h => isTextColumn h = false) (headersOf content) ->
  loadTextCSV file relay st
  = (Threw (csvLoadError invalidCsvFormat), set_csvLoaded false st).
Proof.
  intros Hread Hnone. unfold loadTextCSV, try_catch, bind, host. rewrite Hread.
  assert (Hf : filter (fun h => isTextColumn h = true) (headersOf content) = []).
  { induction Hnone as [|h hs Hh _ IH]; [done|].
    rewrite filter_cons. rewrite decide_False; [done|]. by rewrite Hh. }
  by rewrite Hf.
Qed.

(** C6: the rows [loadTextCSV] returns are the rows of the kept lines,
    one per line and in the order of the lines; a line whose field count
    differs from the header's stands for no row, and the result is the
    one obtained from the input with those lines removed. *)
Theorem mismatched_lines_are_skipped file content relay st st' data :
  read file = Returned content ->
  loadTextCSV file relay st = (Returned data, st') ->
  let headers := headersOf content in
  let lines := dataLinesOf content in
  data = omap (rowOfLine headers) lines
  /\ (forall l, fieldCountMatches headers l = false -> rowOfLine headers l = None)
  /\ data = parseLines headers
              (filter (fun l => fieldCountMatches headers l = true) lines).
Proof.
  intros Hread Hload headers lines.
  pose proof (loadTextCSV_returns _ _ _ _ _ _ Hread Hload) as ->.
  split; [apply parseLines_omap|]. split; [apply rowOfLine_mismatch|].
  apply parseLines_filter.
Qed.

(** The claim of C7 as it is worded, for the fields of one data line. *)
Definition invalid_fontsize_always_cleared (headers values : list Js.str) : Prop :=
  forall j h v,
    headers !! j = Some h -> values !! j = Some v ->
    isFontSizeColumn h = true -> Js.parseFloat_isNaN v = true ->
    (buildRow headers values).1 !! h = Some [].

(** C7, as amended: when a [fontsize] column holds a value that does not
    parse as a number and no later column carries the same name, the row
    has the empty string under that name; and the row is kept whenever
    one of its [text] columns holds a non-empty value. *)
Theorem invalid_fontsize_cleared_row_kept headers rawLine rest j h v :
  fieldCountMatches headers rawLine = true ->
  headers !! j = Some h -> valuesOf rawLine !! j = Some v ->
  isFontSizeColumn h = true -> Js.parseFloat_isNaN v = true ->
  (forall k, j < k -> headers !! k ≠ Some h) ->
  let row := (buildRow headers (valuesOf rawLine)).1 in
  row !! h = Some []
  /\ ((exists i t (c : Js.str), headers !! i = Some t /\ isTextColumn t = true
                     /\ valuesOf rawLine !! i = Some c /\ c ≠ []) ->
      parseLines headers (rawLine :: rest) = row :: parseLines headers rest).
Proof.
  intros Hcount Hh Hv Hfont Hnan Hlast row. split.
  - unfold row. rewrite (buildRow_last_column _ _ j h v); auto using fontsize_not_proto.
    unfold cleared. rewrite Hfont, Hnan.
    by destruct v.
  - intros (i & t & c & Ht & Htext & Hc & Hne).
    pose proof (buildRow_hasData _ _ _ _ _ Ht Hc Htext Hne) as Hdata.
    assert (Htrim : Js.truthy (Js.trim rawLine) = true).
    { destruct (Js.trim rawLine) eqn:E; [|done]. exfalso.
      unfold valuesOf in Hc. rewrite E in Hc. simpl in Hc.
      destruct i; simpl in Hc; [|done]. injection Hc as <-. by apply Hne. }
    simpl. rewrite Htrim. unfold fieldCountMatches in Hcount. rewrite Hcount. simpl.
    unfold row. destruct (buildRow headers (valuesOf rawLine)) as [r d].
    simpl in *. by rewrite Hdata.
Qed.

(** *** Concrete runs *)

Definition newline : Js.str := [10%N].

Definition sampleState (data : list Row) : PluginState :=
  set_totalRows (length data)
    (set_csvLoaded true (set_csvData (Some data) createPluginState)).

Lemma no_text_column_is_invalid_format_witness :
  let content := js:"name,fontsize1" ++ newline ++ js:"x,12" in
  loadTextCSV (mkFile js:"data.csv" (Returned content)) (Returned [])
              createPluginState
  = (Threw (csvLoadError invalidCsvFormat), set_csvLoaded false createPluginState).
Proof.
  intros content.
  apply (no_text_column_is_invalid_format _ content); [reflexivity|].
  vm_compute. repeat constructor.
Defined.

Lemma mismatched_lines_are_skipped_witness :
  let content := js:"text1,fontsize1" ++ newline ++ js:"hi,12" ++ newline
                 ++ js:"bad" ++ newline ++ js:"yo,14,extra" ++ newline
                 ++ js:"last, 9" in
  let headers := headersOf content in
  let lines := dataLinesOf content in
  let data := parseLines headers lines in
  length data = 2
  /\ (data = omap (rowOfLine headers) lines
      /\ (forall l, fieldCountMatches headers l = false -> rowOfLine headers l = None)
      /\ data = parseLines headers
                  (filter (fun l => fieldCountMatches headers l = true) lines)).
Proof.
  intros content headers lines data. split; [reflexivity|].
  apply (mismatched_lines_are_skipped
           (mkFile js:"data.csv" (Returned content)) content (Returned [])
           createPluginState (sampleState data) data);
    [reflexivity | vm_compute; reflexivity].
Defined.

(** C7 as worded fails on a header that repeats a [fontsize] name: the
    property assignment of the later column overwrites the cleared
    field.  Here the second column holds [abc], which does not parse,
    and the parsed row holds [12] under [fontsize1]. *)
Lemma repeated_fontsize_column_not_cleared :
  let content := js:"text1,fontsize1,fontsize1" ++ newline ++ js:"hi,abc,12" in
  let headers := headersOf content in
  let values := valuesOf js:"hi,abc,12" in
  dataLinesOf content = [js:"hi,abc,12"]
  /\ parseLines headers (dataLinesOf content) = [(buildRow headers values).1]
  /\ (buildRow headers values).1 !! js:"fontsize1" = Some js:"12"
  /\ ~ invalid_fontsize_always_cleared headers values.
Proof.
  intros content headers values.
  split; [reflexivity|]. split; [vm_compute; reflexivity|].
  split; [vm_compute; reflexivity|].
  intros H.
  specialize (H 1 js:"fontsize1" js:"abc" eq_refl eq_refl eq_refl eq_refl).
  vm_compute in H. discriminate H.
Qed.

Lemma invalid_fontsize_cleared_row_kept_witness :
  let headers := [js:"text1"; js:"fontsize1"] in
  let row := (buildRow headers (valuesOf js:" hi , abc ")).1 in
  row !! js:"fontsize1" = Some []
  /\ parseLines headers [js:" hi , abc "; js:"x"] = [row].
Proof.
  intros headers row.
  destruct (invalid_fontsize_cleared_row_kept headers js:" hi , abc " [js:"x"]
              1 js:"fontsize1" js:"abc") as [Hclear Hkept];
    [reflexivity | reflexivity | reflexivity | reflexivity | reflexivity
    | intros [|[|[|k]]] Hk; simpl; try lia; discriminate |].
  split; [exact Hclear|].
  rewrite Hkept; [reflexivity|].
  exists 0, js:"text1", js:"hi". repeat split; try reflexivity. discriminate.
Defined.

End CsvProps.

(** ** The relay sink *)

Module RelayProps.
Import Relay.

Definition occurrences (ev : Event) (evs : list Event) : nat :=
  length (filter (fun e => e = ev) evs).

Definition writeStage (h : Host) : Eff (list Event) Js.str :=
  try! primaryWrite h
  catch writeError =>
    (try! fallbackWrite h
     catch fallbackError => throw (fileWriteError writeError fallbackError)).

Lemma getOrCreate_ok getIt createIt msg t :
  match getIt with Returned true => true | _ => negb (threw createIt) end = true ->
  getOrCreate getIt createIt msg t = (Returned tt, t).
Proof.
  unfold getOrCreate, try_catch, bind, host, throw, ret.
  destruct getIt as [[]|]; destruct createIt; simpl; intros; try done.
  all: by destruct a.
Qed.

Lemma writeToMCPRelay_reaches h d t :
  reachesWrite h d = true ->
  writeToMCPRelay h (Some d) t
  = try_catch (writeStage h) (fun error => throw (mcpWriteError error)) t.
Proof.
  unfold reachesWrite. intros H.
  repeat (apply andb_prop in H as [H ?]).
  unfold writeToMCPRelay. rewrite H. simpl.
  unfold try_catch at 1. unfold bind at 1.
  destruct (getTemporaryFolder h) as [[]|] eqn:E; [|done]. unfold host at 1.
  unfold bind at 1. rewrite getOrCreate_ok by done.
  unfold bind at 1. rewrite getOrCreate_ok by done.
  unfold bind at 1. unfold serialise, try_catch at 1, bind at 1, host at 1.
  destruct (stringify h d) as [[[|c s]|]|]; try done.
Qed.

Lemma writeStage_cases h t :
  exists evs out, writeStage h t = (out, t ++ evs)
    /\ occurrences PrimaryCreateFile evs = 1
    /\ occurrences FallbackCreateTemp evs = (if primaryFails h then 1 else 0)
    /\ match out with
       | Returned p => primaryFails h && fallbackFails h = false
       | Threw e => primaryFails h && fallbackFails h = true
                    /\ exists e1 e2, e = fileWriteError e1 e2
       end.
Proof.
  unfold writeStage, primaryWrite, fallbackWrite, primaryFails, fallbackFails,
    try_catch, bind, emit, modify, host, throw, ret.
  destruct (createFile h) as [[[] p]|]; destruct (write h) as [[]|];
    destruct (createTemporaryFile h) as [[]|]; destruct (tempWrite h) as [[]|];
    destruct (moveTo h) as [[]|]; simpl; rewrite <- ?app_assoc; simpl;
    (eexists; eexists; split; [reflexivity|]); repeat split; eauto.
Qed.

Lemma writeToMCPRelay_blocked h d t :
  reachesWrite h d = false ->
  exists e, writeToMCPRelay h (Some d) t = (Threw e, t).
Proof.
  unfold reachesWrite, writeToMCPRelay, getOrCreate, serialise,
    try_catch, bind, host, throw, ret.
  destruct (utf8Available h); destruct (getTemporaryFolder h) as [[]|];
    destruct (getMcpRelay h) as [[]|]; destruct (createMcpRelay h) as [[]|];
    destruct (getLogs h) as [[]|]; destruct (createLogs h) as [[]|];
    destruct (stringify h d) as [[[|c s]|]|];
    simpl; intros Hr; try discriminate Hr; eexists; reflexivity.
Qed.

Lemma writeToMCPRelay_attempts h d t :
  exists evs out,
    writeToMCPRelay h (Some d) t = (out, t ++ evs)
    /\ if reachesWrite h d then
         occurrences PrimaryCreateFile evs = 1
         /\ occurrences FallbackCreateTemp evs = (if primaryFails h then 1 else 0)
         /\ threw out = primaryFails h && fallbackFails h
         /\ (forall e, out = Threw e ->
               exists e1 e2, e = mcpWriteError (fileWriteError e1 e2))
       else evs = [] /\ threw out = true.
Proof.
  destruct (reachesWrite h d) eqn:Hr.
  - rewrite writeToMCPRelay_reaches by done.
    destruct (writeStage_cases h t) as (evs & out & Hw & Hp & Hf & Hout).
    unfold try_catch. rewrite Hw. destruct out as [p|e].
    + exists evs, (Returned p). rewrite Hout. by repeat split.
    + exists evs, (Threw (mcpWriteError e)). destruct Hout as [-> (e1 & e2 & ->)].
      repeat split; try done. intros e [= <-]. eauto.
  - destruct (writeToMCPRelay_blocked h d t Hr) as [e He].
    exists [], (Threw e). by rewrite app_nil_r.
Qed.

End RelayProps.

(** ** Font size *)

Module FontSizeProps.
Import FontSize.

Definition obtained (l : Layer) : list jsval :=
  filter (fun v => isMeasurement v = true)
         [readChannel (textItemSize l); readChannel (styleSize l)].

Definition closeb (m expected : jsval) : bool :=
  match parseFloat m, parseFloat expected with
  | Returned a, Returned b => PrimFloat.ltb (PrimFloat.abs (PrimFloat.sub a b)) tolerance
  | _, _ => false
  end.

Definition verdict (layer : option Layer) (expected : jsval) : bool :=
  match layer with
  | None => false
  | Some l => negb (length (obtained l) =? 0) && forallb (fun m => closeb m expected) (obtained l)
  end.

Ltac split_floats :=
  repeat (match goal with
          | |- context [PrimFloat.ltb ?a ?b] => destruct (PrimFloat.ltb a b)
          | |- context [PrimFloat.leb ?a ?b] => destruct (PrimFloat.leb a b)
          end; simpl).

Lemma verifyFontSize_verdict {S} layer expected (s : S) :
  verifyFontSize layer expected s = (Returned (verdict layer expected), s).
Proof.
  destruct layer as [[n i a b]|]; [|reflexivity].
  unfold verifyFontSize, verdict, obtained, closeb. simpl.
  destruct a as [[| |x|[x|]]|ea]; destruct b as [[| |y|[y|]]|eb];
    destruct expected as [| |z|[z|]]; simpl;
    unfold try_catch, bind, host, ret, throw, interpolate, withinTolerance; simpl;
    try reflexivity.
  all: unfold try_catch, bind, host, ret, throw, interpolate, withinTolerance; simpl.
  all: split_floats; try reflexivity.
Qed.

Definition within (m expected : jsval) : Prop :=
  exists a b, parseFloat m = Returned a /\ parseFloat expected = Returned b
              /\ PrimFloat.ltb (PrimFloat.abs (PrimFloat.sub a b)) tolerance = true.

Lemma closeb_within m expected : closeb m expected = true <-> within m expected.
Proof.
  unfold closeb, within. split.
  - destruct (parseFloat m) as [a|]; [|done].
    destruct (parseFloat expected) as [b|]; [|done]. eauto.
  - by intros (a & b & -> & -> & H).
Qed.

(** C10: [verifyFontSize] always returns a boolean and never throws,
    whatever the layer handle, the read channels and the expected size
    are; it returns [true] exactly when there is a layer, at least one
    channel gave a measurement, and every measurement obtained is within
    the tolerance of the expected size.  In particular a missing layer,
    two failing channels or a value that cannot be converted give
    [false]. *)
Theorem verifyFontSize_never_throws {S} layer expected (s : S) :
  exists b, verifyFontSize layer expected s = (Returned b, s)
    /\ (b = true <->
        exists l, layer = Some l /\ obtained l ≠ []
                  /\ Forall (fun m => within m expected) (obtained l)).
Proof.
  exists (verdict layer expected). split; [apply verifyFontSize_verdict|].
  unfold verdict. destruct layer as [l|].
  - rewrite andb_true_iff, negb_true_iff, Nat.eqb_neq, forallb_forall.
    split.
    + intros [Hlen Hall]. exists l. split; [done|]. split.
      * intros E. by rewrite E in Hlen.
      * apply Forall_forall. intros m Hm. apply closeb_within, Hall.
        by apply list_elem_of_In.
    + intros (l' & [= <-] & Hne & Hall). split.
      * by destruct (obtained l).
      * intros m Hm. apply closeb_within.
        rewrite Forall_forall in Hall. by apply Hall, list_elem_of_In.
  - split; [done|]. by intros (l & ? & _).
Qed.

Example verify_missing_layer :
  verifyFontSize None (JNum 24%float) tt = (Returned false, tt).
Proof. reflexivity. Qed.

Example verify_no_measurement :
  verifyFontSize
    (Some (mkLayer (Some js:"Title1") 7
                   (Threw (HostError js:"textItem is not available"))
                   (Returned JUndefined)))
    (JNum 24%float) tt
  = (Returned false, tt).
Proof. reflexivity. Qed.

Example verify_within_tolerance :
  verifyFontSize
    (Some (mkLayer (Some js:"Title1") 7 (Returned (JNum 24.0625%float))
                   (Threw (HostError js:"modal state"))))
    (JOpaque (Some 24%float)) tt
  = (Returned true, tt).
Proof. vm_compute. reflexivity. Qed.

Example verify_one_channel_off :
  verifyFontSize
    (Some (mkLayer (Some js:"Title1") 7 (Returned (JNum 24%float))
                   (Returned (JNum 24.5%float))))
    (JNum 24%float) tt
  = (Returned false, tt).
Proof. vm_compute. reflexivity. Qed.

(** Spec side: the first mutation call that does not throw. *)
Definition firstSuccess (h : Host) : option Method :=
  match domAssign h, batchPlayTextStyle h, batchPlayProperty h with
  | Returned _, _, _ => Some DomApi
  | Threw _, Returned _, _ => Some BatchPlayTextStyle
  | Threw _, Threw _, Returned _ => Some BatchPlayProperty
  | Threw _, Threw _, Threw _ => None
  end.

(** Spec side: the log of the attempts, in the order DOM API, batchPlay
    by layer id, batchPlay by property path, ending at the first call
    that comes back. *)
Definition attemptLog (h : Host) : list Event :=
  match domAssign h with
  | Returned _ => [Updated DomApi; Waited fontUpdateDelay]
  | Threw _ =>
      Failed DomApi ::
      match batchPlayTextStyle h with
      | Returned _ => [Updated BatchPlayTextStyle; Waited fontUpdateDelay]
      | Threw _ =>
          Failed BatchPlayTextStyle ::
          match batchPlayProperty h with
          | Returned _ => [Updated BatchPlayProperty; Waited fontUpdateDelay]
          | Threw _ => [Failed BatchPlayProperty]
          end
      end
  end.

#[local] Arguments methodName : simpl never.
#[local] Arguments relayWrite : simpl never.

(** C3, as amended: for a named layer and a size that parses,
    [updateFontSize] calls the three mutations in the fixed order and
    stops at the first call that does not throw; that attempt is accepted
    after the settle delay without any re-read of the size (the read
    channels of the layer do not occur in the result); it then emits the
    relay event listing that one method and returns [true] if the emission
    succeeds.  When all three calls throw it raises
    [FONT_SIZE_UPDATE_ERROR] whose cause names the methods that came
    back, an empty list. *)
Theorem updateFontSize_strategies h layer fontSize size t :
  hasName layer = true ->
  parseFloat fontSize = Returned size ->
  PrimFloat.is_nan size = false ->
  exists out r,
    updateFontSize h layer fontSize t = (out, mkTrace (events t ++ attemptLog h) r)
    /\ match firstSuccess h with
       | Some m =>
           exists relayOut,
             relayWrite h layer [methodName m] (relayEvents t) = (relayOut, r)
             /\ out = match relayOut with
                      | Returned _ => Returned true
                      | Threw e => Threw (fontSizeUpdateError layer e)
                      end
       | None =>
           out = Threw (fontSizeUpdateError layer (notVerified []))
           /\ r = relayEvents t
       end.
Proof.
  intros Hname Hsize Hnan.
  unfold updateFontSize, firstSuccess, attemptLog. rewrite Hname. simpl.
  unfold try_catch at 1, bind at 1, host at 1. rewrite Hsize, Hnan.
  unfold attempt, try_catch, bind, host, logEvent, modify, ret, throw, zoom.
  destruct (domAssign h) as [[]|]; simpl;
    [|destruct (batchPlayTextStyle h) as [[]|]; simpl;
      [|destruct (batchPlayProperty h) as [[]|]; simpl]];
    rewrite <- ?app_assoc; simpl.
  4: { eexists; eexists; split; [reflexivity|]. done. }
  all: destruct (relayWrite h layer _ (relayEvents t)) as [[p|err] r] eqn:E; simpl.
  all: eexists; eexists; (split; [reflexivity|]); eexists; (split; [reflexivity|]); done.
Qed.

(** The read channels play no part in [updateFontSize]. *)
Lemma updateFontSize_ignores_reads h l reads1 reads2 fontSize t :
  updateFontSize h (Some (mkLayer (name l) (id l) reads1 reads2)) fontSize t
  = updateFontSize h (Some l) fontSize t.
Proof. by destruct l. Qed.

(** *** Concrete runs *)

(** A relay store where every call succeeds. *)
Definition relayUp : Relay.Host :=
  Relay.mkHost true (Returned tt) (Returned true) (Returned tt) (Returned true)
               (Returned tt) js:"/tmp/mcp-relay/logs" js:"mcp-out-1.json"
               (fun _ => Returned (Some js:"{}"))
               (Returned (true, js:"/tmp/mcp-relay/logs/mcp-out-1.json"))
               (Returned tt) (Returned tt) (Returned tt) (Returned tt).

Definition diskFull : JsError := HostError js:"No space left on device".

(** A relay store whose folders exist but where no file can be written. *)
Definition relayDown : Relay.Host :=
  Relay.mkHost true (Returned tt) (Returned true) (Returned tt) (Returned true)
               (Returned tt) js:"/tmp/mcp-relay/logs" js:"mcp-out-1.json"
               (fun _ => Returned (Some js:"{}"))
               (Threw diskFull) (Returned tt) (Threw diskFull) (Returned tt)
               (Returned tt).

(** A host that takes the DOM assignment without complaint. *)
Definition quietHost (r : Relay.Host) : Host :=
  mkHost (Returned tt) (Returned tt) (Returned tt) r.

(** A layer on which both read channels answer 12 points. *)
Definition layerAt12 : Layer :=
  mkLayer (Some js:"Title1") 7 (Returned (JNum 12%float)) (Returned (JNum 12%float)).

(** The claim of C3 on acceptance, as it is worded: an attempt is
    accepted only if the size read back is within the tolerance. *)
Definition accepted_only_if_reread_matches
    (h : Host) (l : Layer) (fontSize : jsval) : Prop :=
  forall t t' size,
    updateFontSize h (Some l) fontSize t = (Returned true, t') ->
    parseFloat fontSize = Returned size ->
    verifyFontSize (Some l) (JNum size) tt = (Returned true, tt).

(** C3 as worded fails: the host takes the assignment of 24 points
    without effect, both read channels still answer 12, and
    [updateFontSize] returns [true] after the first strategy. *)
Lemma update_accepted_without_matching_reread :
  updateFontSize (quietHost relayUp) (Some layerAt12) (JOpaque (Some 24%float))
                 (mkTrace [] [])
  = (Returned true,
     mkTrace [Updated DomApi; Waited 500]
             [Relay.PrimaryCreateFile; Relay.PrimaryWrite])
  /\ verifyFontSize (Some layerAt12) (JNum 24%float) tt = (Returned false, tt)
  /\ ~ accepted_only_if_reread_matches (quietHost relayUp) layerAt12
                                        (JOpaque (Some 24%float)).
Proof.
  split; [vm_compute; reflexivity|]. split; [vm_compute; reflexivity|].
  intros H.
  specialize (H (mkTrace [] []) _ 24%float eq_refl eq_refl).
  vm_compute in H. discriminate H.
Qed.

Lemma updateFontSize_strategies_witness :
  let h := mkHost (Threw diskFull) (Threw diskFull) (Returned tt) relayUp in
  attemptLog h = [Failed DomApi; Failed BatchPlayTextStyle;
                  Updated BatchPlayProperty; Waited 500]
  /\ exists out r,
      updateFontSize h (Some layerAt12) (JOpaque (Some 24%float)) (mkTrace [] [])
      = (out, mkTrace (attemptLog h) r)
      /\ out = Returned true.
Proof.
  intros h. split; [reflexivity|].
  destruct (updateFontSize_strategies h (Some layerAt12) (JOpaque (Some 24%float))
              24%float (mkTrace [] []))
    as (out & r & Hrun & Hout); [reflexivity | reflexivity | reflexivity |].
  exists out, r. split; [exact Hrun|].
  simpl in Hout. destruct Hout as (relayOut & Hrelay & ->).
  vm_compute in Hrelay. injection Hrelay as <- _. reflexivity.
Defined.

End FontSizeProps.

(** ** Folder provisioning *)

Module FoldersProps.
Import Folders.

Lemma setup_reuses writable out fs e :
  children fs !! textPng = Some e -> isFolder e = true ->
  setupTextOutputFolders writable (Some out) fs
  = (Returned (mkFolders out e (Js.slashes (nativePath e))), fs).
Proof.
  intros He Hf.
  unfold setupTextOutputFolders, try_catch, bind, getEntry, throw, ret.
  rewrite He, Hf. simpl. by rewrite Hf.
Qed.

Lemma setup_conflict writable out fs e :
  children fs !! textPng = Some e -> isFolder e = false ->
  setupTextOutputFolders writable (Some out) fs
  = (Threw (folderSetupError (folderCreateError (HostError js:"Entry already exists"))), fs).
Proof.
  intros He Hf.
  unfold setupTextOutputFolders, try_catch, bind, getEntry, createEntry, throw, ret.
  rewrite He, Hf. simpl. by rewrite He.
Qed.

Definition newFolder (out : Entry) : Entry :=
  mkEntry (nativePath out ++ js:"/" ++ textPng) true.

Lemma setup_creates out fs :
  children fs !! textPng = None ->
  setupTextOutputFolders true (Some out) fs
  = (Returned (mkFolders out (newFolder out)
                         (Js.slashes (nativePath (newFolder out)))),
     mkFs (<[textPng := newFolder out]> (children fs)) (created fs ++ [textPng])).
Proof.
  intros He.
  unfold setupTextOutputFolders, try_catch, bind, getEntry, createEntry, throw, ret.
  rewrite He. simpl. rewrite He. reflexivity.
Qed.

(** C8: when a run of [setupTextOutputFolders] on a base folder
    succeeds, a second run on the same base folder returns the same
    folder references and leaves the storage as it is: nothing is
    created again.  An entry [Text_PNG] that is a folder is reused without
    any creation; one that is not a folder makes the function fail, with
    [FOLDER_SETUP_ERROR] caused by [FOLDER_CREATE_ERROR]. *)
Theorem folder_setup_idempotent writable out fs :
  (forall folders fs',
      setupTextOutputFolders writable (Some out) fs = (Returned folders, fs') ->
      forall writable',
        setupTextOutputFolders writable' (Some out) fs' = (Returned folders, fs'))
  /\ (forall e, children fs !! textPng = Some e -> isFolder e = true ->
        setupTextOutputFolders writable (Some out) fs
        = (Returned (mkFolders out e (Js.slashes (nativePath e))), fs))
  /\ (forall e, children fs !! textPng = Some e -> isFolder e = false ->
        exists cause,
          setupTextOutputFolders writable (Some out) fs
          = (Threw (folderSetupError (folderCreateError cause)), fs)).
Proof.
  split; [|split].
  - intros folders fs' Hrun writable'.
    destruct (children fs !! textPng) as [e|] eqn:He.
    + destruct (isFolder e) eqn:Hf.
      * rewrite (setup_reuses _ _ _ e) in Hrun by done.
        injection Hrun as <- <-. by apply setup_reuses.
      * by rewrite (setup_conflict _ _ _ e) in Hrun.
    + destruct writable.
      * rewrite setup_creates in Hrun by done. injection Hrun as <- <-.
        apply (setup_reuses _ _ _ (newFolder out)); [|done]. simpl. apply lookup_insert_eq.
      * exfalso. revert Hrun.
        unfold setupTextOutputFolders, try_catch, bind, getEntry, createEntry, throw, ret.
        rewrite He. simpl. by rewrite He.
  - intros e. apply setup_reuses.
  - intros e He Hf. eexists. by apply (setup_conflict _ _ _ e).
Qed.

(** *** Concrete runs *)

Definition desktop : Entry := mkEntry js:"/Users/me/Desktop/out" true.

Lemma folder_setup_idempotent_witness :
  let fs := mkFs ∅ [] in
  let png := mkEntry js:"/Users/me/Desktop/out/Text_PNG" true in
  let folders := mkFolders desktop png js:"/Users/me/Desktop/out/Text_PNG" in
  let fs' := mkFs {[ textPng := png ]} [textPng] in
  setupTextOutputFolders true (Some desktop) fs = (Returned folders, fs')
  /\ setupTextOutputFolders false (Some desktop) fs' = (Returned folders, fs').
Proof.
  intros fs png folders fs'.
  assert (Hfirst : setupTextOutputFolders true (Some desktop) fs
                   = (Returned folders, fs')) by (vm_compute; reflexivity).
  split; [exact Hfirst|].
  destruct (folder_setup_idempotent true desktop fs) as [Hsecond _].
  exact (Hsecond folders fs' Hfirst false).
Defined.

(** A plain file named [Text_PNG] stands in the way. *)
Example text_png_is_a_file :
  let file := mkEntry js:"/Users/me/Desktop/out/Text_PNG" false in
  let fs := mkFs {[ textPng := file ]} [] in
  setupTextOutputFolders true (Some desktop) fs
  = (Threw (folderSetupError
              (folderCreateError (HostError js:"Entry already exists"))), fs).
Proof. vm_compute. reflexivity. Qed.

End FoldersProps.

(** ** The PNG export chain *)

Module PngProps.
Import Png.

Section EarlierVersion.
Import V1.

(** Spec side: the error with which a strategy fails when run alone. *)
Definition failure {S A} (m : Eff (list S) A) : option JsError :=
  match m [] with
  | (Threw e, _) => Some e
  | (Returned _, _) => None
  end.

Lemma primary_run h doc t :
  exists out, primary h doc t = (out, t ++ [StartingPngSave])
    /\ failure (primary h doc) = match out with Threw e => Some e | Returned _ => None end.
Proof.
  unfold failure, primary, try_catch, bind, emit, modify, host, throw, ret.
  destruct (getTemporaryFolder h) as [[]|]; destruct (getEntryWithUrl h) as [[[]|]|];
    destruct (createInOutputDir h) as [[]|]; destruct (createInTemp h) as [[]|];
    destruct (createSessionToken h) as [[]|]; destruct doc;
    destruct (batchPlayExport h) as [[]|]; simpl; eexists; split; reflexivity.
Qed.

Lemma fallback_run h t :
  exists out, fallback h t = (out, t ++ [AttemptingFallback])
    /\ failure (fallback h) = match out with Threw e => Some e | Returned _ => None end.
Proof.
  unfold failure, fallback, try_catch, bind, emit, modify, host, throw, ret.
  destruct (batchPlaySavePath h) as [[]|]; simpl; eexists; split; reflexivity.
Qed.

Lemma lastResort_run h t :
  exists out, lastResort h t = (out, t ++ [AttemptingLastResort])
    /\ failure (lastResort h) = match out with Threw e => Some e | Returned _ => None end.
Proof.
  unfold failure, lastResort, try_catch, bind, emit, modify, host, throw, ret.
  destruct (getTemporaryFolderAgain h) as [[]|]; destruct (createTempFile h) as [[]|];
    destruct (createSaveToken h) as [[]|]; destruct (batchPlaySaveToken h) as [[]|];
    simpl; eexists; split; reflexivity.
Qed.

Lemma v1_chain h doc t :
  V1.saveAsPNG h doc t =
  match failure (primary h doc) with
  | None => (Returned tt, t ++ [StartingPngSave])
  | Some e1 =>
      match failure (fallback h) with
      | None => (Returned tt, t ++ [StartingPngSave; AttemptingFallback])
      | Some e2 =>
          match failure (lastResort h) with
          | None => (Returned tt, t ++ [StartingPngSave; AttemptingFallback;
                                        AttemptingLastResort])
          | Some e3 => (Threw (pngSaveError e1 e2 e3),
                        t ++ [StartingPngSave; AttemptingFallback;
                              AttemptingLastResort; AllMethodsFailed])
          end
      end
  end.
Proof.
  unfold V1.saveAsPNG, try_catch.
  destruct (primary_run h doc t) as (o1 & -> & ->). destruct o1 as [[]|e1]; [done|].
  destruct (fallback_run h (t ++ [StartingPngSave])) as (o2 & -> & ->).
  destruct o2 as [[]|e2]; [by rewrite <- app_assoc|].
  destruct (lastResort_run h ((t ++ [StartingPngSave]) ++ [AttemptingFallback]))
    as (o3 & -> & ->).
  destruct o3 as [[]|e3]; [by rewrite <- !app_assoc|].
  unfold bind, emit, modify, throw. by rewrite <- !app_assoc.
Qed.

End EarlierVersion.

Section CurrentVersion.
Import V2.

(** Spec side: the document is there, the folder is resolved and the
    output file is created, so that the first method is started. *)
Definition reachesMethods (h : Host) (doc : option Doc)
    (folderRef : option Folders.OutputFolders) : bool :=
  match doc with
  | None => false
  | Some _ =>
      match folderRef with
      | Some _ => true
      | None => match getFolder h, getTextPng h with
                | Returned _, Returned true => true
                | _, _ => false
                end
      end
      && negb (threw (createOutputFile h))
  end.

(** Spec side: the error of a host call, and of each method. *)
Definition error {A} (o : Outcome A) : option JsError :=
  match o with Threw e => Some e | Returned _ => None end.

Definition method1Error (h : Host) : option JsError := error (saveAsPng h).
Definition method2Error (h : Host) : option JsError :=
  match createJpegFile h with
  | Threw e => Some e
  | Returned _ => error (saveAsJpg h)
  end.
Definition method3Error (h : Host) : option JsError := error (batchPlaySave h).

(** Spec side: what the size check after a save makes the function return. *)
Definition checked (fileExists : Outcome bool) (fileSize : Outcome N) : option bool :=
  match fileExists, fileSize with
  | Returned true, Returned size => if (1000 <? size)%N then Some true else None
  | _, _ => None
  end.

Lemma v2_chain h doc folderRef t :
  V2.saveAsPNG h doc folderRef t =
  if reachesMethods h doc folderRef then
    match method1Error h with
    | None => (Returned (Some true), mkTrace (events t ++ [Method1]) (report t))
    | Some e1 =>
        match method2Error h with
        | None => (Returned (checked (jpegExists h) (jpegSize h)),
                   mkTrace (events t ++ [Method1; Method2]) (report t))
        | Some e2 =>
            match method3Error h with
            | None => (Returned (checked (outputExists h) (outputSize h)),
                       mkTrace (events t ++ [Method1; Method2; Method3]) (report t))
            | Some e3 =>
                (Returned (Some false),
                 mkTrace (events t ++ [Method1; Method2; Method3; Method4])
                         (match writeReport h with
                          | Returned _ => Some (errorDetails e1 e2 e3)
                          | Threw _ => report t
                          end))
            end
        end
    end
  else (Returned (Some false), t).
Proof.
  unfold V2.saveAsPNG, reachesMethods, method1Error, method2Error, method3Error,
    method4, checkFile, checked, error,
    try_catch, bind, logMethod, modify, host, throw, ret.
  destruct t as [evs rep]. destruct doc; [|done].
  destruct folderRef; simpl.
  2: destruct (getFolder h) as [[]|]; simpl; [|done];
     destruct (getTextPng h) as [[]|]; simpl; [|done..].
  all: destruct (createOutputFile h) as [[]|]; simpl; [|done].
  all: destruct (saveAsPng h) as [[]|]; simpl; [done|].
  all: destruct (createJpegFile h) as [[]|]; simpl;
       [destruct (saveAsJpg h) as [[]|]; simpl|].
  all: rewrite <- ?app_assoc; simpl.
  all: try (destruct (jpegExists h) as [[]|]; simpl; try done;
            destruct (jpegSize h) as [n|]; simpl; try done;
            destruct (1000 <? n)%N; done).
  all: destruct (batchPlaySave h) as [[]|]; simpl; rewrite <- ?app_assoc; simpl.
  all: try (destruct (outputExists h) as [[]|]; simpl; try done;
            destruct (outputSize h) as [n|]; simpl; try done;
            destruct (1000 <? n)%N; done).
  all: destruct (writeReport h) as [[]|]; simpl; rewrite <- ?app_assoc; done.
Qed.

End CurrentVersion.

(** C2, as amended: both versions of [saveAsPNG] start their strategies
    in the fixed order, each one only after the one before it has
    failed, and stop at the first that succeeds.  The earlier version
    raises [PNG_SAVE_ERROR] exactly when all three strategies have
    failed, and the error carries the three failures.  The current
    version never raises: when its three methods throw, it writes a
    report that lists each method with its failure into the output file
    and returns [false]; it returns [false] as well when the set-up
    before the first method fails. *)
Theorem export_chain_in_order :
  (forall h doc t,
      V1.saveAsPNG h doc t =
      match failure (V1.primary h doc) with
      | None => (Returned tt, t ++ [V1.StartingPngSave])
      | Some e1 =>
          match failure (V1.fallback h) with
          | None => (Returned tt, t ++ [V1.StartingPngSave; V1.AttemptingFallback])
          | Some e2 =>
              match failure (V1.lastResort h) with
              | None => (Returned tt,
                         t ++ [V1.StartingPngSave; V1.AttemptingFallback;
                               V1.AttemptingLastResort])
              | Some e3 => (Threw (V1.pngSaveError e1 e2 e3),
                            t ++ [V1.StartingPngSave; V1.AttemptingFallback;
                                  V1.AttemptingLastResort; V1.AllMethodsFailed])
              end
          end
      end)
  /\ (forall h doc folderRef t,
        V2.saveAsPNG h doc folderRef t =
        if reachesMethods h doc folderRef then
          match method1Error h with
          | None => (Returned (Some true),
                     V2.mkTrace (V2.events t ++ [V2.Method1]) (V2.report t))
          | Some e1 =>
              match method2Error h with
              | None => (Returned (checked (V2.jpegExists h) (V2.jpegSize h)),
                         V2.mkTrace (V2.events t ++ [V2.Method1; V2.Method2])
                                    (V2.report t))
              | Some e2 =>
                  match method3Error h with
                  | None =>
                      (Returned (checked (V2.outputExists h) (V2.outputSize h)),
                       V2.mkTrace (V2.events t ++ [V2.Method1; V2.Method2; V2.Method3])
                                  (V2.report t))
                  | Some e3 =>
                      (Returned (Some false),
                       V2.mkTrace
                         (V2.events t ++ [V2.Method1; V2.Method2; V2.Method3;
                                          V2.Method4])
                         (match V2.writeReport h with
                          | Returned _ => Some (V2.errorDetails e1 e2 e3)
                          | Threw _ => V2.report t
                          end))
                  end
              end
          end
        else (Returned (Some false), t))
  /\ (forall h doc t e t',
        V1.saveAsPNG h doc t = (Threw e, t') ->
        exists e1 e2 e3,
          failure (V1.primary h doc) = Some e1
          /\ failure (V1.fallback h) = Some e2
          /\ failure (V1.lastResort h) = Some e3
          /\ e = V1.pngSaveError e1 e2 e3)
  /\ (forall h doc folderRef t,
        exists result t', V2.saveAsPNG h doc folderRef t = (Returned result, t')).
Proof.
  split; [intros; apply v1_chain|]. split; [intros; apply v2_chain|]. split.
  - intros h doc t e t'. rewrite v1_chain.
    destruct (failure (V1.primary h doc)) as [e1|]; [|done].
    destruct (failure (V1.fallback h)) as [e2|]; [|done].
    destruct (failure (V1.lastResort h)) as [e3|]; [|done].
    intros [= <- _]. by exists e1, e2, e3.
  - intros h doc folderRef t. rewrite v2_chain.
    destruct (reachesMethods h doc folderRef); [|by eauto].
    destruct (method1Error h); [|by eauto].
    destruct (method2Error h); [|by eauto].
    destruct (method3Error h); by eauto.
Qed.

(** *** Concrete runs *)

Definition exportFailed (what : string) : JsError :=
  HostError (js:"export failed: " ++ Js.lit what).

(** A host of the current version on which the three methods throw. *)
Definition allMethodsThrow : V2.Host :=
  V2.mkHost (Returned tt) (Returned true) (Returned tt)
            (Threw (exportFailed "png")) (Returned tt)
            (Threw (exportFailed "jpg")) (Returned true) (Returned 0%N)
            (Threw (exportFailed "batchPlay")) (Returned true) (Returned 0%N)
            (Returned tt).

Definition poster : Doc := mkDoc 1 js:"poster.psd".

(** The claim of C2 on the last step, as it is worded, for the current
    version: when every strategy has failed, an error is raised. *)
Definition raises_when_all_fail (h : V2.Host) (doc : option Doc)
    (folderRef : option Folders.OutputFolders) : Prop :=
  is_Some (method1Error h) -> is_Some (method2Error h) ->
  is_Some (method3Error h) ->
  forall t, exists e t', V2.saveAsPNG h doc folderRef t = (Threw e, t').

(** C2 as worded fails on the current version: with the three methods
    throwing, [saveAsPNG] returns [false]; the failures are listed in the
    report written to the output file, and nothing is raised. *)
Lemma all_methods_fail_returns_false :
  V2.saveAsPNG allMethodsThrow (Some poster) None (V2.mkTrace [] None)
  = (Returned (Some false),
     V2.mkTrace [V2.Method1; V2.Method2; V2.Method3; V2.Method4]
                (Some [("Method 1 (DOM API saveAs.png)", js:"export failed: png");
                       ("Method 2 (DOM API saveAs.jpg)", js:"export failed: jpg");
                       ("Method 3 (batchPlay save)", js:"export failed: batchPlay")]))
  /\ ~ raises_when_all_fail allMethodsThrow (Some poster) None.
Proof.
  split; [vm_compute; reflexivity|].
  intros H.
  destruct (H ltac:(by eexists) ltac:(by eexists) ltac:(by eexists)
              (V2.mkTrace [] None)) as (e & t' & Hrun).
  vm_compute in Hrun. discriminate Hrun.
Qed.

(** A host of the earlier version on which nothing works. *)
Definition nothingWorks : V1.Host :=
  V1.mkHost (Threw (exportFailed "temp")) (Returned None) (Returned tt)
            (Returned tt) (Returned tt) (Returned tt)
            (Threw (exportFailed "path")) (Returned tt) (Returned tt)
            (Returned tt) (Threw (exportFailed "token")).

Lemma export_chain_in_order_witness :
  V1.saveAsPNG nothingWorks (Some poster) []
  = (Threw (V1.pngSaveError (exportFailed "temp") (exportFailed "path")
                            (exportFailed "token")),
     [V1.StartingPngSave; V1.AttemptingFallback; V1.AttemptingLastResort;
      V1.AllMethodsFailed])
  /\ exists e1 e2 e3,
      failure (V1.primary nothingWorks (Some poster)) = Some e1
      /\ failure (V1.fallback nothingWorks) = Some e2
      /\ failure (V1.lastResort nothingWorks) = Some e3
      /\ V1.pngSaveError (exportFailed "temp") (exportFailed "path")
                         (exportFailed "token")
         = V1.pngSaveError e1 e2 e3.
Proof.
  assert (Hrun : V1.saveAsPNG nothingWorks (Some poster) []
                 = (Threw (V1.pngSaveError (exportFailed "temp")
                             (exportFailed "path") (exportFailed "token")),
                    [V1.StartingPngSave; V1.AttemptingFallback;
                     V1.AttemptingLastResort; V1.AllMethodsFailed]))
    by (vm_compute; reflexivity).
  split; [exact Hrun|].
  destruct export_chain_in_order as (_ & _ & Hraised & _).
  exact (Hraised nothingWorks (Some poster) [] _ _ Hrun).
Defined.

End PngProps.

(** ** The batch controller *)

Module BatchProps.
Import Batch.

(** The first event of a run, when it concerns a row, concerns row [i]. *)
Definition startsAt (i : nat) (evs : list Event) : Prop :=
  match evs with
  | ProcessingRow j :: _ | StoppedByUser j :: _ => j = i
  | _ => True
  end.

Section ControllerProps.

Context {W : Type}.
Variable activeDocument : W -> option Doc.
Variable processLayer : DocLayer -> Row -> Js.str -> Eff W LayerUpdate.
Variable saveAsPNG : Js.str -> option Folders.OutputFolders -> Eff W (option bool).
Variable writeToMCPRelay : Eff W Js.str.
Variable setupTextOutputFolders : option Entry -> Eff W Folders.OutputFolders.
Variable stopClicked : W -> bool.

Abbreviation processTextRow :=
  (Batch.processTextRow activeDocument processLayer saveAsPNG writeToMCPRelay).
Abbreviation rowLoop :=
  (Batch.rowLoop activeDocument processLayer saveAsPNG writeToMCPRelay stopClicked).
Abbreviation runRows :=
  (Batch.runRows activeDocument processLayer saveAsPNG writeToMCPRelay stopClicked).
Abbreviation processTextReplacement :=
  (Batch.processTextReplacement activeDocument processLayer saveAsPNG
     writeToMCPRelay setupTextOutputFolders stopClicked).
Abbreviation await := (Batch.await stopClicked).

(** The fields of the panel state that a run reads but never writes. *)
Definition sameInputs (p q : PluginState) : Prop :=
  csvData q = csvData p /\ outputFolder q = outputFolder p.

Lemma await_keeps {A} (m : Eff W A) s o s' :
  await m s = (o, s') ->
  trace s' = trace s
  /\ processedRows (plugin s') = processedRows (plugin s)
  /\ sameInputs (plugin s) (plugin s').
Proof.
  unfold Batch.await. destruct (m (world s)) as [o' w]. intros [= <- <-]. simpl.
  by destruct (stopClicked w).
Qed.

Ltac mem :=
  repeat match goal with
         | H : _ ∈ [] |- _ => by apply not_elem_of_nil in H
         | H : _ ∈ _ :: _ |- _ => apply elem_of_cons in H as [H|H]
         | H : ProcessingRow _ = ProcessingRow _ |- _ => injection H as H; subst
         | H : StoppedByUser _ = StoppedByUser _ |- _ => injection H as H; subst
         | H : @eq Event _ _ |- _ => discriminate H
         end.

(** What a run of the row loop from turn [i] leaves behind. *)
Definition loopShape (i n : nat) (s s' : @State W) (evs : list Event) : Prop :=
  trace s' = trace s ++ evs
  /\ startsAt i evs
  /\ (forall k, ProcessingRow k ∈ evs -> i <= k)
  /\ (forall k, StoppedByUser k ∈ evs ->
        processedRows (plugin s') = k /\ i <= k < i + n)
  /\ sameInputs (plugin s) (plugin s').

Lemma rowLoop_shape folders total rows : forall i s out s',
  processedRows (plugin s) = i ->
  rowLoop folders total i rows s = (out, s') ->
  exists evs, loopShape i (length rows) s s' evs
              /\ (AllRowsProcessed ∉ evs) /\ (NoMoreRows ∉ evs).
Proof.
  unfold loopShape.
  induction rows as [|row rest IH]; intros i s out s' Hi Hrun; simpl in Hrun.
  - injection Hrun as <- <-. exists []. rewrite app_nil_r.
    repeat split; try done; repeat intro; mem.
  - unfold bind at 1, shouldStopProcessing, bind at 1, get, ret in Hrun.
    destruct (stopProcessingRequested (plugin s)) eqn:Hstop.
    + injection Hrun as <- <-. exists [StoppedByUser i]. simpl.
      repeat split; try done; repeat intro; mem; try done. lia.
    + unfold bind at 1, logLine, modify in Hrun.
      unfold bind at 1 in Hrun.
      destruct (await _ _) as [o s1] eqn:Hawait in Hrun.
      apply await_keeps in Hawait as (Htr & Hpr & Hc & Ho). simpl in Htr, Hpr, Hc, Ho.
      destruct o as [r|e].
      * unfold bind at 1, onPlugin, modify in Hrun.
        apply IH in Hrun
          as (evs & (Htrace & Hstart & Hrows & Hstopped & Hc' & Ho') & Hall & Hno);
          [|simpl; lia].
        exists (ProcessingRow i :: evs). simpl in Htrace, Hc', Ho'.
        rewrite Htrace, Htr, <- app_assoc. simpl.
        repeat split; try done; repeat intro; mem; try done; try lia;
          try congruence.
        all: try (apply Hrows in H; lia); try (by apply Hstopped);
          try (apply Hstopped in H; lia).
      * injection Hrun as <- <-. exists [ProcessingRow i]. rewrite Htr. simpl.
        repeat split; try done; repeat intro; mem; try done; try lia.
Qed.

(** With the flag down, the loop reports its first row before anything
    else. *)
Lemma rowLoop_first folders total row rest i s out s' :
  processedRows (plugin s) = i ->
  stopProcessingRequested (plugin s) = false ->
  rowLoop folders total i (row :: rest) s = (out, s') ->
  exists more, trace s' = trace s ++ ProcessingRow i :: more.
Proof.
  intros Hi Hstop. simpl.
  unfold bind at 1, shouldStopProcessing, bind at 1, get, ret. rewrite Hstop.
  unfold bind at 1, logLine, modify. unfold bind at 1.
  destruct (await _ _) as [o s1] eqn:Hawait.
  apply await_keeps in Hawait as (Htr & Hpr & _). simpl in Htr, Hpr.
  destruct o as [r|e].
  - unfold bind at 1, onPlugin, modify. intros Hrun.
    apply rowLoop_shape in Hrun as (evs & (Htrace & _) & _); [|simpl; lia].
    exists evs. simpl in Htrace. by rewrite Htrace, Htr, <- app_assoc.
  - intros [= <- <-]. exists []. by rewrite Htr.
Qed.

Lemma startsAt_app i evs more :
  startsAt i evs -> evs ≠ [] -> startsAt i (evs ++ more).
Proof. by destruct evs. Qed.

(** The end of [runRows], after the rows: the flag is reset and the
    relay event is awaited; the trace and the cursor stay as they are. *)
Lemma afterRows s out s' :
  (do! Batch.resetStopProcessing in do! await writeToMCPRelay in ret tt) s
  = (out, s') ->
  trace s' = trace s
  /\ processedRows (plugin s') = processedRows (plugin s)
  /\ sameInputs (plugin s) (plugin s').
Proof.
  unfold bind at 1, resetStopProcessing, onPlugin, modify. unfold bind at 1.
  destruct (await _ _) as [o2 s2] eqn:Hawait.
  apply await_keeps in Hawait as (Htr & Hpr & Hc & Ho). simpl in Htr, Hpr, Hc, Ho.
  intros Hrun. assert (s' = s2) as -> by (by destruct o2; injection Hrun as _ <-).
  done.
Qed.

Lemma runRows_shape pt rows folders s out s' :
  runRows pt rows folders s = (out, s') ->
  exists evs,
    loopShape (processedRows (plugin s))
              (length rows - processedRows (plugin s)) s s' evs.
Proof.
  unfold loopShape, Batch.runRows, try_catch. destruct pt.
  - (* current row *)
    unfold bind at 1. unfold bind at 1. unfold get at 1.
    destruct (rows !! processedRows (plugin s)) as [row|].
    + unfold bind at 1, logLine, modify. unfold bind at 1.
      destruct (await _ _) as [o s1] eqn:Hawait.
      apply await_keeps in Hawait as (Htr & Hpr & Hc & Ho). simpl in Htr, Hpr, Hc, Ho.
      destruct o as [r|e].
      * unfold onPlugin at 1, modify at 1.
        destruct (bind _ _ _) as [o2 s2] eqn:Hafter.
        apply afterRows in Hafter as (Htr2 & Hpr2 & Hc2 & Ho2).
        simpl in Htr2, Hpr2, Hc2, Ho2.
        intros Hrun. exists [ProcessingRow (processedRows (plugin s))].
        assert (s' = s2) as -> by (by destruct o2; injection Hrun as _ <-).
        rewrite Htr2, Htr.
        repeat split; try done; repeat intro; mem; try lia; congruence.
      * unfold throw. intros [= <- <-].
        exists [ProcessingRow (processedRows (plugin s))].
        rewrite Htr. repeat split; try done; repeat intro; mem; lia.
    + unfold logLine at 1, modify at 1.
      destruct (bind _ _ _) as [o2 s2] eqn:Hafter.
      apply afterRows in Hafter as (Htr2 & Hpr2 & Hc2 & Ho2).
      simpl in Htr2, Hpr2, Hc2, Ho2.
      intros Hrun. exists [NoMoreRows].
      assert (s' = s2) as -> by (by destruct o2; injection Hrun as _ <-).
      rewrite Htr2. repeat split; try done; repeat intro; mem.
  - (* all rows *)
    unfold bind at 1. unfold bind at 1. unfold get at 1. unfold bind at 1.
    destruct (rowLoop _ _ _ _ s) as [o s1] eqn:Hloop.
    apply rowLoop_shape in Hloop
      as (evs & (Htr & Hstart & Hrows & Hstopped & Hc & Ho) & Hall & Hno); [|done].
    rewrite length_drop in Hstopped.
    destruct o as [[]|e].
    + unfold bind at 1, shouldStopProcessing, bind at 1, get, ret.
      destruct (negb _).
      * unfold logLine at 1, modify at 1.
        destruct (bind _ _ _) as [o2 s2] eqn:Hafter.
        apply afterRows in Hafter as (Htr2 & Hpr2 & Hc2 & Ho2).
        simpl in Htr2, Hpr2, Hc2, Ho2.
        intros Hrun. exists (evs ++ [AllRowsProcessed]).
        assert (s' = s2) as -> by (by destruct o2; injection Hrun as _ <-).
        rewrite Htr2, Htr, <- app_assoc. split; [done|]. split; [|split; [|split]].
        -- destruct evs; [done|]. by apply startsAt_app.
        -- intros k Hk. apply elem_of_app in Hk as [Hk|Hk]; [by apply Hrows|mem].
        -- intros k Hk. apply elem_of_app in Hk as [Hk|Hk]; [|mem].
           rewrite Hpr2. by apply Hstopped.
        -- split; congruence.
      * destruct (bind _ _ _) as [o2 s2] eqn:Hafter.
        apply afterRows in Hafter as (Htr2 & Hpr2 & Hc2 & Ho2).
        intros Hrun. exists evs.
        assert (s' = s2) as -> by (by destruct o2; injection Hrun as _ <-).
        rewrite Htr2, Htr. split; [done|]. split; [done|]. split; [done|].
        split; [|split; congruence].
        intros k Hk. rewrite Hpr2. by apply Hstopped.
    + unfold throw. intros [= <- <-]. exists evs.
      split; [done|]. split; [done|]. split; [done|]. split; [done|]. by split.
Qed.

Lemma runRows_first rows folders s out s' :
  stopProcessingRequested (plugin s) = false ->
  processedRows (plugin s) < length rows ->
  runRows All rows folders s = (out, s') ->
  exists more, trace s' = trace s ++ ProcessingRow (processedRows (plugin s)) :: more.
Proof.
  intros Hstop Hlt. unfold Batch.runRows, try_catch.
  unfold bind at 1. unfold bind at 1. unfold get at 1. unfold bind at 1.
  destruct (drop (processedRows (plugin s)) rows) as [|row rest] eqn:Hdrop.
  { apply (f_equal length) in Hdrop. rewrite length_drop in Hdrop. simpl in Hdrop. lia. }
  destruct (rowLoop _ _ _ _ s) as [o s1] eqn:Hloop.
  apply rowLoop_first in Hloop as [more Htr]; [|done..].
  destruct o as [[]|e].
  - unfold bind at 1, shouldStopProcessing, bind at 1, get, ret.
    destruct (negb _).
    + unfold logLine at 1, modify at 1.
      destruct (bind _ _ _) as [o2 s2] eqn:Hafter.
      apply afterRows in Hafter as (Htr2 & _). simpl in Htr2.
      intros Hrun. exists (more ++ [AllRowsProcessed]).
      assert (s' = s2) as -> by (by destruct o2; injection Hrun as _ <-).
      by rewrite Htr2, Htr, <- app_assoc.
    + destruct (bind _ _ _) as [o2 s2] eqn:Hafter.
      apply afterRows in Hafter as (Htr2 & _).
      intros Hrun. exists more.
      assert (s' = s2) as -> by (by destruct o2; injection Hrun as _ <-).
      by rewrite Htr2, Htr.
  - unfold throw. intros [= <- <-]. by exists more.
Qed.

Lemma run_shape pt s out s' :
  processTextReplacement (Some pt) s = (out, s') ->
  exists evs,
    trace s' = trace s ++ evs
    /\ startsAt (processedRows (plugin s)) evs
    /\ (forall k, ProcessingRow k ∈ evs -> processedRows (plugin s) <= k)
    /\ (forall k, StoppedByUser k ∈ evs ->
          processedRows (plugin s') = k
          /\ exists rows outDir,
              csvData (plugin s) = Some rows /\ k < length rows
              /\ outputFolder (plugin s) = Some outDir)
    /\ sameInputs (plugin s) (plugin s').
Proof.
  unfold Batch.processTextReplacement.
  unfold bind at 1, resetStopProcessing, onPlugin, modify, finally.
  set (s0 := mkBatch (set_stop false (plugin s)) (world s) (trace s)).
  destruct (try_catch _ _ s0) as [o s1] eqn:Hbody. intros [= <- <-]. simpl.
  assert (Hquiet : exists evs : list Event,
     trace s0 = trace s ++ evs /\ startsAt (processedRows (plugin s)) evs
     /\ (forall k, ProcessingRow k ∈ evs -> processedRows (plugin s) <= k)
     /\ (forall k, StoppedByUser k ∈ evs ->
           processedRows (plugin s0) = k
           /\ exists rows outDir,
               csvData (plugin s) = Some rows /\ k < length rows
               /\ outputFolder (plugin s) = Some outDir)
     /\ sameInputs (plugin s) (plugin s0)).
  { exists []. simpl. rewrite app_nil_r.
    repeat split; try done; repeat intro; mem. }
  revert Hbody. unfold try_catch, bind at 1, get at 1.
  change (csvData (plugin s0)) with (csvData (plugin s)).
  change (outputFolder (plugin s0)) with (outputFolder (plugin s)).
  change (world s0) with (world s).
  destruct (csvData (plugin s)) as [[|row rows]|] eqn:Hcsv;
    try (unfold throw; intros [= <- <-]; by apply Hquiet).
  destruct (outputFolder (plugin s)) as [outDir|] eqn:Hout;
    [|unfold throw; intros [= <- <-]; by apply Hquiet].
  destruct (activeDocument (world s)) as [doc|];
    [|unfold throw; intros [= <- <-]; by apply Hquiet].
  unfold bind at 1, onPlugin, modify. unfold bind at 1.
  destruct (await _ _) as [o2 s2] eqn:Hawait.
  apply await_keeps in Hawait as (Htr2 & Hpr2 & Hc2 & Ho2).
  simpl in Htr2, Hpr2, Hc2, Ho2.
  destruct o2 as [folders|e].
  - destruct (runRows _ _ _ s2) as [o3 s3] eqn:Hrows.
    apply runRows_shape in Hrows as (evs & Htr & Hstart & Hrows & Hstopped & Hc & Ho).
    intros Hrun. assert (s1 = s3) as -> by (by destruct o3; injection Hrun as _ <-).
    exists evs. rewrite Htr, Htr2. rewrite Hpr2 in Hstart, Hrows, Hstopped.
    split; [done|]. split; [done|]. split; [done|]. split.
    + intros k Hk. apply Hstopped in Hk as [Hk Hrange]. split; [done|].
      exists (row :: rows), outDir. split; [done|]. split; [lia|done].
    + split; simpl; congruence.
  - unfold throw. intros [= <- <-]. exists []. rewrite Htr2, app_nil_r.
    repeat split; try done; repeat intro; mem.
Qed.

Lemma run_first next out s' rows outDir doc folders w :
  csvData (plugin next) = Some rows ->
  processedRows (plugin next) < length rows ->
  outputFolder (plugin next) = Some outDir ->
  activeDocument (world next) = Some doc ->
  setupTextOutputFolders (Some outDir) (world next) = (Returned folders, w) ->
  stopClicked w = false ->
  processTextReplacement (Some All) next = (out, s') ->
  exists more,
    trace s' = trace next ++ ProcessingRow (processedRows (plugin next)) :: more.
Proof.
  intros Hcsv Hlt Hout Hdoc Hsetup Hquiet.
  unfold Batch.processTextReplacement.
  unfold bind at 1, resetStopProcessing, onPlugin, modify, finally.
  set (s0 := mkBatch (set_stop false (plugin next)) (world next) (trace next)).
  destruct (try_catch _ _ s0) as [o s1] eqn:Hbody. intros [= <- <-]. simpl.
  revert Hbody. unfold try_catch, bind at 1, get at 1.
  change (csvData (plugin s0)) with (csvData (plugin next)).
  change (outputFolder (plugin s0)) with (outputFolder (plugin next)).
  change (world s0) with (world next).
  rewrite Hcsv, Hout, Hdoc.
  destruct rows as [|row rows]; [simpl in Hlt; lia|].
  unfold bind at 1, onPlugin, modify. unfold bind at 1.
  unfold Batch.await at 1. simpl. rewrite Hsetup, Hquiet.
  destruct (runRows _ _ _ _) as [o3 s3] eqn:Hrows.
  apply runRows_first in Hrows as [more Htr]; [|done..].
  intros Hrun. assert (s1 = s3) as -> by (by destruct o3; injection Hrun as _ <-).
  by exists more.
Qed.

(** The rows as the claim has them processed: starting with the row at
    index [i] of the CSV data, one row after the other, each handed to
    [processTextRow] with its own index, until [n] rows are done, the data
    ends, a row throws, or a stop request is pending. *)
Fixpoint rowsInOrder (rows : list Row) (folders : Folders.OutputFolders)
    (i n : nat) (stop : bool) (w : W) : Outcome unit * W :=
  match n with
  | 0 => (Returned tt, w)
  | S n' =>
      if stop then (Returned tt, w)
      else
        match rows !! i with
        | None => (Returned tt, w)
        | Some row =>
            match processTextRow row i (length rows) (Some folders) w with
            | (Returned _, w1) =>
                rowsInOrder rows folders (S i) n' (stopClicked w1) w1
            | (Threw e, w1) => (Threw e, w1)
            end
        end
  end.

(** What a run over all rows leaves on the host: the rows from [i] on,
    in order, and then the relay event of the run when no row threw. *)
Definition processedFrom (rows : list Row) (folders : Folders.OutputFolders)
    (i : nat) (w : W) : Outcome unit * W :=
  match rowsInOrder rows folders i (length rows - i) false w with
  | (Returned _, w1) =>
      match writeToMCPRelay w1 with
      | (Returned _, w2) => (Returned tt, w2)
      | (Threw e, w2) => (Threw e, w2)
      end
  | (Threw e, w1) => (Threw e, w1)
  end.

Lemma rowLoop_rowsInOrder rows folders : forall rest i s out s',
  drop i rows = rest ->
  rowLoop folders (length rows) i rest s = (out, s') ->
  (out, world s')
  = rowsInOrder rows folders i (length rest)
                (stopProcessingRequested (plugin s)) (world s).
Proof.
  induction rest as [|row rest IH]; intros i s out s' Hdrop Hrun; simpl in Hrun.
  - by injection Hrun as <- <-.
  - assert (Hrow : rows !! i = Some row).
    { rewrite <- (Nat.add_0_r i), <- lookup_drop, Hdrop. done. }
    assert (Hrest : drop (S i) rows = rest).
    { replace (S i) with (i + 1) by lia. by rewrite <- drop_drop, Hdrop. }
    revert Hrun. unfold bind at 1, shouldStopProcessing, bind at 1, get, ret.
    simpl. destruct (stopProcessingRequested (plugin s)) eqn:Hstop.
    + unfold logLine, modify. by intros [= <- <-].
    + rewrite Hrow. unfold bind at 1, logLine, modify. unfold bind at 1.
      unfold Batch.await at 1. simpl.
      destruct (processTextRow row i (length rows) (Some folders) (world s))
        as [[r|e] w1].
      * unfold bind at 1, onPlugin, modify. intros Hrun.
        apply IH in Hrun; [|done]. rewrite Hrun. simpl.
        destruct (stopClicked w1); simpl; [done|by rewrite Hstop].
      * by intros [= <- <-].
Qed.

Lemma runRows_processedFrom rows folders s out s' :
  stopProcessingRequested (plugin s) = false ->
  runRows All rows folders s = (out, s') ->
  (out, world s') = processedFrom rows folders (processedRows (plugin s)) (world s).
Proof.
  intros Hstop. unfold Batch.runRows, try_catch, processedFrom.
  unfold bind at 1. unfold bind at 1. unfold get at 1. unfold bind at 1.
  destruct (rowLoop _ _ _ _ s) as [o s1] eqn:Hloop.
  apply rowLoop_rowsInOrder in Hloop; [|done].
  rewrite length_drop, Hstop in Hloop. rewrite <- Hloop.
  destruct o as [[]|e].
  - unfold bind at 1, shouldStopProcessing, bind at 1, get, ret.
    assert (Hend : forall s1' : @State W, world s1' = world s1 ->
      (match (do! Batch.resetStopProcessing in do! await writeToMCPRelay in ret tt) s1'
       with (Returned a, t) => (Returned a, t) | (Threw e, t) => throw e t end)
      = (out, s') ->
      (out, world s') = match writeToMCPRelay (world s1) with
                        | (Returned _, w2) => (Returned tt, w2)
                        | (Threw e, w2) => (Threw e, w2)
                        end).
    { intros s1' Hw. unfold bind at 1, resetStopProcessing, onPlugin, modify.
      unfold bind at 1, Batch.await. simpl. rewrite Hw.
      destruct (writeToMCPRelay (world s1)) as [[p|e] w2]; unfold ret, throw;
        by intros [= <- <-]. }
    destruct (negb _).
    + unfold logLine at 1, modify at 1. by apply Hend.
    + by apply Hend.
  - unfold throw. by intros [= <- <-].
Qed.

Lemma run_processedFrom next out s' rows outDir doc folders w :
  csvData (plugin next) = Some rows ->
  rows ≠ [] ->
  outputFolder (plugin next) = Some outDir ->
  activeDocument (world next) = Some doc ->
  setupTextOutputFolders (Some outDir) (world next) = (Returned folders, w) ->
  stopClicked w = false ->
  processTextReplacement (Some All) next = (out, s') ->
  (out, world s') = processedFrom rows folders (processedRows (plugin next)) w.
Proof.
  intros Hcsv Hne Hout Hdoc Hsetup Hquiet.
  unfold Batch.processTextReplacement.
  unfold bind at 1, resetStopProcessing, onPlugin, modify, finally.
  set (s0 := mkBatch (set_stop false (plugin next)) (world next) (trace next)).
  destruct (try_catch _ _ s0) as [o s1] eqn:Hbody. intros [= <- <-]. simpl.
  revert Hbody. unfold try_catch, bind at 1, get at 1.
  change (csvData (plugin s0)) with (csvData (plugin next)).
  change (outputFolder (plugin s0)) with (outputFolder (plugin next)).
  change (world s0) with (world next).
  rewrite Hcsv, Hout, Hdoc.
  destruct rows as [|row rows]; [done|].
  unfold bind at 1, onPlugin, modify. unfold bind at 1.
  unfold Batch.await at 1. simpl. rewrite Hsetup, Hquiet.
  destruct (runRows _ _ _ _) as [o3 s3] eqn:Hrows.
  apply runRows_processedFrom in Hrows; [|done]. simpl in Hrows.
  intros Hrun. rewrite <- Hrows.
  by destruct o3; injection Hrun as <- <-.
Qed.

Lemma rowsInOrder_first rows folders i row w :
  rows !! i = Some row ->
  rowsInOrder rows folders i (length rows - i) false w
  = match processTextRow row i (length rows) (Some folders) w with
    | (Returned _, w1) =>
        rowsInOrder rows folders (S i) (length rows - S i) (stopClicked w1) w1
    | (Threw e, w1) => (Threw e, w1)
    end.
Proof.
  intros Hrow. pose proof (lookup_lt_Some _ _ _ Hrow) as Hlt.
  replace (length rows - i) with (S (length rows - S i)) by lia.
  simpl. by rewrite Hrow.
Qed.

(** C1: when a run over all rows sees the stop request at the top of
    turn [i], it ends with [processedRows = i], and the CSV data has a row
    at index [i].  The next run, started from that panel state on any
    host, takes up the rows at [i]: it reports no row before [i], the
    first row it reports is row [i], and it does report row [i] first
    whenever its set-up succeeds without a new stop request.  In that
    case what the run does on the host is [processedFrom]: the first row
    it hands to [processTextRow] is the row at index [i] of the data,
    with index [i], from the state in which set-up left the host; the
    rows after it follow in order, each with its own index. *)
Theorem resume_invariant s out s' evs i :
  processTextReplacement (Some All) s = (out, s') ->
  trace s' = trace s ++ evs ->
  StoppedByUser i ∈ evs ->
  processedRows (plugin s') = i
  /\ (forall pt next out2 s2 evs2,
        plugin next = plugin s' ->
        processTextReplacement (Some pt) next = (out2, s2) ->
        trace s2 = trace next ++ evs2 ->
        startsAt i evs2 /\ (forall k, ProcessingRow k ∈ evs2 -> i <= k))
  /\ (forall next out2 s2 doc folders w,
        plugin next = plugin s' ->
        activeDocument (world next) = Some doc ->
        setupTextOutputFolders (outputFolder (plugin next)) (world next)
        = (Returned folders, w) ->
        stopClicked w = false ->
        processTextReplacement (Some All) next = (out2, s2) ->
        exists more, trace s2 = trace next ++ ProcessingRow i :: more)
  /\ (exists rows row, csvData (plugin s') = Some rows /\ rows !! i = Some row)
  /\ (forall next out2 s2 doc folders w rows row,
        plugin next = plugin s' ->
        csvData (plugin next) = Some rows ->
        rows !! i = Some row ->
        activeDocument (world next) = Some doc ->
        setupTextOutputFolders (outputFolder (plugin next)) (world next)
        = (Returned folders, w) ->
        stopClicked w = false ->
        processTextReplacement (Some All) next = (out2, s2) ->
        (out2, world s2) = processedFrom rows folders i w
        /\ rowsInOrder rows folders i (length rows - i) false w
           = match processTextRow row i (length rows) (Some folders) w with
             | (Returned _, w1) =>
                 rowsInOrder rows folders (S i) (length rows - S i)
                             (stopClicked w1) w1
             | (Threw e, w1) => (Threw e, w1)
             end).
Proof.
  intros Hrun Htrace Hstop.
  apply run_shape in Hrun as (evs' & Htr & _ & _ & Hstopped & Hc & Ho).
  assert (evs' = evs) as -> by (rewrite Htr in Htrace; by apply app_inv_head in Htrace).
  destruct (Hstopped i Hstop) as (Hi & rows & outDir & Hrows & Hlt & Hout).
  split; [done|]. split; [|split; [|split]].
  - intros pt next out2 s2 evs2 Hnext Hrun2 Htrace2.
    apply run_shape in Hrun2 as (evs'' & Htr2 & Hstart & Hrows2 & _).
    assert (evs'' = evs2) as ->
      by (rewrite Htr2 in Htrace2; by apply app_inv_head in Htrace2).
    rewrite Hnext, Hi in Hstart, Hrows2. done.
  - intros next out2 s2 doc folders w Hnext Hdoc Hsetup Hquiet Hrun2.
    rewrite Hnext, Ho, Hout in Hsetup.
    rewrite <- Hi, <- Hnext.
    eapply run_first; try done.
    + by rewrite Hnext, Hc.
    + by rewrite Hnext, Hi.
    + by rewrite Hnext, Ho.
  - destruct (lookup_lt_is_Some_2 rows i Hlt) as [row Hrow].
    exists rows, row. by rewrite Hc.
  - intros next out2 s2 doc folders w rows' row Hnext Hcsv Hrow Hdoc Hsetup Hquiet Hrun2.
    split; [|by apply rowsInOrder_first].
    rewrite Hnext, Ho, Hout in Hsetup.
    rewrite <- Hi, <- Hnext.
    eapply run_processedFrom; try done.
    + intros ->. by rewrite lookup_nil in Hrow.
    + by rewrite Hnext, Ho.
Qed.

(** *** Errors inside a row *)

(** The number of layers that the row has data for. *)
Definition withData (row : Row) (textLayers : list (DocLayer * Js.str)) : nat :=
  length (filter (fun li => hasRowData row li.2 = true) textLayers).

Lemma withData_cons row layer index rest :
  withData row ((layer, index) :: rest)
  = (if hasRowData row index then 1 else 0) + withData row rest.
Proof.
  unfold withData. rewrite filter_cons. simpl.
  destruct (hasRowData row index).
  - by rewrite decide_True.
  - by rewrite decide_False.
Qed.

(** Every layer with data ends either in [layerUpdates] or in [errors]:
    a throwing layer does not stop the loop. *)
Lemma layerLoop_returns row textLayers : forall vars w,
  exists layerUpdates errors w',
    Batch.layerLoop processLayer row textLayers vars w
    = (Returned (layerUpdates, errors), w')
    /\ length layerUpdates + length errors
       = length vars.1 + length vars.2 + withData row textLayers.
Proof.
  induction textLayers as [|[layer index] rest IH]; intros [ups errs] w.
  - exists ups, errs, w. unfold withData. simpl. split; [done|lia].
  - rewrite withData_cons. simpl.
    destruct (hasRowData row index); simpl.
    + unfold bind at 1, try_catch, bind at 1, ret.
      destruct (processLayer layer row index w) as [[r|e] w1]; simpl.
      * destruct (IH (ups ++ [r], errs) w1) as (ups' & errs' & w' & -> & Hlen).
        exists ups', errs', w'. split; [done|]. simpl in Hlen.
        rewrite length_app in Hlen. simpl in Hlen. lia.
      * destruct (IH (ups, errs ++ [mkRowError (Some (layerName layer)) None
                                               (message e) (code e)]) w1)
          as (ups' & errs' & w' & -> & Hlen).
        exists ups', errs', w'. split; [done|]. simpl in Hlen.
        rewrite length_app in Hlen. simpl in Hlen. lia.
    + destruct (IH (ups, errs) w) as (ups' & errs' & w' & -> & Hlen).
      exists ups', errs', w'. split; [done|]. simpl in Hlen. lia.
Qed.

Lemma saveStep_returns row folders errors w :
  exists saved w',
    Batch.saveStep saveAsPNG writeToMCPRelay row folders errors w
    = (Returned saved, w').
Proof.
  unfold Batch.saveStep, try_catch, bind, throw, ret.
  destruct folders as [f|]; [|by eauto].
  destruct (saveAsPNG _ _ w) as [[r|e] w1];
    destruct (writeToMCPRelay w1) as [[p|e'] w2]; by eauto.
Qed.

(** A row throws only for want of a document or of text layers. *)
Lemma processTextRow_returns row index total folders w doc :
  activeDocument w = Some doc ->
  textLayersOf doc ≠ [] ->
  exists result w', processTextRow row index total folders w = (Returned result, w').
Proof.
  intros Hdoc Hlayers. unfold Batch.processTextRow.
  unfold bind at 1, get. rewrite Hdoc.
  unfold try_catch.
  destruct (length (textLayersOf doc) =? 0) eqn:Hlen.
  { apply Nat.eqb_eq in Hlen. by destruct (textLayersOf doc). }
  unfold bind at 1.
  destruct (layerLoop_returns row (textLayersOf doc) ([], []) w)
    as (ups & errs & w1 & -> & _).
  unfold bind at 1.
  destruct (0 <? length ups).
  - destruct (saveStep_returns row folders errs w1) as ([errs' png] & w2 & ->).
    by eauto.
  - unfold ret. by eauto.
Qed.

(** *** [processCSV]: a failing row does not end the loop *)

Abbreviation csvLoop :=
  (Batch.csvLoop activeDocument processLayer saveAsPNG writeToMCPRelay stopClicked).
Abbreviation processCSV :=
  (Batch.processCSV activeDocument processLayer saveAsPNG writeToMCPRelay
     setupTextOutputFolders stopClicked).

(** The loop of [processCSV] never throws; it leaves one entry in
    [results] for every row it went through, and it goes through all rows
    unless it sees the stop request. *)
Lemma csvLoop_returns folders total rows : forall i c s,
  exists c' s' evs n,
    csvLoop folders total i rows c s = (Returned c', s')
    /\ trace s' = trace s ++ evs
    /\ length (resultList c') = length (resultList c) + n
    /\ n <= length rows
    /\ (n < length rows -> StoppedByUser (i + n) ∈ evs).
Proof.
  induction rows as [|row rest IH]; intros i c s; simpl.
  - exists c, s, [], 0. rewrite app_nil_r. repeat split; try done; lia.
  - unfold bind at 1, shouldStopProcessing, bind at 1, get, ret.
    destruct (stopProcessingRequested (plugin s)).
    + unfold bind, logLine, modify. eexists c, _, [StoppedByUser i], 0. simpl.
      repeat split; try done; try lia.
      intros _. rewrite Nat.add_0_r. by left.
    + unfold bind at 1, try_catch. unfold bind at 1. unfold logLine at 1, modify at 1.
      unfold bind at 1.
      destruct (await _ _) as [o s1] eqn:Hawait.
      apply await_keeps in Hawait as (Htr & _). simpl in Htr.
      assert (Hnext : forall c1 s2, trace s2 = trace s ++ [ProcessingRow i] ->
                length (resultList c1) = length (resultList c) + 1 ->
                exists c' s' evs n,
                  csvLoop folders total (S i) rest c1 s2 = (Returned c', s')
                  /\ trace s' = trace s ++ evs
                  /\ length (resultList c') = length (resultList c) + n
                  /\ n <= S (length rest)
                  /\ (n < S (length rest) -> StoppedByUser (i + n) ∈ evs)).
      { intros c1 s2 Htr2 Hlen.
        destruct (IH (S i) c1 s2) as (c' & s' & evs & n & -> & Htr' & Hlen' & Hn & Hstop).
        exists c', s', (ProcessingRow i :: evs), (S n).
        split; [done|]. split; [by rewrite Htr', Htr2, <- app_assoc|].
        split; [lia|]. split; [lia|].
        intros Hlt. right. replace (i + S n) with (S i + n) by lia.
        apply Hstop. lia. }
      destruct o as [r|e].
      * unfold bind at 1.
        destruct (await _ s1) as [o2 s2] eqn:Hpause.
        assert (o2 = Returned tt) as ->.
        { revert Hpause. unfold Batch.await. by intros [= <- _]. }
        apply await_keeps in Hpause as (Htr2 & _).
        apply Hnext; [by rewrite Htr2, Htr|].
        unfold countRow. simpl. rewrite length_app. simpl. lia.
      * apply Hnext; [done|].
        unfold countFailure. simpl. rewrite length_app. simpl. lia.
Qed.

End ControllerProps.

(** *** Computations that agree step by step *)

Lemma bind_ext_l {S A B} (m1 m2 : Eff S A) (k : A -> Eff S B) s :
  m1 s = m2 s -> bind m1 k s = bind m2 k s.
Proof. unfold bind. by intros ->. Qed.

Lemma bind_ext_r {S A B} (m : Eff S A) (k1 k2 : A -> Eff S B) s :
  (forall a s', k1 a s' = k2 a s') -> bind m k1 s = bind m k2 s.
Proof. unfold bind. intros H. by destruct (m s) as [[a|e] s']. Qed.

Lemma try_ext {S A} (m1 m2 : Eff S A) (h : JsError -> Eff S A) s :
  m1 s = m2 s -> try_catch m1 h s = try_catch m2 h s.
Proof. unfold try_catch. by intros ->. Qed.

(** *** Concrete runs *)

Definition titleDoc : Doc := mkDoc [mkLayer js:"Title1" true].
Definition blankDoc : Doc := mkDoc [mkLayer js:"Background" false].
Definition outDir : Entry := mkEntry js:"/out" true.
Definition outFolders : Folders.OutputFolders :=
  Folders.mkFolders outDir (mkEntry js:"/out/Text_PNG" true) js:"/out/Text_PNG".
Definition rowOf (text1 : string) : Row := {[ js:"text1" := Js.lit text1 ]}.
Definition threeRows : list Row := [rowOf "A"; rowOf "B"; rowOf "C"].

(** A host whose state counts the layers written so far, and on which
    every call succeeds. *)
Definition layerOk (l : DocLayer) (r : Row) (i : Js.str) : Eff nat LayerUpdate :=
  fun w => (Returned (mkUpdate (layerName l) true false), S w).
Definition pngOk (path : Js.str) (f : option Folders.OutputFolders)
  : Eff nat (option bool) := ret (Some true).
Definition relayOk : Eff nat Js.str := ret js:"/tmp/mcp-relay/logs/mcp-out-1.json".
Definition setupOk (out : option Entry) : Eff nat Folders.OutputFolders :=
  ret outFolders.

(** The panel with three rows loaded, an output folder chosen, and
    nothing processed yet. *)
Definition loaded : @State nat :=
  mkBatch (mkState false true 3 0 (Some threeRows) (Some outDir) false) 0 [].

(** A host that keeps what was written, in order: set-up leaves a mark,
    and a layer update leaves the text it was given. *)
Definition layerWrites (l : DocLayer) (r : Row) (i : Js.str)
  : Eff (list Js.str) LayerUpdate :=
  fun w => (Returned (mkUpdate (layerName l) true false),
            w ++ [orElse r (textKey i) []]).
Definition setupMarks (out : option Entry)
  : Eff (list Js.str) Folders.OutputFolders :=
  fun w => (Returned outFolders, w ++ [js:"setup"]).
Definition pngDone (path : Js.str) (f : option Folders.OutputFolders)
  : Eff (list Js.str) (option bool) := ret (Some true).
Definition relayDone : Eff (list Js.str) Js.str :=
  ret js:"/tmp/mcp-relay/logs/mcp-out-1.json".

(** Stop is clicked while the first row is being written. *)
Definition clickAfterA (w : list Js.str) : bool :=
  bool_decide (w = [js:"setup"; js:"A"]).

Definition fresh : @State (list Js.str) :=
  mkBatch (mkState false true 3 0 (Some threeRows) (Some outDir) false) [] [].

Definition stoppedAfterA : @State (list Js.str) :=
  mkBatch (mkState false true 3 1 (Some threeRows) (Some outDir) false)
          [js:"setup"; js:"A"] [ProcessingRow 0; StoppedByUser 1].

Lemma resume_invariant_witness :
  Batch.processTextReplacement (fun _ => Some titleDoc) layerWrites pngDone
    relayDone setupMarks clickAfterA (Some All) fresh
  = (Returned tt, stoppedAfterA)
  /\ processedRows (plugin stoppedAfterA) = 1
  /\ world (Batch.processTextReplacement (fun _ => Some titleDoc) layerWrites
              pngDone relayDone setupMarks clickAfterA (Some All)
              (mkBatch (plugin stoppedAfterA) (world stoppedAfterA) [])).2
     = [js:"setup"; js:"A"; js:"setup"; js:"B"; js:"C"].
Proof.
  assert (Hrun : Batch.processTextReplacement (fun _ => Some titleDoc) layerWrites
                   pngDone relayDone setupMarks clickAfterA (Some All) fresh
                 = (Returned tt, stoppedAfterA)) by (vm_compute; reflexivity).
  split; [exact Hrun|].
  destruct (resume_invariant (fun _ => Some titleDoc) layerWrites pngDone relayDone
              setupMarks clickAfterA fresh (Returned tt) stoppedAfterA
              [ProcessingRow 0; StoppedByUser 1] 1 Hrun eq_refl
              ltac:(right; left))
    as (Hrows & _ & _ & _ & Hnext).
  split; [exact Hrows|].
  destruct (Hnext (mkBatch (plugin stoppedAfterA) (world stoppedAfterA) []) _ _
              titleDoc outFolders [js:"setup"; js:"A"; js:"setup"]
              threeRows (rowOf "B") eq_refl eq_refl eq_refl eq_refl eq_refl eq_refl
              (surjective_pairing _)) as [Hworld _].
  apply (f_equal snd) in Hworld. simpl in Hworld.
  etransitivity; [exact Hworld|]. vm_compute. reflexivity.
Defined.

(** C9 fails on [processTextReplacement], the handler of the Process
    button: the document has no text layer, so [processTextRow] throws
    [NO_TEXT_LAYERS] for the first row; the loop has no handler around the
    row, the error leaves the function, the cursor stays at 0 and the rows
    after the first are never tried.  On the same input the loop of
    [processCSV] records the failure of each row and goes on to the next. *)
Theorem row_error_ends_processTextReplacement :
  Batch.processTextReplacement (fun _ => Some blankDoc) layerOk pngOk relayOk
    setupOk (fun _ => false) (Some All) loaded
  = (Threw noTextLayers,
     mkBatch (mkState false true 3 0 (Some threeRows) (Some outDir) false) 0
             [ProcessingRow 0])
  /\ exists summary s',
      Batch.processCSV (fun _ => Some blankDoc) layerOk pngOk relayOk setupOk
        (fun _ => false) (Returned All) None threeRows loaded
      = (Returned summary, s')
      /\ results summary
         = [RowFailed (message noTextLayers) 1; RowFailed (message noTextLayers) 2;
            RowFailed (message noTextLayers) 3]
      /\ trace s' = [ProcessingRow 0; ProcessingRow 1; ProcessingRow 2].
Proof.
  split; [vm_compute; reflexivity|].
  eexists; eexists. split; [vm_compute; reflexivity|]. split; reflexivity.
Qed.

End BatchProps.

(** ** The row stage on its real collaborators *)

Module RowStageProps.
Import Batch Pipeline.

(** No text layer of the document has a font size in the row. *)
Definition setsNoFontSize (row : Row) (textLayers : list (DocLayer * Js.str)) : bool :=
  forallb (fun li => negb (Js.has row (fontSizeKey li.2))) textLayers.

(** The host's state without the relay's part of it. *)
Definition forgetRelay (w : World) : World :=
  mkWorld (document w)
          (Layers.mkTrace (Layers.written (done w))
             (FontSize.mkTrace (FontSize.events (Layers.font (done w))) []))
          (exported w).

Lemma has_false (row : Row) (k : Js.str) :
  Js.has row k = false ->
  @lookup Js.str (list N) Row _ k row = None
  \/ @lookup Js.str (list N) Row _ k row = Some [].
Proof.
  unfold Js.has. intros H.
  destruct (@lookup Js.str (list N) Row _ k row) as [[|c v]|] eqn:E;
    [by right| |by left].
  exfalso. revert H. change (row !! k) with (@lookup Js.str (list N) Row _ k row).
  by rewrite E.
Qed.

Lemma processLayer_without_font r h l (row : Row) index w :
  Js.has row (fontSizeKey index) = false ->
  Pipeline.processLayer (withRelay r h) l row index w
  = Pipeline.processLayer h l row index w.
Proof.
  intros Hfont.
  unfold Pipeline.processLayer, zoom, Layers.processLayer, try_catch.
  by destruct (has_false _ _ Hfont) as [-> | ->].
Qed.

Lemma layerLoop_without_font r h row textLayers : forall vars w,
  setsNoFontSize row textLayers = true ->
  Batch.layerLoop (Pipeline.processLayer (withRelay r h)) row textLayers vars w
  = Batch.layerLoop (Pipeline.processLayer h) row textLayers vars w.
Proof.
  induction textLayers as [|[l index] rest IH]; intros [ups errs] w Hno; [done|].
  simpl in Hno. apply andb_prop in Hno as [Hfont Hrest].
  apply negb_true_iff in Hfont. simpl.
  destruct (hasRowData row index); [|by apply IH].
  etransitivity; [apply BatchProps.bind_ext_r; intros vars w1; by apply IH|].
  apply BatchProps.bind_ext_l, BatchProps.try_ext, BatchProps.bind_ext_l.
  by apply processLayer_without_font.
Qed.

Lemma relay_touches_its_log h w :
  forgetRelay (Pipeline.writeToMCPRelay h w).2 = forgetRelay w.
Proof.
  unfold Pipeline.writeToMCPRelay, zoom.
  by destruct (Relay.writeToMCPRelay _ _ _) as [o t].
Qed.

(** The save step in closed form: the outcome of the export decides
    what it returns; the relay write that follows only moves the host on. *)
Lemma saveStep_run h row f errors w :
  Batch.saveStep (Pipeline.saveAsPNG h) (Pipeline.writeToMCPRelay h)
                 row (Some f) errors w
  = (Returned
       (match (Pipeline.saveAsPNG h (pngPathOf row f) (Some f) w).1 with
        | Returned _ => (errors, true)
        | Threw pngError =>
            (errors ++ [mkRowError None (Some "PNG_SAVE") (message pngError) None],
             false)
        end),
     (Pipeline.writeToMCPRelay h
        (Pipeline.saveAsPNG h (pngPathOf row f) (Some f) w).2).2).
Proof.
  unfold Batch.saveStep, try_catch, bind, ret.
  destruct (Pipeline.saveAsPNG h _ _ w) as [[r|e] w1]; simpl;
    by destruct (Pipeline.writeToMCPRelay h w1) as [[p|e'] w2].
Qed.

Lemma row_without_font_ignores_relay r h row index total folders w doc :
  document w = Some doc ->
  setsNoFontSize row (textLayersOf doc) = true ->
  (Pipeline.processTextRow (withRelay r h) row index total folders w).1
  = (Pipeline.processTextRow h row index total folders w).1
  /\ forgetRelay (Pipeline.processTextRow (withRelay r h) row index total folders w).2
     = forgetRelay (Pipeline.processTextRow h row index total folders w).2.
Proof.
  intros Hdoc Hno. unfold Pipeline.processTextRow, Batch.processTextRow.
  unfold bind, get. rewrite Hdoc. unfold try_catch.
  destruct (length (textLayersOf doc) =? 0); [done|].
  rewrite layerLoop_without_font by done.
  destruct (Batch.layerLoop _ _ _ _ w) as [[[ups errs]|e] w1]; [|done].
  destruct (0 <? length ups); [|done].
  destruct folders as [f|]; [|done].
  pose proof (saveStep_run (withRelay r h) row f errs w1) as H1.
  pose proof (saveStep_run h row f errs w1) as H2.
  unfold bind in H1, H2. rewrite H1, H2.
  change (saveAsPNG (withRelay r h)) with (saveAsPNG h).
  destruct (saveAsPNG h (pngPathOf row f) (Some f) w1) as [[saved|e] w2];
    cbn [fst snd]; unfold ret; cbn [fst snd];
    by rewrite !relay_touches_its_log.
Qed.

(** *** Concrete hosts *)

Definition pngFine : Png.V2.Host :=
  Png.V2.mkHost (Returned tt) (Returned true) (Returned tt) (Returned tt)
                (Returned tt) (Returned tt) (Returned true) (Returned 2000%N)
                (Returned tt) (Returned true) (Returned 2000%N) (Returned tt).

(** A host on which every Photoshop call comes back, over a given relay
    store. *)
Definition studio (r : Relay.Host) : Pipeline.Host :=
  Pipeline.mkHost
    (Layers.mkHost (fun _ => Returned tt) (fun _ => Returned tt)
                   (fun _ _ => Returned tt) (fun _ => Returned tt)
                   (fun _ => Returned tt) (fun _ => Returned tt)
                   (fun _ => 24%float) r)
    (fun _ => pngFine).

Definition atTitle : World :=
  mkWorld (Some BatchProps.titleDoc)
          (Layers.mkTrace [] (FontSize.mkTrace [] [])) (Png.V2.mkTrace [] None).

End RowStageProps.

(** ** The relay in the pipeline *)

Module PipelineProps.
Import Relay RelayProps.

(** C4, as amended: [writeToMCPRelay] rejects a missing argument at
    once; otherwise, once the format, the relay folders and the
    serialisation are in order, it makes the primary write attempt once,
    makes the temp-file-then-move attempt once exactly when the primary
    attempt failed, and raises a wrapped error ([MCP_WRITE_ERROR] caused
    by [FILE_WRITE_ERROR]) exactly when both attempts failed; when one of
    those preliminaries fails it raises without any write attempt.  A
    relay failure does not abort a row: [processTextRow], run on
    [processLayer], [replaceText], [updateFontSize], [saveAsPNG] and the
    relay as the source wires them, returns a result whenever the
    document has a numbered text layer, whatever the relay store does.
    The relay write that [processTextRow] makes itself after the save
    step is caught: for a row that sets no font size on any text layer,
    the result, and the state of the host apart from the relay's own log,
    are the same on any two relay stores. *)
Theorem relay_retries_once_and_rows_go_on :
  (forall h t,
      writeToMCPRelay h None t
      = (Threw (PluginError js:"No data provided for MCP relay" "INVALID_INPUT" []), t))
  /\ (forall h d t,
        exists evs out,
          writeToMCPRelay h (Some d) t = (out, t ++ evs)
          /\ if reachesWrite h d then
               occurrences PrimaryCreateFile evs = 1
               /\ occurrences FallbackCreateTemp evs
                  = (if primaryFails h then 1 else 0)
               /\ threw out = primaryFails h && fallbackFails h
               /\ (forall e, out = Threw e ->
                     exists e1 e2, e = mcpWriteError (fileWriteError e1 e2))
             else evs = [] /\ threw out = true)
  /\ (forall h row index total folders w doc,
        Pipeline.document w = Some doc ->
        Batch.textLayersOf doc ≠ [] ->
        exists result w',
          Pipeline.processTextRow h row index total folders w
          = (Returned result, w'))
  /\ (forall h r1 r2 row index total folders w doc,
        Pipeline.document w = Some doc ->
        RowStageProps.setsNoFontSize row (Batch.textLayersOf doc) = true ->
        (Pipeline.processTextRow (Pipeline.withRelay r1 h)
           row index total folders w).1
        = (Pipeline.processTextRow (Pipeline.withRelay r2 h)
             row index total folders w).1
        /\ RowStageProps.forgetRelay
             (Pipeline.processTextRow (Pipeline.withRelay r1 h)
                row index total folders w).2
           = RowStageProps.forgetRelay
               (Pipeline.processTextRow (Pipeline.withRelay r2 h)
                  row index total folders w).2).
Proof.
  split; [done|]. split; [apply writeToMCPRelay_attempts|]. split.
  - intros h row index total folders w doc Hdoc Hlayers.
    by apply (BatchProps.processTextRow_returns Pipeline.document) with doc.
  - intros h r1 r2 row index total folders w doc Hdoc Hno.
    destruct (RowStageProps.row_without_font_ignores_relay
                r1 h row index total folders w doc Hdoc Hno) as [-> ->].
    destruct (RowStageProps.row_without_font_ignores_relay
                r2 h row index total folders w doc Hdoc Hno) as [-> ->].
    done.
Qed.

(** *** Concrete runs *)

(** A relay store whose temporary folder cannot be opened. *)
Definition relayNoTemp : Host :=
  mkHost true (Threw (HostError js:"Temporary folder unavailable"))
         (Returned true) (Returned tt) (Returned true) (Returned tt)
         js:"/tmp/mcp-relay/logs" js:"mcp-out-1.json"
         (fun _ => Returned (Some js:"{}"))
         (Returned (true, js:"/tmp/mcp-relay/logs/mcp-out-1.json"))
         (Returned tt) (Returned tt) (Returned tt) (Returned tt).

(** The two parts of C4 that the code does not bear out, as they are
    worded: an error is raised only after both write attempts; and a
    relay failure does not make a font-size update fail once a mutation
    has come back. *)
Definition raises_only_after_both_attempts : Prop :=
  forall h d t e t',
    writeToMCPRelay h d t = (Threw e, t') ->
    exists evs, t' = t ++ evs
                /\ PrimaryCreateFile ∈ evs /\ FallbackCreateTemp ∈ evs.

Definition relay_failure_spares_the_field : Prop :=
  forall h layer fontSize t e t',
    FontSize.updateFontSize h layer fontSize t = (Threw e, t') ->
    forall m, FontSize.Updated m ∉ FontSize.events t'.

(** C4 as worded fails twice.  With the temporary folder unavailable,
    [writeToMCPRelay] raises although no write was attempted.  And in
    [updateFontSize] the relay write is awaited outside any handler: with
    the relay store down, the update throws [FONT_SIZE_UPDATE_ERROR]
    although the DOM assignment had come back. *)
Lemma relay_error_without_attempt_and_through_update :
  writeToMCPRelay relayNoTemp (Some (mkData js:"hello" [])) []
  = (Threw (mcpWriteError (HostError js:"Temporary folder unavailable")), [])
  /\ FontSize.updateFontSize (FontSizeProps.quietHost FontSizeProps.relayDown)
       (Some FontSizeProps.layerAt12) (FontSize.JOpaque (Some 24%float))
       (FontSize.mkTrace [] [])
     = (Threw (FontSize.fontSizeUpdateError (Some FontSizeProps.layerAt12)
                 (mcpWriteError (fileWriteError FontSizeProps.diskFull
                                                FontSizeProps.diskFull))),
        FontSize.mkTrace [FontSize.Updated FontSize.DomApi; FontSize.Waited 500]
                         [PrimaryCreateFile; FallbackCreateTemp])
  /\ ~ raises_only_after_both_attempts
  /\ ~ relay_failure_spares_the_field.
Proof.
  split; [vm_compute; reflexivity|].
  assert (Hupdate :
    FontSize.updateFontSize (FontSizeProps.quietHost FontSizeProps.relayDown)
      (Some FontSizeProps.layerAt12) (FontSize.JOpaque (Some 24%float))
      (FontSize.mkTrace [] [])
    = (Threw (FontSize.fontSizeUpdateError (Some FontSizeProps.layerAt12)
                (mcpWriteError (fileWriteError FontSizeProps.diskFull
                                               FontSizeProps.diskFull))),
       FontSize.mkTrace [FontSize.Updated FontSize.DomApi; FontSize.Waited 500]
                        [PrimaryCreateFile; FallbackCreateTemp]))
    by (vm_compute; reflexivity).
  split; [exact Hupdate|]. split.
  - intros H.
    destruct (H relayNoTemp (Some (mkData js:"hello" [])) [] _ [] eq_refl)
      as (evs & Hevs & Hin & _).
    destruct evs; [by apply not_elem_of_nil in Hin|discriminate Hevs].
  - intros H. apply (H _ _ _ _ _ _ Hupdate FontSize.DomApi). left.
Qed.

Lemma relay_retries_once_and_rows_go_on_witness :
  (exists result w',
      Pipeline.processTextRow (RowStageProps.studio FontSizeProps.relayDown)
        (BatchProps.rowOf "A") 0 1 (Some BatchProps.outFolders)
        RowStageProps.atTitle
      = (Returned result, w'))
  /\ (Pipeline.processTextRow
        (Pipeline.withRelay FontSizeProps.relayUp
           (RowStageProps.studio FontSizeProps.relayUp))
        (BatchProps.rowOf "A") 0 1 (Some BatchProps.outFolders)
        RowStageProps.atTitle).1
     = (Pipeline.processTextRow
          (Pipeline.withRelay FontSizeProps.relayDown
             (RowStageProps.studio FontSizeProps.relayUp))
          (BatchProps.rowOf "A") 0 1 (Some BatchProps.outFolders)
          RowStageProps.atTitle).1.
Proof.
  destruct relay_retries_once_and_rows_go_on as (_ & _ & Hreturns & Hsame).
  split.
  - apply (Hreturns _ _ _ _ _ _ BatchProps.titleDoc); [reflexivity|].
    intros H. vm_compute in H. discriminate H.
  - apply (Hsame (RowStageProps.studio FontSizeProps.relayUp)
                 FontSizeProps.relayUp FontSizeProps.relayDown
                 _ _ _ _ _ BatchProps.titleDoc); reflexivity.
Defined.

End PipelineProps.

(** ** More on the CSV loader *)

Module CsvMore.
Import Csv CsvProps.

Definition sizeOk (v : Js.str) : Prop := v = [] \/ Js.parseFloat_isNaN v = false.

Definition sizesOk (row : Row) : Prop :=
  forall h v, row !! h = Some v -> isFontSizeColumn h = true -> sizeOk v.

Lemma rowStep_sizesOk acc hv : sizesOk acc.1 -> sizesOk (rowStep acc hv).1.
Proof.
  destruct acc as [o d], hv as [header value]. intros Hok h v.
  destruct (decide (h = header)) as [->|Hne].
  - destruct (decide (header = js:"__proto__")) as [->|Hp];
      [intros _ Hfont; vm_compute in Hfont; discriminate Hfont|].
    rewrite (rowStep_fst_same (o, d)) by done. intros [= <-] Hfont.
    unfold cleared, sizeOk. rewrite Hfont. simpl.
    destruct value as [|c value]; [by left|]. simpl.
    destruct (Js.parseFloat_isNaN (c :: value)) eqn:E; [by left|right; exact E].
  - rewrite (rowStep_fst_other (o, d)) by done. apply Hok.
Qed.

Lemma foldl_rowStep_sizesOk pairs : forall acc,
  sizesOk acc.1 -> sizesOk (foldl rowStep acc pairs).1.
Proof.
  induction pairs as [|hv pairs IH]; intros acc Hok; [done|].
  simpl. by apply IH, rowStep_sizesOk.
Qed.

Lemma buildRow_sizesOk headers values : sizesOk (buildRow headers values).1.
Proof. apply foldl_rowStep_sizesOk. intros h v. simpl. intros H. by apply lookup_empty_Some in H. Qed.

Lemma rowOfLine_elem headers lines row :
  row ∈ parseLines headers lines ->
  exists l, l ∈ lines /\ rowOfLine headers l = Some row.
Proof.
  rewrite parseLines_omap, list_elem_of_omap. intros (l & Hl & Hrow). eauto.
Qed.

Lemma rowOfLine_Some headers l row :
  rowOfLine headers l = Some row ->
  length (valuesOf l) = length headers
  /\ row = (buildRow headers (valuesOf l)).1
  /\ (buildRow headers (valuesOf l)).2 = true.
Proof.
  unfold rowOfLine, fieldCountMatches.
  destruct (Js.truthy (Js.trim l)); [|done]. simpl.
  destruct (length (valuesOf l) =? length headers) eqn:E; [|done].
  apply Nat.eqb_eq in E.
  destruct (buildRow headers (valuesOf l)) as [r d]. simpl.
  destruct d; [|done]. by intros [= <-].
Qed.

(** X1: in every row that [loadTextCSV] returns, a value under a name
    that starts with [fontsize] is empty or starts with a number that
    [parseFloat] reads: no other value survives the load. *)
Theorem loaded_fontsizes_are_numeric file content relay st st' data row h (v : Js.str) :
  read file = Returned content ->
  loadTextCSV file relay st = (Returned data, st') ->
  row ∈ data -> row !! h = Some v -> isFontSizeColumn h = true ->
  v = [] \/ Js.parseFloat_isNaN v = false.
Proof.
  intros Hread Hload Hrow Hv Hfont.
  rewrite (loadTextCSV_returns _ _ _ _ _ _ Hread Hload) in Hrow.
  apply rowOfLine_elem in Hrow as (l & _ & Hl).
  apply rowOfLine_Some in Hl as (_ & -> & _).
  by apply (buildRow_sizesOk (headersOf content) (valuesOf l) h v).
Qed.

Lemma rowStep_keys acc h v k :
  is_Some ((rowStep acc (h, v)).1 !! k)
  <-> is_Some (acc.1 !! k) \/ (k = h /\ k ≠ js:"__proto__").
Proof.
  destruct (decide (k = h)) as [->|Hne].
  - destruct (decide (h = js:"__proto__")) as [->|Hp].
    + destruct acc as [o d]. unfold rowStep. simpl.
      unfold Js.obj_set. rewrite decide_True by done.
      change (Js.startsWith js:"fontsize" js:"__proto__") with false. simpl.
      split; [by left|]. by intros [?|[_ ?]].
    + rewrite rowStep_fst_same by done. split; [by right|by eauto].
  - rewrite rowStep_fst_other by done. split; [by left|].
    by intros [?|[? _]].
Qed.

Lemma foldl_rowStep_keys pairs : forall acc k,
  is_Some ((foldl rowStep acc pairs).1 !! k)
  <-> is_Some (acc.1 !! k) \/ (k ∈ pairs.*1 /\ k ≠ js:"__proto__").
Proof.
  induction pairs as [|[h v] pairs IH]; intros acc k; simpl.
  - split; [by left|]. intros [?|[Hk _]]; [done|]. by apply not_elem_of_nil in Hk.
  - rewrite IH, rowStep_keys, elem_of_cons. tauto.
Qed.

(** X2: in every row that [loadTextCSV] returns, the names under which
    the row holds a value are the header names, [__proto__] apart. *)
Theorem loaded_row_keys file content relay st st' data row k :
  read file = Returned content ->
  loadTextCSV file relay st = (Returned data, st') ->
  row ∈ data ->
  is_Some (row !! k) <-> k ∈ headersOf content /\ k ≠ js:"__proto__".
Proof.
  intros Hread Hload Hrow.
  rewrite (loadTextCSV_returns _ _ _ _ _ _ Hread Hload) in Hrow.
  apply rowOfLine_elem in Hrow as (l & _ & Hl).
  apply rowOfLine_Some in Hl as (Hlen & -> & _).
  unfold buildRow. rewrite foldl_rowStep_keys. cbn [fst].
  rewrite fst_zip by lia. split.
  - intros [[x Hx]|H]; [by apply lookup_empty_Some in Hx|done].
  - by right.
Qed.

Lemma text_not_fontsize t : isTextColumn t = true -> isFontSizeColumn t = false.
Proof.
  unfold isTextColumn, isFontSizeColumn.
  destruct t as [|c t]; [done|].
  cbn [Js.lit Js.startsWith]. change (Js.lit "text") with (116%N :: Js.lit "ext").
  change (Js.lit "fontsize") with (102%N :: Js.lit "ontsize").
  cbn [Js.startsWith].
  destruct (N.eqb_spec 116 c) as [<-|]; [done|]. done.
Qed.

Lemma text_not_proto t : isTextColumn t = true -> t ≠ js:"__proto__".
Proof. intros H ->. by vm_compute in H. Qed.

(** X3: when the column names of the header are distinct, every row
    that [loadTextCSV] returns holds a non-empty value under one of its
    [text] names. *)
Theorem loaded_row_has_content file content relay st st' data row :
  read file = Returned content ->
  loadTextCSV file relay st = (Returned data, st') ->
  NoDup (headersOf content) ->
  row ∈ data ->
  exists t (c : Js.str), isTextColumn t = true /\ row !! t = Some c /\ c ≠ [].
Proof.
  intros Hread Hload Hnodup Hrow.
  rewrite (loadTextCSV_returns _ _ _ _ _ _ Hread Hload) in Hrow.
  apply rowOfLine_elem in Hrow as (l & _ & Hl).
  apply rowOfLine_Some in Hl as (Hlen & -> & Hdata).
  unfold buildRow in Hdata. rewrite foldl_rowStep_snd in Hdata. simpl in Hdata.
  apply existsb_exists in Hdata as ([t c] & Hin & Htc). simpl in Htc.
  apply andb_prop in Htc as [Htext Hc].
  apply list_elem_of_In, list_elem_of_lookup in Hin as [i Hi].
  rewrite lookup_zip_with in Hi.
  destruct (headersOf content !! i) as [t'|] eqn:Ht;
    destruct (valuesOf l !! i) as [c'|] eqn:Hc'; simpl in Hi; try done.
  injection Hi as -> ->.
  exists t, c. split; [done|]. split; [|by destruct c].
  rewrite (buildRow_last_column _ _ i t c); auto using text_not_proto.
  - unfold cleared. by rewrite (text_not_fontsize t).
  - intros k Hk Hdup. pose proof (NoDup_lookup _ _ _ _ Hnodup Ht Hdup). lia.
Qed.

(** *** Concrete runs *)

Definition twoColumns : Js.str := js:"text1,fontsize1" ++ newline ++ js:"hi,abc".
Definition twoColumnsFile : File := mkFile js:"data.csv" (Returned twoColumns).
Definition hiRow : Row :=
  (buildRow (headersOf twoColumns) (valuesOf js:"hi,abc")).1.

Lemma twoColumns_loaded :
  loadTextCSV twoColumnsFile (Returned []) createPluginState
  = (Returned [hiRow], sampleState [hiRow]).
Proof. vm_compute. reflexivity. Qed.

Lemma loaded_fontsizes_are_numeric_witness :
  hiRow !! js:"fontsize1" = Some []
  /\ (([] : Js.str) = [] \/ Js.parseFloat_isNaN [] = false).
Proof.
  assert (Hcell : hiRow !! js:"fontsize1" = Some []) by (vm_compute; reflexivity).
  split; [exact Hcell|].
  apply (loaded_fontsizes_are_numeric twoColumnsFile twoColumns (Returned [])
           createPluginState (sampleState [hiRow]) [hiRow] hiRow js:"fontsize1" []);
    [reflexivity | exact twoColumns_loaded | apply list_elem_of_singleton; reflexivity
    | exact Hcell | reflexivity].
Defined.

Lemma loaded_row_keys_witness :
  is_Some (hiRow !! js:"text1")
  <-> js:"text1" ∈ headersOf twoColumns /\ js:"text1" ≠ js:"__proto__".
Proof.
  apply (loaded_row_keys twoColumnsFile twoColumns (Returned [])
           createPluginState (sampleState [hiRow]) [hiRow] hiRow js:"text1");
    [reflexivity | exact twoColumns_loaded | apply list_elem_of_singleton; reflexivity].
Defined.

Lemma loaded_row_has_content_witness :
  exists t (c : Js.str),
    isTextColumn t = true /\ hiRow !! t = Some c /\ c ≠ [].
Proof.
  apply (loaded_row_has_content twoColumnsFile twoColumns (Returned [])
           createPluginState (sampleState [hiRow]) [hiRow] hiRow);
    [reflexivity | exact twoColumns_loaded
    | apply (bool_decide_unpack _); vm_compute; exact I
    | apply list_elem_of_singleton; reflexivity].
Defined.

End CsvMore.

(** ** More on the batch controller *)

Module ControllerMore.
Import Batch BatchProps.

Section Runs.

Context {W : Type}.
Variable activeDocument : W -> option Doc.
Variable processLayer : DocLayer -> Row -> Js.str -> Eff W LayerUpdate.
Variable saveAsPNG : Js.str -> option Folders.OutputFolders -> Eff W (option bool).
Variable writeToMCPRelay : Eff W Js.str.
Variable setupTextOutputFolders : option Entry -> Eff W Folders.OutputFolders.
Variable stopClicked : W -> bool.

Abbreviation processTextRow :=
  (Batch.processTextRow activeDocument processLayer saveAsPNG writeToMCPRelay).
Abbreviation processTextReplacement :=
  (Batch.processTextReplacement activeDocument processLayer saveAsPNG
     writeToMCPRelay setupTextOutputFolders stopClicked).




(** X6: in the mode "current row", a run whose set-up succeeds handles
    the row at the cursor and no other: when that row comes back, the
    cursor moves on by one; when the cursor is past the last row, no row
    is handled and the cursor stays. *)
Theorem current_row_only s out s' rows outDir doc folders w :
  csvData (plugin s) = Some rows ->
  rows ≠ [] ->
  outputFolder (plugin s) = Some outDir ->
  activeDocument (world s) = Some doc ->
  setupTextOutputFolders (Some outDir) (world s) = (Returned folders, w) ->
  processTextReplacement (Some Current) s = (out, s') ->
  match rows !! processedRows (plugin s) with
  | Some row =>
      match processTextRow row (processedRows (plugin s)) (length rows)
                           (Some folders) w with
      | (Returned _, w1) =>
          trace s' = trace s ++ [ProcessingRow (processedRows (plugin s))]
          /\ processedRows (plugin s') = processedRows (plugin s) + 1
          /\ world s' = (writeToMCPRelay w1).2
      | (Threw e, w1) =>
          out = Threw e
          /\ trace s' = trace s ++ [ProcessingRow (processedRows (plugin s))]
          /\ processedRows (plugin s') = processedRows (plugin s)
          /\ world s' = w1
      end
  | None =>
      trace s' = trace s ++ [NoMoreRows]
      /\ processedRows (plugin s') = processedRows (plugin s)
      /\ world s' = (writeToMCPRelay w).2
  end.
Proof.
  intros Hcsv Hne Hout Hdoc Hsetup.
  unfold Batch.processTextReplacement, Batch.runRows, Batch.await.
  generalize (Batch.processTextRow activeDocument processLayer saveAsPNG
                writeToMCPRelay). intros ptr.
  unfold finally, try_catch, bind, get, ret, throw, resetStopProcessing,
    shouldStopProcessing, logLine, onPlugin, modify.
  cbn. rewrite Hcsv, Hout, Hdoc.
  destruct rows as [|row0 rows0]; [done|].
  cbn [world plugin trace]. rewrite Hsetup. cbn [world plugin trace].
  assert (Hc : processedRows
                 (if stopClicked w
                  then requestStopProcessing
                         (set_isProcessing true (set_stop false (plugin s)))
                  else set_isProcessing true (set_stop false (plugin s)))
               = processedRows (plugin s)) by (by destruct (stopClicked w)).
  rewrite !Hc. clear Hc.
  destruct ((row0 :: rows0) !! processedRows (plugin s)) as [row|];
    cbn [world plugin trace].
  - destruct (ptr row _ _ _ w) as [[r|e] w1]; cbn [world plugin trace].
    + destruct (writeToMCPRelay w1) as [[p|e] w2]; intros [= <- <-]; cbn;
        by destruct (stopClicked w), (stopClicked w1), (stopClicked w2).
    + intros [= <- <-]; cbn. by destruct (stopClicked w), (stopClicked w1).
  - destruct (writeToMCPRelay w) as [[p|e] w2]; intros [= <- <-]; cbn;
      by destruct (stopClicked w), (stopClicked w2).
Qed.

End Runs.


Lemma current_row_only_witness :
  trace (Batch.processTextReplacement (fun _ => Some titleDoc) layerOk pngOk
           relayOk setupOk (fun _ => false) (Some Current) loaded).2
  = [ProcessingRow 0]
  /\ processedRows
       (plugin (Batch.processTextReplacement (fun _ => Some titleDoc) layerOk pngOk
                  relayOk setupOk (fun _ => false) (Some Current) loaded).2)
     = 1.
Proof.
  pose proof (current_row_only (fun _ => Some titleDoc) layerOk pngOk relayOk
                setupOk (fun _ => false) loaded _ _ threeRows outDir titleDoc
                outFolders 0 eq_refl ltac:(discriminate) eq_refl eq_refl eq_refl
                (surjective_pairing _)) as H.
  vm_compute in H. destruct H as (Htrace & Hcursor & _).
  split; vm_compute; assumption.
Defined.

End ControllerMore.

(** ** More on folder provisioning *)

Module FoldersMore.
Import Folders FoldersProps.

Lemma setup_denied out fs :
  children fs !! textPng = None ->
  setupTextOutputFolders false (Some out) fs
  = (Threw (folderSetupError (folderCreateError (HostError js:"Permission denied"))),
     fs).
Proof.
  intros He.
  unfold setupTextOutputFolders, try_catch, bind, getEntry, createEntry, throw, ret.
  rewrite He. simpl. by rewrite He.
Qed.

(** X7: what [setupTextOutputFolders] leaves in the output folder.  When
    it fails, the error is [FOLDER_SETUP_ERROR] and the folder is as it
    was.  When it succeeds, the folder it returns is the entry stored
    under [Text_PNG], a folder below the base folder given; its path is
    returned with forward slashes only; and no other entry of the output
    folder has changed. *)
Theorem setup_touches_only_text_png writable outputFolder fs :
  match setupTextOutputFolders writable outputFolder fs with
  | (Threw e, fs') => code e = Some "FOLDER_SETUP_ERROR" /\ fs' = fs
  | (Returned folders, fs') =>
      outputFolder = Some (baseFolder folders)
      /\ children fs' !! textPng = Some (pngFolder folders)
      /\ isFolder (pngFolder folders) = true
      /\ pngNativePath folders = Js.slashes (nativePath (pngFolder folders))
      /\ (92%N ∉ pngNativePath folders)
      /\ (forall k, k ≠ textPng -> children fs' !! k = children fs !! k)
  end.
Proof.
  assert (Hslash : forall s : Js.str, 92%N ∉ Js.slashes s).
  { intros s. unfold Js.slashes. rewrite list_elem_of_fmap. intros (c & Hc & _).
    destruct (c =? 92)%N eqn:E; [done|]. subst c. by rewrite N.eqb_refl in E. }
  destruct outputFolder as [out|]; [|done].
  destruct (children fs !! textPng) as [e|] eqn:He.
  - destruct (isFolder e) eqn:Hf.
    + rewrite (setup_reuses _ _ _ e) by done. simpl. by repeat split.
    + by rewrite (setup_conflict _ _ _ e).
  - destruct writable.
    + rewrite setup_creates by done. simpl.
      split; [done|]. split; [apply lookup_insert_eq|]. split; [done|].
      split; [done|]. split; [apply Hslash|].
      intros k Hk. by rewrite lookup_insert_ne.
    + by rewrite setup_denied.
Qed.

End FoldersMore.

(** ** Layer updates *)

Module LayersProps.
Import Layers.

Lemma lineBreaks_eq c1 c2 c3 c4 (s' : Js.str) :
  lineBreaks (c1 :: c2 :: c3 :: c4 :: s')
  = if ((c1 =? 124) && (c2 =? 98) && (c3 =? 114) && (c4 =? 124))%N
    then 13%N :: lineBreaks s'
    else c1 :: lineBreaks (c2 :: c3 :: c4 :: s').
Proof. reflexivity. Qed.

Lemma lineBreaks_cons c (t : Js.str) :
  c ≠ 124%N -> lineBreaks (c :: t) = c :: lineBreaks t.
Proof.
  intros Hc. destruct t as [|c2 [|c3 [|c4 s']]]; try reflexivity.
  rewrite lineBreaks_eq. by destruct (N.eqb_spec c 124) as [->|_].
Qed.

Lemma lineBreaks_length_le n : forall s : Js.str,
  length s <= n -> length (lineBreaks s) <= length s.
Proof.
  induction n as [|n IH]; intros s Hn.
  - destruct s; [done|simpl in Hn; lia].
  - destruct s as [|c1 [|c2 [|c3 [|c4 s']]]]; try (simpl; lia).
    rewrite lineBreaks_eq.
    destruct ((c1 =? 124) && (c2 =? 98) && (c3 =? 114) && (c4 =? 124))%N.
    + specialize (IH s'). cbn [length] in *. lia.
    + specialize (IH (c2 :: c3 :: c4 :: s')). cbn [length] in *. lia.
Qed.

(** X8: [replaceText] turns [|br|] into a carriage return and leaves
    the rest of the text alone: a text without a vertical bar is written
    as it is, a text never gets longer, and [A|br|B] becomes [A], a
    carriage return and [B]. *)
Theorem lineBreaks_spares_plain_text (s : Js.str) :
  (124%N ∉ s -> lineBreaks s = s)
  /\ length (lineBreaks s) <= length s
  /\ (forall a b : Js.str,
        124%N ∉ a -> lineBreaks (a ++ js:"|br|" ++ b) = a ++ 13%N :: lineBreaks b).
Proof.
  split; [|split].
  - induction s as [|c t IH]; [done|]. intros Hno.
    apply not_elem_of_cons in Hno as [Hc Ht].
    rewrite lineBreaks_cons by done. by rewrite IH.
  - by apply (lineBreaks_length_le (length s)).
  - intros a b. induction a as [|c a IH]; [done|]. intros Hno.
    apply not_elem_of_cons in Hno as [Hc Ha].
    rewrite <- app_comm_cons, lineBreaks_cons by done. by rewrite IH.
Qed.

Lemma try_wrap_inv {S A} (m : Eff S A) (wrap : JsError -> JsError) s e s' :
  try_catch m (fun error => throw (wrap error)) s = (Threw e, s') ->
  exists cause, m s = (Threw cause, s') /\ e = wrap cause.
Proof.
  unfold try_catch, throw. destruct (m s) as [[a|c] s1]; [done|].
  intros [= <- <-]. eauto.
Qed.

Lemma replaceText_run h layer newText t :
  replaceText h layer newText t
  = if FontSize.hasName layer then
      let layerName := FontSize.layerNameText layer in
      match executeAsModal h layerName, select h layerName,
            setTextKey h layerName (lineBreaks newText) with
      | Returned _, Returned _, Returned _ =>
          (Returned true,
           mkTrace (written t ++ [(layerName, lineBreaks newText)]) (font t))
      | Threw e, _, _ | Returned _, Threw e, _ | Returned _, Returned _, Threw e =>
          (Threw (textReplaceError layer e), t)
      end
    else (Threw (textReplaceError layer
                   (PluginError js:"Invalid layer object" "INVALID_LAYER" [])), t).
Proof.
  unfold replaceText, try_catch, bind, host, modify, throw, ret.
  destruct (FontSize.hasName layer); [|done]. simpl.
  destruct (executeAsModal h _) as [[]|]; [|done].
  destruct (select h _) as [[]|]; [|done].
  by destruct (setTextKey h _ _) as [[]|].
Qed.

Lemma updateFontSize_throws_wrapped h layer fontSize t e t' :
  FontSize.updateFontSize h layer fontSize t = (Threw e, t') ->
  exists cause, e = FontSize.fontSizeUpdateError layer cause.
Proof.
  unfold FontSize.updateFontSize. intros H.
  apply try_wrap_inv in H as (cause & _ & ->). eauto.
Qed.

(** The text that the row holds for the layer, as written. *)
Definition textOf (layer : option FontSize.Layer) (row : Row) (index : Js.str)
  : list (Js.str * Js.str) :=
  match row !! Batch.textKey index with
  | Some (c :: newText) => [(FontSize.layerNameText layer, lineBreaks (c :: newText))]
  | _ => []
  end.

(** X9: [processLayer] replaces the text before it sets the size and
    undoes nothing.  When it returns, its flags say which of the two
    cells the row had, and the text of the row is written.  When it
    throws, the error is [LAYER_PROCESS_ERROR] around its cause; the cause
    is the parameter check or a failed text replacement, with nothing
    written, or a failed size update, and then the text of the row stays
    written. *)
Theorem processLayer_text_then_size h layer row index t :
  match processLayer h layer (Some row) index t with
  | (Returned u, t') =>
      Batch.updatedLayer u = FontSize.layerNameText layer
      /\ Batch.textUpdated u = Js.has row (Batch.textKey index)
      /\ Batch.fontSizeUpdated u = Js.has row (Batch.fontSizeKey index)
      /\ written t' = written t ++ textOf layer row index
  | (Threw e, t') =>
      exists cause,
        e = layerProcessError layer cause
        /\ (cause = invalidLayerParams /\ t' = t
            \/ (exists c, cause = textReplaceError layer c) /\ t' = t
            \/ (exists c, cause = FontSize.fontSizeUpdateError layer c)
               /\ written t' = written t ++ textOf layer row index)
  end.
Proof.
  unfold processLayer, textOf, Js.has.
  change (@lookup Js.str Js.str (gmap Js.str Js.str) _)
    with (@lookup Js.str (list N) Row _).
  unfold try_catch at 1.
  destruct (FontSize.hasName layer && Js.truthy index) eqn:Hok.
  2: { unfold throw. eexists. split; [reflexivity|]. by left. }
  unfold bind at 1.
  assert (Hsize : forall text t1,
    written t1 = written t ++ textOf layer row index ->
    (text = match @lookup Js.str (list N) Row _ (Batch.textKey index) row with
            | Some v => Js.truthy v | None => false end) ->
    match
      (let (o, s') :=
         (let! fontSize
          := match @lookup Js.str (list N) Row _ (Batch.fontSizeKey index) row with
             | Some (c :: size) =>
                 try! (do! zoom font (fun f t0 => mkTrace (written t0) f)
                             (FontSize.updateFontSize
                                (fontSizeHost h (FontSize.layerNameText layer))
                                layer (cellValue h (c :: size))) in
                       ret true)
                 catch fontError => throw fontError
             | _ => ret false
             end
          in ret (Batch.mkUpdate (FontSize.layerNameText layer) text fontSize)) t1 in
       match o with
       | Returned a => (Returned a, s')
       | Threw e => throw (layerProcessError layer e) s'
       end)
    with
    | (Returned u, t') =>
        Batch.updatedLayer u = FontSize.layerNameText layer
        /\ Batch.textUpdated u
           = match @lookup Js.str (list N) Row _ (Batch.textKey index) row with
             | Some v => Js.truthy v | None => false end
        /\ Batch.fontSizeUpdated u
           = match @lookup Js.str (list N) Row _ (Batch.fontSizeKey index) row with
             | Some v => Js.truthy v | None => false end
        /\ written t' = written t ++ textOf layer row index
    | (Threw e, t') =>
        exists cause,
          e = layerProcessError layer cause
          /\ (cause = invalidLayerParams /\ t' = t
              \/ (exists c, cause = textReplaceError layer c) /\ t' = t
              \/ (exists c, cause = FontSize.fontSizeUpdateError layer c)
                 /\ written t' = written t ++ textOf layer row index)
    end).
  { intros text t1 Hw ->. unfold bind, try_catch, ret, throw, zoom.
    destruct (@lookup Js.str (list N) Row _ (Batch.fontSizeKey index) row)
      as [[|c size]|]; simpl; try done.
    destruct (FontSize.updateFontSize _ _ _ (font t1)) as [[b|e] f] eqn:Hup; simpl.
    - done.
    - apply updateFontSize_throws_wrapped in Hup as [cause ->].
      eexists. split; [reflexivity|]. right. right. split; [by eexists|done]. }
  unfold textOf in Hsize.
  change (@lookup Js.str Js.str (gmap Js.str Js.str) _)
    with (@lookup Js.str (list N) Row _) in Hsize.
  destruct (@lookup Js.str (list N) Row _ (Batch.textKey index) row)
    as [[|c newText]|] eqn:Htext.
  - apply Hsize; [by rewrite app_nil_r|done].
  - unfold try_catch at 1, bind at 1. rewrite replaceText_run.
    apply andb_prop in Hok as [-> _]. cbn zeta.
    destruct (executeAsModal h _) as [[]|e1]; simpl.
    2: { eexists. split; [reflexivity|]. right. left. split; [by eexists|done]. }
    destruct (select h _) as [[]|e2]; simpl.
    2: { eexists. split; [reflexivity|]. right. left. split; [by eexists|done]. }
    destruct (setTextKey h _ _) as [[]|e3]; simpl.
    2: { eexists. split; [reflexivity|]. right. left. split; [by eexists|done]. }
    by apply Hsize.
  - apply Hsize; [by rewrite app_nil_r|done].
Qed.

End LayersProps.

(** ** The row stage and the export *)

Module RowStageMore.
Import Batch Pipeline RowStageProps.

Lemma saveAsPNG_returns h pngPath folders w :
  exists result, (Pipeline.saveAsPNG h pngPath folders w).1 = Returned result.
Proof.
  unfold Pipeline.saveAsPNG, zoom. rewrite PngProps.v2_chain.
  destruct (PngProps.reachesMethods _ _ _); [|by eexists].
  destruct (PngProps.method1Error _); [|by eexists].
  destruct (PngProps.method2Error _); [|by eexists].
  destruct (PngProps.method3Error _); by eexists.
Qed.

Definition layerError (e : RowError) : Prop :=
  errorType e = None /\ is_Some (errorLayer e).

Lemma layerLoop_layer_errors {W} (processLayer : DocLayer -> Row -> Js.str -> Eff W LayerUpdate)
    row textLayers : forall vars w,
  Forall layerError vars.2 ->
  exists layerUpdates errors w',
    Batch.layerLoop processLayer row textLayers vars w
    = (Returned (layerUpdates, errors), w')
    /\ Forall layerError errors.
Proof.
  induction textLayers as [|[layer index] rest IH]; intros [ups errs] w Herrs.
  - by exists ups, errs, w.
  - simpl. destruct (hasRowData row index); [|by apply IH].
    unfold bind at 1, try_catch, bind at 1, ret.
    destruct (processLayer layer row index w) as [[r|e] w1]; simpl.
    + by apply IH.
    + apply IH. simpl. apply Forall_app. split; [done|].
      apply Forall_singleton. by split.
Qed.

(** X10: the row stage on its real collaborators.  It throws only for
    want of a document or of a numbered text layer, before any call into
    the host.  Otherwise it returns; every error it lists is the error of
    a layer; and it reports the PNG as saved exactly when at least one
    layer was processed, whatever became of the export: the current
    [saveAsPNG] never throws, and its result is not looked at. *)
Theorem row_reports_png_saved h row index total f w :
  match Pipeline.processTextRow h row index total (Some f) w with
  | (Returned result, _) =>
      success result = (0 <? processed result)
      /\ filesSavedPng result = success result
      /\ (forall errs, errors result = Some errs -> Forall layerError errs)
  | (Threw e, w') => (e = noActiveDoc \/ e = noTextLayers) /\ w' = w
  end.
Proof.
  unfold Pipeline.processTextRow, Batch.processTextRow.
  unfold bind at 1, get. destruct (document w) as [doc|]; [|by split; [left|]].
  unfold try_catch. destruct (length (textLayersOf doc) =? 0);
    [by split; [right|]|].
  unfold bind at 1.
  destruct (layerLoop_layer_errors (Pipeline.processLayer h) row (textLayersOf doc)
              ([], []) w) as (ups & errs & w1 & -> & Herrs); [done|].
  unfold bind at 1.
  destruct (0 <? length ups) eqn:Hups; [|unfold ret; simpl].
  - rewrite saveStep_run.
    destruct (saveAsPNG_returns h (pngPathOf row f) (Some f) w1) as [r ->].
    simpl. split; [done|]. split; [done|].
    intros errs'. by destruct errs; intros [= <-].
  - split; [done|]. split; [done|].
    intros errs'. by destruct errs; intros [= <-].
Qed.

(** With a font size in the row, the relay write inside
    [updateFontSize] decides what becomes of the layer: with the relay
    store down the layer counts as failed although its text and its size
    were set. *)
Example fontsize_row_depends_on_relay :
  let row : Row := {[ js:"text1" := js:"A"; js:"fontsize1" := js:"24" ]} in
  (Pipeline.processTextRow (studio FontSizeProps.relayUp) row 0 1
     (Some BatchProps.outFolders) atTitle).1
  = Returned (mkRowResult true 1 None true)
  /\ exists errs,
      (Pipeline.processTextRow (studio FontSizeProps.relayDown) row 0 1
         (Some BatchProps.outFolders) atTitle).1
      = Returned (mkRowResult false 0 (Some errs) false).
Proof. split; [vm_compute; reflexivity|]. eexists. vm_compute. reflexivity. Qed.

(** The export fails in every method, and the row still counts its PNG
    as saved. *)
Example failed_export_counts_as_saved :
  (Pipeline.processTextRow
     (Pipeline.mkHost (layers (studio FontSizeProps.relayUp))
                      (fun _ => PngProps.allMethodsThrow))
     (BatchProps.rowOf "A") 0 1 (Some BatchProps.outFolders) atTitle).1
  = Returned (mkRowResult true 1 None true).
Proof. vm_compute. reflexivity. Qed.

End RowStageMore.

(** ** Panel buttons *)

Module HandlersProps.
Import Csv Handlers.

(** X11: a click on Load CSV never throws.  When the file is read and
    its rows are stored but the relay write that follows fails, the panel
    keeps the new rows together with the old cursor: the rows are
    replaced, [csvLoaded] is down, and [processedRows] is what it was, not
    zero.  When the relay write comes back, the cursor is zero. *)
Theorem load_click_keeps_cursor_on_relay_failure file content relay p :
  read file = Returned content ->
  filter (fun h => isTextColumn h = true) (headersOf content) ≠ [] ->
  parseLines (headersOf content) (dataLinesOf content) ≠ [] ->
  let rows := parseLines (headersOf content) (dataLinesOf content) in
  loadCSVClicked (Returned (Some file)) relay p
  = (Returned tt,
     match relay with
     | Returned _ =>
         mkState (isProcessing p) true (length rows) 0 (Some rows)
                 (outputFolder p) (stopProcessingRequested p)
     | Threw _ =>
         mkState (isProcessing p) false (length rows) (processedRows p) (Some rows)
                 (outputFolder p) (stopProcessingRequested p)
     end).
Proof.
  intros Hread Htext Hrows rows.
  unfold loadCSVClicked, loadTextCSV, try_catch, bind, host, modify, throw, ret.
  rewrite Hread. fold rows.
  destruct (filter _ (headersOf content)) as [|t ts]; [done|]. simpl.
  destruct rows as [|r rs] eqn:E; [done|]. simpl.
  by destruct relay.
Qed.

Lemma restartClicked_run relay p :
  restartClicked relay p = (Returned tt, set_processedRows 0 p).
Proof. unfold restartClicked, try_catch, bind, host, modify, ret. by destruct relay. Qed.

Lemma load_click_keeps_cursor_on_relay_failure_witness :
  loadCSVClicked (Returned (Some CsvMore.twoColumnsFile))
                 (Threw FontSizeProps.diskFull)
                 (mkState false true 3 2 (Some BatchProps.threeRows) None false)
  = (Returned tt, mkState false false 1 2 (Some [CsvMore.hiRow]) None false).
Proof.
  apply (load_click_keeps_cursor_on_relay_failure CsvMore.twoColumnsFile
           CsvMore.twoColumns (Threw FontSizeProps.diskFull)
           (mkState false true 3 2 (Some BatchProps.threeRows) None false));
    [reflexivity | intros H; vm_compute in H; discriminate H
    | intros H; vm_compute in H; discriminate H].
Defined.

Section AfterRestart.

Context {W : Type}.
Variable activeDocument : W -> option Batch.Doc.
Variable processLayer : Batch.DocLayer -> Row -> Js.str -> Eff W Batch.LayerUpdate.
Variable saveAsPNG : Js.str -> option Folders.OutputFolders -> Eff W (option bool).
Variable writeToMCPRelay : Eff W Js.str.
Variable setupTextOutputFolders : option Entry -> Eff W Folders.OutputFolders.
Variable stopClicked : W -> bool.

(** X12: a click on Restart never throws and puts the cursor at zero
    whatever its relay write does; the run over all rows that follows
    takes the rows from the first one on, when its set-up succeeds
    without a stop request. *)
Theorem restart_then_run_starts_over relay s out s' rows outDir doc folders w :
  csvData (Batch.plugin s) = Some rows ->
  rows ≠ [] ->
  outputFolder (Batch.plugin s) = Some outDir ->
  activeDocument (Batch.world s) = Some doc ->
  setupTextOutputFolders (Some outDir) (Batch.world s) = (Returned folders, w) ->
  stopClicked w = false ->
  Batch.processTextReplacement activeDocument processLayer saveAsPNG
    writeToMCPRelay setupTextOutputFolders stopClicked (Some Batch.All)
    (Batch.mkBatch (restartClicked relay (Batch.plugin s)).2
                   (Batch.world s) (Batch.trace s))
  = (out, s') ->
  (restartClicked relay (Batch.plugin s)).1 = Returned tt
  /\ (exists more,
        Batch.trace s' = Batch.trace s ++ Batch.ProcessingRow 0 :: more)
  /\ (out, Batch.world s')
     = BatchProps.processedFrom activeDocument processLayer saveAsPNG
         writeToMCPRelay stopClicked rows folders 0 w.
Proof.
  intros Hcsv Hne Hout Hdoc Hsetup Hquiet. rewrite restartClicked_run. simpl.
  intros Hrun. split; [done|]. split.
  - eapply (BatchProps.run_first _ _ _ _ _ _ _ _ _ rows outDir doc folders w) in Hrun;
      try done.
    simpl. destruct rows; [done|simpl; lia].
  - by eapply (BatchProps.run_processedFrom _ _ _ _ _ _ _ _ _ rows outDir doc folders w)
      in Hrun.
Qed.

End AfterRestart.

Lemma restart_then_run_starts_over_witness :
  exists more,
    Batch.trace
      (Batch.processTextReplacement (fun _ => Some BatchProps.titleDoc)
         BatchProps.layerOk BatchProps.pngOk BatchProps.relayOk BatchProps.setupOk
         (fun _ => false) (Some Batch.All)
         (Batch.mkBatch
            (restartClicked (Threw FontSizeProps.diskFull)
               (mkState false true 3 2 (Some BatchProps.threeRows)
                        (Some BatchProps.outDir) false)).2
            0 [])).2
    = [] ++ Batch.ProcessingRow 0 :: more.
Proof.
  destruct (restart_then_run_starts_over (fun _ => Some BatchProps.titleDoc)
              BatchProps.layerOk BatchProps.pngOk BatchProps.relayOk
              BatchProps.setupOk (fun _ => false) (Threw FontSizeProps.diskFull)
              (Batch.mkBatch (mkState false true 3 2 (Some BatchProps.threeRows)
                                      (Some BatchProps.outDir) false) 0 [])
              _ _ BatchProps.threeRows BatchProps.outDir BatchProps.titleDoc
              BatchProps.outFolders 0 eq_refl ltac:(discriminate) eq_refl eq_refl
              eq_refl eq_refl (surjective_pairing _)) as (_ & Hfirst & _).
  exact Hfirst.
Defined.

End HandlersProps.

(** ** Retrying a command *)

Module RetryProps.
Import Retry.

(** The pauses before the attempts 1 to [k]: 100 ms, doubled each time. *)
Definition backoff (k : nat) : list nat := (fun i => 100 * 2 ^ i) <$> seq 0 k.

Lemma backoff_S k : backoff (S k) = backoff k ++ [100 * 2 ^ k].
Proof. unfold backoff. by rewrite seq_S, fmap_app. Qed.

Lemma backoff_total k : sum_list (backoff k) + 100 = 100 * 2 ^ k.
Proof.
  induction k as [|k IH]; [done|].
  rewrite backoff_S, sum_list_with_app. cbn [sum_list_with id]. change (2 ^ S k) with (2 * 2 ^ k). lia.
Qed.

Section Loop.

Context {A : Type}.
Variable batchPlay : nat -> Outcome A.

Definition lastErrorAt (i : nat) : option JsError :=
  match i with
  | 0 => None
  | S j => match batchPlay j with Threw e => Some e | Returned _ => None end
  end.

Lemma attempts_run maxRetries : forall remaining i,
  i + remaining = maxRetries ->
  (forall j, j < i -> threw (batchPlay j) = true) ->
  exists k,
    i <= k <= maxRetries
    /\ (forall j, j < k -> threw (batchPlay j) = true)
    /\ attempts batchPlay maxRetries remaining i (lastErrorAt i)
                (backoff (i `min` (maxRetries - 1)))
       = match batchPlay k with
         | Returned result =>
             if decide (k < maxRetries) then (Done result, backoff k)
             else (GaveUp (lastErrorAt maxRetries), backoff (maxRetries - 1))
         | Threw _ => (GaveUp (lastErrorAt maxRetries), backoff (maxRetries - 1))
         end
    /\ (k < maxRetries -> threw (batchPlay k) = false).
Proof.
  induction remaining as [|remaining IH]; intros i Hi Hfailed.
  - exists maxRetries. assert (i = maxRetries) as -> by lia.
    split; [lia|]. split; [done|]. simpl.
    replace (maxRetries `min` (maxRetries - 1)) with (maxRetries - 1) by lia.
    split; [|lia].
    destruct (batchPlay maxRetries); [|done].
    by rewrite decide_False by lia.
  - simpl. destruct (batchPlay i) as [result|error] eqn:Hi'.
    + exists i. split; [lia|]. split; [done|]. rewrite Hi'.
      rewrite decide_True by lia.
      replace (i `min` (maxRetries - 1)) with i by lia.
      by split.
    + destruct (IH (S i)) as (k & Hk & Hbefore & Hrun & Hat); [lia| |].
      { intros j Hj. destruct (decide (j = i)) as [->|]; [by rewrite Hi'|].
        apply Hfailed. lia. }
      exists k. split; [lia|]. split; [done|]. split; [|done].
      cbn [lastErrorAt] in Hrun. rewrite Hi' in Hrun. rewrite <- Hrun. f_equal.
      destruct (Nat.ltb_spec i (maxRetries - 1)).
      * replace (i `min` (maxRetries - 1)) with i by lia.
        replace (S i `min` (maxRetries - 1)) with (S i) by lia.
        by rewrite backoff_S.
      * f_equal; lia.
Qed.

(** X13: [executeWithRetry] makes the attempts in order and stops at the
    first that comes back, after at most [maxRetries] of them.  Before
    each attempt but the first it has waited, 100 ms doubled each time,
    and never after the last attempt; so when it gives up it has waited
    [100 * (2 ^ (maxRetries - 1) - 1)] ms in all, and it throws the error
    of the last attempt ([undefined] when [maxRetries] is zero). *)
Theorem executeWithRetry_backs_off maxRetries :
  exists k,
    k <= maxRetries
    /\ (forall j, j < k -> threw (batchPlay j) = true)
    /\ match executeWithRetry batchPlay maxRetries with
       | (Done result, waits) =>
           k < maxRetries /\ batchPlay k = Returned result /\ waits = backoff k
       | (GaveUp lastError, waits) =>
           k = maxRetries
           /\ lastError = lastErrorAt maxRetries
           /\ waits = backoff (maxRetries - 1)
           /\ sum_list waits + 100 = 100 * 2 ^ (maxRetries - 1)
       end.
Proof.
  destruct (attempts_run maxRetries maxRetries 0) as (k & Hk & Hbefore & Hrun & Hat);
    [done|lia|].
  unfold executeWithRetry. change (backoff (0 `min` (maxRetries - 1))) with (@nil nat) in Hrun.
  change (lastErrorAt 0) with (@None JsError) in Hrun. rewrite Hrun.
  destruct (decide (k < maxRetries)) as [Hlt|Hge].
  - exists k. split; [lia|]. split; [done|].
    specialize (Hat Hlt). by destruct (batchPlay k) as [result|e].
  - exists maxRetries. assert (k = maxRetries) as -> by lia.
    split; [done|]. split; [done|].
    destruct (batchPlay maxRetries) as [result|e];
      (split; [done|]; split; [done|]; split; [done|]; apply backoff_total).
Qed.

End Loop.

End RetryProps.
